(** * Michaelhouse leave system: request parsing and eligibility engine

    A shallow embedding of
      - [processors/leave_parser.py]   (class [LeaveRequestParser]),
      - [processors/leave_processor.py] (class [LeaveProcessor], the parent
        path and the housemaster path),
      - [tools/placeholder_tools.py]    (class [LeaveSystemTools]),
      - [models/leave_models.py],
    together with the parts of the Python standard library they rest on
    ([str], [datetime], [re], [datetime.strptime]), followed by the
    properties of the engine stated in the specification (C1 to C10) and
    by further properties of the code (X1 to X23).

    Conventions.
      - A Python [str] is a [string]: a sequence of 8-bit characters, which
        stands for a text of ASCII characters.  On such a text the
        functions of Python that follow Unicode ([str.lower], [str.strip],
        the classes and [re.IGNORECASE] of [re]) do what the model does;
        the statements that depend on how a text outside ASCII would be
        read assume [is_ascii].
      - A Python exception is a value [Raise e] of the type [result].
      - The tools of the processor are an argument.  [Tools] are tools
        whose calls return, as those of [LeaveSystemTools]; [Raising.Tools]
        are tools whose calls may raise, as those of [DatabaseTools], and
        [Raising] is the parent path over them.
      - [datetime.now()] is the argument [now] of the functions that read
        the clock, [now1] and [now2] where they read it twice;
        [ClockedParser] gives the parser with the reading as an effect.
      - [print] appends a line to the output, the state of the tools. *)

From Stdlib Require Import ZArith Lia String Ascii List Bool DecimalString.
From stdpp Require Import gmap strings.

Local Open Scope string_scope.
Local Open Scope list_scope.
Local Open Scope Z_scope.

(* ===================================================================== *)
(** * Python values: exceptions, strings                                  *)
(* ===================================================================== *)

(** The exceptions of Python that the program can raise, and
    [psycopg2.OperationalError], which the tools of
    [tools/database_tools.py] raise when the database cannot be
    reached. *)
Inductive exn : Type :=
| OverflowError
| ValueError
| TypeError
| AttributeError
| UnboundLocalError
| OperationalError.

Inductive result (A : Type) : Type :=
| Ok (a : A)
| Raise (e : exn).

Arguments Ok {A} a.
Arguments Raise {A} e.

Definition rbind {A B : Type} (r : result A) (f : A -> result B) : result B :=
  match r with
  | Ok a => f a
  | Raise e => Raise e
  end.

Module Str.

(** [c.lower()] and [c.upper()] for one character of ASCII; the other
    characters are left as they are, where Python follows Unicode. *)
Definition lower_char (c : ascii) : ascii :=
  let n := nat_of_ascii c in
  if ((65 <=? n) && (n <=? 90))%nat then ascii_of_nat (n + 32) else c.

Definition upper_char (c : ascii) : ascii :=
  let n := nat_of_ascii c in
  if ((97 <=? n) && (n <=? 122))%nat then ascii_of_nat (n - 32) else c.

(** [s.lower()] *)
Fixpoint lower (s : string) : string :=
  match s with
  | EmptyString => EmptyString
  | String c s' => String (lower_char c) (lower s')
  end.

(** [sub in s] *)
Fixpoint contains (sub s : string) : bool :=
  String.prefix sub s ||
  match s with
  | EmptyString => false
  | String _ s' => contains sub s'
  end.

(** [any(x in s for x in xs)] *)
Definition any_in (xs : list string) (s : string) : bool :=
  existsb (fun x => contains x s) xs.

(** [s[:n]] *)
Fixpoint take (n : nat) (s : string) : string :=
  match n, s with
  | S n', String c s' => String c (take n' s')
  | _, _ => EmptyString
  end.

(** [str(n)] for an integer, and the zero-padded [f"{n:0{w}d}"]. *)
Definition of_Z (n : Z) : string :=
  NilZero.string_of_int (Z.to_int n).

Fixpoint zeros (n : nat) : string :=
  match n with
  | O => EmptyString
  | S n' => String "0" (zeros n')
  end.

Definition pad (w : nat) (n : Z) : string :=
  let s := of_Z n in
  zeros (w - String.length s) +:+ s.

(** [int(s)] for a string of decimal digits, blanks around them skipped. *)
Definition digit_val (c : ascii) : Z :=
  Z.of_nat (nat_of_ascii c) - 48.

Fixpoint to_Z_acc (acc : Z) (s : string) : Z :=
  match s with
  | EmptyString => acc
  | String c s' =>
      if Ascii.eqb c " " then to_Z_acc acc s'
      else to_Z_acc (10 * acc + digit_val c) s'
  end.

Definition to_Z (s : string) : Z := to_Z_acc 0 s.

(** Position of [x] in a list of strings ([xs.index(x)]). *)
Fixpoint index_of (x : string) (xs : list string) : option Z :=
  match xs with
  | [] => None
  | y :: ys =>
      if String.eqb x y then Some 0
      else option_map Z.succ (index_of x ys)
  end.

End Str.

(* ===================================================================== *)
(** * The [datetime] module                                               *)
(* ===================================================================== *)

(** A naive [datetime].  The calendar date is kept as its proleptic
    Gregorian ordinal ([toordinal()], day 1 is 0001-01-01), which is what
    [weekday()], [timedelta] arithmetic and comparison are defined on. *)
Record datetime : Type := mk_datetime {
  ordinal : Z;
  hour : Z;
  minute : Z;
  second : Z;
  microsecond : Z
}.

Module DT.

Definition MINYEAR : Z := 1.
Definition MAXYEAR : Z := 9999.
Definition MAXORDINAL : Z := 3652059.

Definition is_leap (year : Z) : bool :=
  (year mod 4 =? 0) && (negb (year mod 100 =? 0) || (year mod 400 =? 0)).

Definition days_before_year (year : Z) : Z :=
  let y := year - 1 in
  y * 365 + y / 4 - y / 100 + y / 400.

Definition DAYS_IN_MONTH : list Z :=
  [-1; 31; 28; 31; 30; 31; 30; 31; 31; 30; 31; 30; 31].

Definition DAYS_BEFORE_MONTH : list Z :=
  [-1; 0; 31; 59; 90; 120; 151; 181; 212; 243; 273; 304; 334].

Definition days_in_month (year month : Z) : Z :=
  if (month =? 2) && is_leap year then 29
  else nth (Z.to_nat month) DAYS_IN_MONTH 0.

Definition days_before_month (year month : Z) : Z :=
  nth (Z.to_nat month) DAYS_BEFORE_MONTH 0
  + (if (2 <? month) && is_leap year then 1 else 0).

Definition ymd2ord (year month day : Z) : Z :=
  days_before_year year + days_before_month year month + day.

(** The check of the [date] constructor: [ValueError] outside the calendar. *)
Definition check_date_fields (year month day : Z) : bool :=
  (MINYEAR <=? year) && (year <=? MAXYEAR)
  && (1 <=? month) && (month <=? 12)
  && (1 <=? day) && (day <=? days_in_month year month).

(** [datetime(year, month, day, hour, minute)] *)
Definition make (year month day hh mm : Z) : datetime :=
  mk_datetime (ymd2ord year month day) hh mm 0 0.

Definition DI400Y : Z := 146097.
Definition DI100Y : Z := 36524.
Definition DI4Y : Z := 1461.

(** [_ord2ymd]: the (year, month, day) of an ordinal. *)
Definition ord2ymd (n0 : Z) : Z * Z * Z :=
  let n := n0 - 1 in
  let n400 := n / DI400Y in
  let n := n mod DI400Y in
  let year := n400 * 400 + 1 in
  let n100 := n / DI100Y in
  let n := n mod DI100Y in
  let n4 := n / DI4Y in
  let n := n mod DI4Y in
  let n1 := n / 365 in
  let n := n mod 365 in
  let year := year + n100 * 100 + n4 * 4 + n1 in
  if (n1 =? 4) || (n100 =? 4) then (year - 1, 12, 31)
  else
    let leapyear := (n1 =? 3) && (negb (n4 =? 24) || (n100 =? 3)) in
    let month := Z.shiftr (n + 50) 5 in
    let preceding :=
      nth (Z.to_nat month) DAYS_BEFORE_MONTH 0
      + (if (2 <? month) && leapyear then 1 else 0) in
    if n <? preceding then
      let month := month - 1 in
      let preceding :=
        preceding
        - (nth (Z.to_nat month) DAYS_IN_MONTH 0
           + (if (month =? 2) && leapyear then 1 else 0)) in
      (year, month, n - preceding + 1)
    else (year, month, n - preceding + 1).

(** [d.weekday()]: Monday is 0, Sunday is 6. *)
Definition weekday (d : datetime) : Z := (ordinal d + 6) mod 7.

(** [d.replace(hour=h, minute=m)] *)
Definition replace_hm (d : datetime) (h m : Z) : datetime :=
  mk_datetime (ordinal d) h m (second d) (microsecond d).

(** [d.replace(hour=0, minute=0, second=0, microsecond=0)] *)
Definition replace_midnight (d : datetime) : datetime :=
  mk_datetime (ordinal d) 0 0 0 0.

(** [d + timedelta(days=k)]: [OverflowError] outside years 1..9999. *)
Definition add_days (d : datetime) (k : Z) : result datetime :=
  let o := ordinal d + k in
  if (0 <? o) && (o <=? MAXORDINAL)
  then Ok (mk_datetime o (hour d) (minute d) (second d) (microsecond d))
  else Raise OverflowError.

(** Comparison of naive datetimes: lexicographic on the fields. *)
Fixpoint lex_lt (xs ys : list Z) : bool :=
  match xs, ys with
  | x :: xs', y :: ys' => (x <? y) || ((x =? y) && lex_lt xs' ys')
  | [], _ :: _ => true
  | _, [] => false
  end.

Definition fields (d : datetime) : list Z :=
  [ordinal d; hour d; minute d; second d; microsecond d].

Definition lt (a b : datetime) : bool := lex_lt (fields a) (fields b).
Definition gt (a b : datetime) : bool := lt b a.

(** A value a [datetime] object can hold. *)
Definition wf (d : datetime) : Prop :=
  1 <= ordinal d <= MAXORDINAL /\
  0 <= hour d < 24 /\ 0 <= minute d < 60 /\
  0 <= second d < 60 /\ 0 <= microsecond d < 1000000.

Definition MONTH_NAMES : list string :=
  ["January"; "February"; "March"; "April"; "May"; "June"; "July";
   "August"; "September"; "October"; "November"; "December"].

Definition DAY_NAMES : list string :=
  ["Monday"; "Tuesday"; "Wednesday"; "Thursday"; "Friday"; "Saturday";
   "Sunday"].

(** [d.strftime(fmt)] for the directives the engine uses:
    %d %b %B %Y %H %M %A; any other character is copied. *)
Definition directive (d : datetime) (c : ascii) : string :=
  let '(y, m, dd) := ord2ymd (ordinal d) in
  if Ascii.eqb c "d" then Str.pad 2 dd
  else if Ascii.eqb c "B" then nth (Z.to_nat (m - 1)) MONTH_NAMES ""
  else if Ascii.eqb c "b" then Str.take 3 (nth (Z.to_nat (m - 1)) MONTH_NAMES "")
  else if Ascii.eqb c "Y" then Str.pad 4 y
  else if Ascii.eqb c "H" then Str.pad 2 (hour d)
  else if Ascii.eqb c "M" then Str.pad 2 (minute d)
  else if Ascii.eqb c "A" then nth (Z.to_nat (weekday d)) DAY_NAMES ""
  else String "%" (String c EmptyString).

Fixpoint strftime (d : datetime) (fmt : string) : string :=
  match fmt with
  | String "%" (String c rest) => directive d c +:+ strftime d rest
  | String c rest => String c (strftime d rest)
  | EmptyString => EmptyString
  end.

(** [str(d.date())] and [str(d)] *)
Definition str_date (d : datetime) : string :=
  let '(y, m, dd) := ord2ymd (ordinal d) in
  Str.pad 4 y +:+ "-" +:+ Str.pad 2 m +:+ "-" +:+ Str.pad 2 dd.

Definition str (d : datetime) : string :=
  str_date d +:+ " " +:+ Str.pad 2 (hour d) +:+ ":" +:+ Str.pad 2 (minute d)
  +:+ ":" +:+ Str.pad 2 (second d)
  +:+ (if microsecond d =? 0 then "" else "." +:+ Str.pad 6 (microsecond d)).

End DT.






(* ===================================================================== *)
(** * The [re] module: a backtracking matcher                             *)
(* ===================================================================== *)

Module Re.

(** The patterns of the program use literals, classes, concatenation,
    alternation, greedy bounded and unbounded repetition, capturing groups
    and [\b]. *)
Inductive regex : Type :=
| Eps
| Chr (c : ascii)
| Cls (ranges : list (ascii * ascii))
| Cat (r1 r2 : regex)
| Alt (r1 r2 : regex)
| Rep (r : regex) (lo : nat) (hi : option nat)
| Grp (n : nat) (r : regex)
| Wb.

Definition captures : Type := list (nat * string).

(** [m.group(n)] *)
Fixpoint group (n : nat) (caps : captures) : option string :=
  match caps with
  | [] => None
  | (k, v) :: rest => if Nat.eqb k n then Some v else group n rest
  end.

Definition in_range (x : ascii) (r : ascii * ascii) : bool :=
  ((nat_of_ascii (fst r) <=? nat_of_ascii x)
   && (nat_of_ascii x <=? nat_of_ascii (snd r)))%nat.

Definition in_ranges (rs : list (ascii * ascii)) (x : ascii) : bool :=
  existsb (in_range x) rs.

(** With [re.IGNORECASE] ([ic]) a character matches when it or its other
    case does.  This is the case of the ASCII letters: Python also takes
    a few characters outside ASCII for the same as "i", "s" and "k". *)
Definition chr_matches (ic : bool) (c x : ascii) : bool :=
  if ic then Ascii.eqb (Str.lower_char c) (Str.lower_char x)
  else Ascii.eqb c x.

Definition cls_matches (ic : bool) (rs : list (ascii * ascii)) (x : ascii)
  : bool :=
  in_ranges rs x
  || (ic && (in_ranges rs (Str.lower_char x)
             || in_ranges rs (Str.upper_char x))).

(** [\w] among the ASCII characters: letters, digits and the
    underscore. *)
Definition word_ranges : list (ascii * ascii) :=
  [("a", "z"); ("A", "Z"); ("0", "9"); ("_", "_")]%char.

Definition is_word (o : option ascii) : bool :=
  match o with
  | Some c => in_ranges word_ranges c
  | None => false
  end.

Definition head (s : string) : option ascii :=
  match s with
  | String c _ => Some c
  | EmptyString => None
  end.

(** The result of a match: the groups and the text after the match. *)
Definition outcome : Type := captures * string.

Definition cont : Type := option ascii -> string -> captures -> option outcome.

(** The rounds of a greedy repetition [r{lo,hi}] whose body is matched by
    [step]: one more round first, and the rest of the pattern ([k]) once
    no further round leads to a match.  Every round of the patterns of the
    program takes at least one character, so that [fuel] rounds are enough
    for a text of [fuel - 1] characters. *)
Fixpoint rep_loop
  (step : option ascii -> string -> captures -> cont -> option outcome)
  (fuel lo : nat) (hi : option nat) (prev : option ascii) (s : string)
  (caps : captures) (k : cont) {struct fuel} : option outcome :=
  let stop := if Nat.eqb lo 0 then k prev s caps else None in
  match fuel with
  | O => stop
  | S fuel' =>
      let again :=
        match hi with
        | Some O => None
        | _ =>
            step prev s caps
              (fun p' s' c' =>
                 rep_loop step fuel' (Nat.pred lo) (option_map Nat.pred hi)
                   p' s' c' k)
        end in
      match again with
      | Some o => Some o
      | None => stop
      end
  end.

(** [rmatch ic r prev s caps k]: match [r] at the front of [s] (the
    character before it is [prev]), then continue with [k]; alternatives
    are tried in order and a repetition takes as many rounds as it can
    before giving back. *)
Fixpoint rmatch (ic : bool) (r : regex) (prev : option ascii) (s : string)
  (caps : captures) (k : cont) {struct r} : option outcome :=
  match r with
  | Eps => k prev s caps
  | Chr c =>
      match s with
      | String x s' => if chr_matches ic c x then k (Some x) s' caps else None
      | EmptyString => None
      end
  | Cls rs =>
      match s with
      | String x s' => if cls_matches ic rs x then k (Some x) s' caps else None
      | EmptyString => None
      end
  | Cat r1 r2 =>
      rmatch ic r1 prev s caps (fun p' s' c' => rmatch ic r2 p' s' c' k)
  | Alt r1 r2 =>
      match rmatch ic r1 prev s caps k with
      | Some o => Some o
      | None => rmatch ic r2 prev s caps k
      end
  | Grp n r' =>
      rmatch ic r' prev s caps
        (fun p' s' c' =>
           k p' s'
             ((n, Str.take (String.length s - String.length s') s) :: c'))
  | Wb =>
      if xorb (is_word prev) (is_word (head s)) then k prev s caps else None
  | Rep r' lo hi =>
      rep_loop (rmatch ic r') (S (String.length s)) lo hi prev s caps k
  end.

Definition finish : cont := fun _ s caps => Some (caps, s).

(** [re.match(r, s)]: a match at the start of [s]. *)
Definition match_ (ic : bool) (r : regex) (s : string) : option outcome :=
  rmatch ic r None s [] finish.

(** [re.search(r, s)]: the leftmost match. *)
Fixpoint search_from (ic : bool) (r : regex) (prev : option ascii)
  (s : string) : option outcome :=
  match rmatch ic r prev s [] finish with
  | Some o => Some o
  | None =>
      match s with
      | String c s' => search_from ic r (Some c) s'
      | EmptyString => None
      end
  end.

Definition search (ic : bool) (r : regex) (s : string) : option captures :=
  option_map fst (search_from ic r None s).

(** Pattern syntax. *)
Fixpoint lit (s : string) : regex :=
  match s with
  | EmptyString => Eps
  | String c EmptyString => Chr c
  | String c s' => Cat (Chr c) (lit s')
  end.

Fixpoint seq (rs : list regex) : regex :=
  match rs with
  | [] => Eps
  | [r] => r
  | r :: rs' => Cat r (seq rs')
  end.

Fixpoint alts (rs : list regex) : regex :=
  match rs with
  | [] => Eps
  | [r] => r
  | r :: rs' => Alt r (alts rs')
  end.

Definition plus (r : regex) : regex := Rep r 1 None.
Definition star (r : regex) : regex := Rep r 0 None.
Definition opt (r : regex) : regex := Rep r 0 (Some 1%nat).
Definition times (r : regex) (lo hi : nat) : regex := Rep r lo (Some hi).

(** [\d], [\s], [[A-Z]], [[a-z]], [[-/]]; [\d] and [\s] among the ASCII
    characters. *)
Definition digit : regex := Cls [("0", "9")]%char.
Definition space : regex :=
  Cls [(" ", " "); ("009", "013"); ("028", "031")]%char.
Definition AZ : regex := Cls [("A", "Z")]%char.
Definition az : regex := Cls [("a", "z")]%char.
Definition dash_slash : regex := Cls [("-", "-"); ("/", "/")]%char.

(** A group that every match of a pattern sets: the group itself, a part
    of a concatenation, both sides of an alternation, the body of a
    repetition that runs at least once. *)
Fixpoint always_sets (n : nat) (r : regex) : bool :=
  match r with
  | Grp m r' => Nat.eqb m n || always_sets n r'
  | Cat r1 r2 => always_sets n r1 || always_sets n r2
  | Alt r1 r2 => always_sets n r1 && always_sets n r2
  | Rep r' lo _ => negb (Nat.eqb lo 0) && always_sets n r'
  | _ => false
  end.

(** [m.group(n)] is not [None]. *)
Definition has (n : nat) (c : captures) : Prop := group n c <> None.

Definition mono (c c' : captures) : Prop := forall m, has m c -> has m c'.

(** What a successful match tells about the continuation that ended it. *)
Definition ends_in (k : cont) (caps : captures) (sets : bool) (n : nat)
  (o : outcome) : Prop :=
  exists p' s' c',
    k p' s' c' = Some o /\ mono caps c' /\ (sets = true -> has n c').

End Re.

(* ===================================================================== *)
(** * [datetime.strptime]                                                 *)
(* ===================================================================== *)

Module Strptime.

Import Re.

(** The named groups of the pattern built from a format. *)
Definition g_d : nat := 1.
Definition g_m : nat := 2.
Definition g_Y : nat := 3.
Definition g_y : nat := 4.
Definition g_B : nat := 5.
Definition g_b : nat := 6.

Definition f_month : list string :=
  [""; "january"; "february"; "march"; "april"; "may"; "june"; "july";
   "august"; "september"; "october"; "november"; "december"].

Definition a_month : list string :=
  [""; "jan"; "feb"; "mar"; "apr"; "may"; "jun"; "jul"; "aug"; "sep"; "oct";
   "nov"; "dec"].

(** The pattern of one directive:
      %d  (?P<d>3[0-1]|[1-2]\d|0[1-9]|[1-9]| [1-9])
      %m  (?P<m>1[0-2]|0[1-9]|[1-9])
      %Y  (?P<Y>\d\d\d\d)
      %y  (?P<y>\d\d)
      %B, %b  the names of the months, the longest first. *)
Definition directive_regex (c : ascii) : regex :=
  if Ascii.eqb c "d" then
    Grp g_d (alts [Cat (Chr "3") (Cls [("0", "1")]%char);
                   Cat (Cls [("1", "2")]%char) digit;
                   Cat (Chr "0") (Cls [("1", "9")]%char);
                   Cls [("1", "9")]%char;
                   Cat (Chr " ") (Cls [("1", "9")]%char)])
  else if Ascii.eqb c "m" then
    Grp g_m (alts [Cat (Chr "1") (Cls [("0", "2")]%char);
                   Cat (Chr "0") (Cls [("1", "9")]%char);
                   Cls [("1", "9")]%char])
  else if Ascii.eqb c "Y" then Grp g_Y (seq [digit; digit; digit; digit])
  else if Ascii.eqb c "y" then Grp g_y (seq [digit; digit])
  else if Ascii.eqb c "B" then
    Grp g_B (alts (map lit ["september"; "february"; "november"; "december";
                            "january"; "october"; "august"; "march"; "april";
                            "june"; "july"; "may"]))
  else if Ascii.eqb c "b" then
    Grp g_b (alts (map lit ["jan"; "feb"; "mar"; "apr"; "may"; "jun"; "jul";
                            "aug"; "sep"; "oct"; "nov"; "dec"]))
  else Chr c.

(** The pattern of a format: a directive gives its pattern, a blank gives
    [\s+], any other character stands for itself. *)
Fixpoint format_regex (fmt : string) : regex :=
  match fmt with
  | EmptyString => Eps
  | String "%" (String c rest) => Cat (directive_regex c) (format_regex rest)
  | String " " rest => Cat (plus space) (format_regex rest)
  | String c rest => Cat (Chr c) (format_regex rest)
  end.

Definition int_group (n : nat) (caps : captures) : option Z :=
  option_map Str.to_Z (group n caps).

Definition year_of (caps : captures) : option Z :=
  match int_group g_Y caps, int_group g_y caps with
  | Some y, _ => Some y
  | None, Some y => Some (if y <=? 68 then y + 2000 else y + 1900)
  | None, None => None
  end.

Definition month_of (caps : captures) : option Z :=
  match int_group g_m caps, group g_B caps, group g_b caps with
  | Some m, _, _ => Some m
  | None, Some name, _ => Str.index_of (Str.lower name) f_month
  | None, None, Some name => Str.index_of (Str.lower name) a_month
  | None, None, None => None
  end.

(** [datetime.strptime(data, fmt)]: the whole of [data] has to match, and
    the fields have to be a date of the calendar; [ValueError] otherwise. *)
Definition strptime (data fmt : string) : result datetime :=
  match match_ true (format_regex fmt) data with
  | Some (caps, EmptyString) =>
      match year_of caps, month_of caps, int_group g_d caps with
      | Some y, Some m, Some dd =>
          if DT.check_date_fields y m dd then Ok (DT.make y m dd 0 0)
          else Raise ValueError
      | _, _, _ => Raise ValueError
      end
  | _ => Raise ValueError
  end.

End Strptime.






(* ===================================================================== *)
(** * models/leave_models.py                                              *)
(* ===================================================================== *)

Inductive LeaveType : Type :=
| OVERNIGHT
| FRIDAY_SUPPER
| DAY_LEAVE
| SPECIAL.

(** [leave_type.value] *)
Definition LeaveType_value (t : LeaveType) : string :=
  match t with
  | OVERNIGHT => "Overnight"
  | FRIDAY_SUPPER => "Friday Supper"
  | DAY_LEAVE => "Day Leave"
  | SPECIAL => "Special"
  end.

Definition LeaveType_eqb (a b : LeaveType) : bool :=
  match a, b with
  | OVERNIGHT, OVERNIGHT | FRIDAY_SUPPER, FRIDAY_SUPPER
  | DAY_LEAVE, DAY_LEAVE | SPECIAL, SPECIAL => true
  | _, _ => false
  end.

Inductive LeaveStatus : Type :=
| PENDING
| APPROVED
| REJECTED
| CANCELLED
| SPECIAL_PENDING.

Record StudentInfo : Type := mk_StudentInfo {
  admin_number : string;
  first_name : string;
  last_name : string;
  house : string;
  block : string;
  overnight_balance : Z;
  friday_supper_balance : Z
}.

Definition full_name (st : StudentInfo) : string :=
  first_name st +:+ " " +:+ last_name st.

Record ParentInfo : Type := mk_ParentInfo {
  auth_id : string;
  name : option string;
  phone : option string;
  email : option string;
  channel : string
}.

(** [start_date] and [end_date] are annotated [datetime], and hold [None]
    when the parser found no date. *)
Record LeaveRequest : Type := mk_LeaveRequest {
  student : StudentInfo;
  parent : ParentInfo;
  leave_type : LeaveType;
  start_date : option datetime;
  end_date : option datetime;
  status : LeaveStatus;
  rejection_reason : option string;
  special_leave_reason : option string;
  housemaster_notes : option string
}.

(* ===================================================================== *)
(** * processors/leave_parser.py                                          *)
(* ===================================================================== *)

Module LeaveRequestParser.

Import Re.

(** [\d{1,2}[-/]\d{1,2}[-/]\d{2,4}] *)
Definition numeric_date : regex :=
  seq [times digit 1 2; dash_slash; times digit 1 2; dash_slash;
       times digit 2 4].

Definition DATE_PATTERNS : list regex :=
  [ (* (\d{1,2}[-/]\d{1,2}[-/]\d{2,4}) *)
    Grp 1 numeric_date;
    (* (\d{1,2}\s+(?:Jan|Feb|Mar|Apr|May|Jun|Jul|Aug|Sep|Oct|Nov|Dec)[a-z]*\s+\d{2,4}) *)
    Grp 1 (seq [times digit 1 2; plus space;
                alts (map lit ["Jan"; "Feb"; "Mar"; "Apr"; "May"; "Jun";
                               "Jul"; "Aug"; "Sep"; "Oct"; "Nov"; "Dec"]);
                star az; plus space; times digit 2 4]);
    (* (this\s+(?:saturday|sunday|weekend|friday)) *)
    Grp 1 (seq [lit "this"; plus space;
                alts (map lit ["saturday"; "sunday"; "weekend"; "friday"])]);
    (* (next\s+(?:saturday|sunday|weekend|friday)) *)
    Grp 1 (seq [lit "next"; plus space;
                alts (map lit ["saturday"; "sunday"; "weekend"; "friday"])]);
    (* (tomorrow) *)
    Grp 1 (lit "tomorrow");
    (* (today) *)
    Grp 1 (lit "today") ].

Definition OVERNIGHT_INDICATORS : list string :=
  ["overnight"; "sleep over"; "stay over"; "saturday night"; "weekend leave"].

Definition SUPPER_INDICATORS : list string :=
  ["friday supper"; "supper"; "friday evening"; "friday night out"].

Definition DAY_LEAVE_INDICATORS : list string :=
  ["day leave"; "day trip"; "saturday out"; "sunday out"; "day out"].

Definition SPECIAL_INDICATORS : list string :=
  ["special leave"; "special permission"; "emergency"; "urgent"].

(** [self.weekdays], in the order of the dict. *)
Definition weekdays : list (string * Z) :=
  [("monday", 0); ("tuesday", 1); ("wednesday", 2); ("thursday", 3);
   ("friday", 4); ("saturday", 5); ("sunday", 6)].

(** [\b(\d{5})\b] *)
Definition admin_pattern : regex :=
  seq [Wb; Grp 1 (times digit 5 5); Wb].

(** [for\s+([A-Z][a-z]+(?:\s+[A-Z][a-z]+)?)] *)
Definition for_pattern : regex :=
  seq [lit "for"; plus space;
       Grp 1 (seq [AZ; plus az; opt (seq [plus space; AZ; plus az])])].

(** [\b([A-Z][a-z]+\s+[A-Z][a-z]+)\b] *)
Definition name_pattern : regex :=
  seq [Wb; Grp 1 (seq [AZ; plus az; plus space; AZ; plus az]); Wb].

(** [(?:for|my son|student)\s+([A-Z][a-z]+)] *)
Definition first_name_pattern : regex :=
  seq [alts [lit "for"; lit "my son"; lit "student"]; plus space;
       Grp 1 (seq [AZ; plus az])].

Definition _extract_student_identifier (text : string) : option string :=
  match search false admin_pattern text with
  | Some admin_match => group 1 admin_match
  | None =>
  match search false for_pattern text with
  | Some for_match => group 1 for_match
  | None =>
  match search false name_pattern text with
  | Some name_match => group 1 name_match
  | None =>
  match search true first_name_pattern text with
  | Some first_name_match => group 1 first_name_match
  | None => None
  end end end end.

Definition _determine_leave_type (text : string) : LeaveType :=
  if Str.any_in SPECIAL_INDICATORS text then SPECIAL
  else if Str.any_in OVERNIGHT_INDICATORS text then OVERNIGHT
  else if Str.any_in SUPPER_INDICATORS text then FRIDAY_SUPPER
  else if Str.any_in DAY_LEAVE_INDICATORS text then DAY_LEAVE
  else if Str.contains "saturday" text || Str.contains "sunday" text
          || Str.contains "weekend" text then DAY_LEAVE
  else OVERNIGHT.

Definition formats : list string :=
  ["%d/%m/%Y"; "%d-%m-%Y"; "%d/%m/%y"; "%d-%m-%y"; "%d %B %Y"; "%d %b %Y"].

(** The loop of [_parse_date_string]: the first format that parses. *)
Fixpoint try_formats (date_str : string) (fmts : list string)
  : option datetime :=
  match fmts with
  | [] => None
  | fmt :: rest =>
      match Strptime.strptime date_str fmt with
      | Ok d => Some d
      | Raise _ => try_formats date_str rest
      end
  end.

Definition _parse_date_string (date_str : string) : option datetime :=
  try_formats date_str formats.

(** The body of the loop over [self.weekdays] in [_parse_relative_date],
    for a day whose name is in the text. *)
Definition days_ahead_of (date_str_lower : string) (day_num current_weekday : Z)
  : Z :=
  let days_ahead := day_num - current_weekday in
  if Str.contains "next" date_str_lower then
    days_ahead + (if 0 <? days_ahead then 7 else 7)
  else if Str.contains "this" date_str_lower || (days_ahead <? 0) then
    days_ahead + (if days_ahead <=? 0 then 7 else 0)
  else days_ahead.

(** The loop over [self.weekdays]: [None] when it ends without a return. *)
Fixpoint weekday_loop (items : list (string * Z)) (today : datetime)
  (date_str_lower : string) : option (result datetime) :=
  match items with
  | [] => None
  | (day_name, day_num) :: rest =>
      if Str.contains day_name date_str_lower then
        let current_weekday := DT.weekday today in
        let days_ahead := days_ahead_of date_str_lower day_num current_weekday in
        Some (DT.add_days today days_ahead)
      else weekday_loop rest today date_str_lower
  end.

(** [now] is the value of [datetime.now()]. *)
Definition _parse_relative_date (now : datetime) (date_str : string)
  : result (option datetime) :=
  let date_str_lower := Str.lower date_str in
  let today := DT.replace_midnight now in
  if Str.contains "today" date_str_lower then Ok (Some today)
  else if Str.contains "tomorrow" date_str_lower then
    rbind (DT.add_days today 1) (fun d => Ok (Some d))
  else
    match weekday_loop weekdays today date_str_lower with
    | Some r => rbind r (fun d => Ok (Some d))
    | None => Ok (_parse_date_string date_str)
    end.

Definition full_day (base_date : datetime) : datetime * datetime :=
  (DT.replace_hm base_date 9 0, DT.replace_hm base_date 17 0).

Definition _infer_date_range (base_date : datetime) (leave_type : LeaveType)
  : result (datetime * datetime) :=
  match leave_type with
  | OVERNIGHT =>
      if DT.weekday base_date =? 5 then
        let start := DT.replace_hm base_date 14 0 in
        rbind (DT.add_days base_date 1)
          (fun next_day => Ok (start, DT.replace_hm next_day 18 50))
      else Ok (full_day base_date)
  | FRIDAY_SUPPER =>
      if DT.weekday base_date =? 4 then
        Ok (DT.replace_hm base_date 17 0, DT.replace_hm base_date 21 0)
      else Ok (full_day base_date)
  | DAY_LEAVE =>
      Ok (DT.replace_hm base_date 9 0, DT.replace_hm base_date 17 0)
  | SPECIAL => Ok (full_day base_date)
  end.

Definition _apply_leave_times (start_date end_date : option datetime)
  (leave_type : LeaveType) : option datetime * option datetime :=
  match start_date, end_date with
  | Some sd, Some ed =>
      match leave_type with
      | OVERNIGHT =>
          (Some (DT.replace_hm sd 14 0), Some (DT.replace_hm ed 18 50))
      | FRIDAY_SUPPER =>
          (Some (DT.replace_hm sd 17 0), Some (DT.replace_hm ed 21 0))
      | DAY_LEAVE =>
          (Some (DT.replace_hm sd 9 0), Some (DT.replace_hm ed 17 0))
      | SPECIAL => (Some sd, Some ed)
      end
  | _, _ => (start_date, end_date)
  end.

(** [(\d{1,2}[-/]\d{1,2}[-/]\d{2,4})\s*(?:to|-|until)\s*(\d{1,2}[-/]\d{1,2}[-/]\d{2,4})] *)
Definition date_range_pattern : regex :=
  seq [Grp 1 numeric_date; star space; alts [lit "to"; lit "-"; lit "until"];
       star space; Grp 2 numeric_date].

(** The loop over [DATE_PATTERNS] in [_extract_dates].  A group that took
    no part in the match is [None], and [None.lower()] raises. *)
Fixpoint single_date_loop (now : datetime) (patterns : list regex)
  (text : string) (leave_type : LeaveType)
  : result (option datetime * option datetime) :=
  match patterns with
  | [] => Ok (None, None)
  | pattern :: rest =>
      match search true pattern text with
      | Some m =>
          match group 1 m with
          | Some date_str =>
              rbind (_parse_relative_date now date_str)
                (fun base_date =>
                   match base_date with
                   | Some b =>
                       rbind (_infer_date_range b leave_type)
                         (fun w => Ok (Some (fst w), Some (snd w)))
                   | None => single_date_loop now rest text leave_type
                   end)
          | None => Raise AttributeError
          end
      | None => single_date_loop now rest text leave_type
      end
  end.

(** [strptime] of a group that is [None] raises [TypeError], which
    [_parse_date_string] does not catch. *)
Definition _extract_dates (now : datetime) (text : string)
  (leave_type : LeaveType) : result (option datetime * option datetime) :=
  match search false date_range_pattern text with
  | Some range_match =>
      match group 1 range_match, group 2 range_match with
      | Some start_str, Some end_str =>
          let start_date := _parse_date_string start_str in
          let end_date := _parse_date_string end_str in
          Ok (_apply_leave_times start_date end_date leave_type)
      | _, _ => Raise TypeError
      end
  | None => single_date_loop now DATE_PATTERNS text leave_type
  end.

Record ParsedData : Type := mk_ParsedData {
  pd_student_identifier : option string;
  pd_leave_type : LeaveType;
  pd_start_date : option datetime;
  pd_end_date : option datetime;
  pd_raw_text : string
}.

Definition parse_request (now : datetime) (message_text : string)
  : result ParsedData :=
  let text_lower := Str.lower message_text in
  let student_identifier := _extract_student_identifier message_text in
  let leave_type := _determine_leave_type text_lower in
  rbind (_extract_dates now text_lower leave_type)
    (fun dates =>
       Ok (mk_ParsedData student_identifier leave_type (fst dates)
             (snd dates) message_text)).

End LeaveRequestParser.

(* ===================================================================== *)
(** * The world of a request: printed output and the store of the tools   *)
(* ===================================================================== *)

Record World (S : Type) : Type := mk_World {
  stdout : list string;
  store : S
}.

Arguments mk_World {S} stdout store.
Arguments stdout {S} w.
Arguments store {S} w.

(** A computation that may print, use the store and raise. *)
Definition M (S A : Type) : Type := World S -> result A * World S.

Definition ret {S A : Type} (a : A) : M S A := fun w => (Ok a, w).

Definition raise {S A : Type} (e : exn) : M S A := fun w => (Raise e, w).

Definition bind {S A B : Type} (m : M S A) (f : A -> M S B) : M S B :=
  fun w =>
    match m w with
    | (Ok a, w') => f a w'
    | (Raise e, w') => (Raise e, w')
    end.

(** A call of a tool: it returns a value and a new world. *)
Definition call {S A : Type} (t : World S -> A * World S) : M S A :=
  fun w => let (a, w') := t w in (Ok a, w').

(** [print(line)] *)
Definition print {S : Type} (line : string) : M S unit :=
  fun w => (Ok tt, mk_World (stdout w ++ [line]) (store w)).

Definition lift {S A : Type} (r : result A) : M S A := fun w => (r, w).

Declare Scope monad_scope.
Delimit Scope monad_scope with monad.
Notation "'let!' x ':=' m 'in' k" := (bind m (fun x => k))
  (at level 10, x name, m at level 200, k at level 200, only parsing)
  : monad_scope.

Definition nl : string := String (ascii_of_nat 10) EmptyString.
Definition dquote : string := String (ascii_of_nat 34) EmptyString.

(** [str(x)] of an optional value inside an f-string. *)
Definition str_opt (o : option string) : string :=
  match o with
  | Some x => x
  | None => "None"
  end.

Definition str_opt_datetime (o : option datetime) : string :=
  match o with
  | Some x => DT.str x
  | None => "None"
  end.

(** [x.strftime(fmt)], which raises when [x] is [None]. *)
Definition strftime_opt (o : option datetime) (fmt : string) : result string :=
  match o with
  | Some x => Ok (DT.strftime x fmt)
  | None => Raise AttributeError
  end.

(** Truth of a string or [None]. *)
Definition truthy (o : option string) : bool :=
  match o with
  | Some x => negb (String.eqb x "")
  | None => false
  end.

(* ===================================================================== *)
(** * The tools used by the processor                                     *)
(* ===================================================================== *)

(** The student record returned by the linkage tool. *)
Record Balances : Type := mk_Balances {
  b_overnight : Z;
  b_fridaySupper : Z
}.

Record StudentRecord : Type := mk_StudentRecord {
  adminNumber : string;
  firstName : string;
  lastName : string;
  sr_house : string;
  sr_block : string;
  balances : Balances
}.

Record DateValidity : Type := mk_DateValidity {
  isValid : bool;
  dv_reason : string
}.

Record Cancellation : Type := mk_Cancellation {
  hmID : option string;
  c_reason : option string
}.

(** What [LeaveProcessor] asks of [self.tools] on the parent path.  The
    default is [LeaveSystemTools]; the tests and the production API put
    other objects in its place. *)
Record Tools (S : Type) : Type := mk_Tools {
  tool_parent_phone_check : string -> World S -> option string * World S;
  tool_parent_email_check : string -> World S -> option string * World S;
  tool_student_parent_linkage :
    string -> string -> World S -> option StudentRecord * World S;
  tool_leave_balance_check : string -> string -> World S -> Z * World S;
  tool_date_validity_check :
    string -> datetime -> datetime -> World S -> DateValidity * World S;
  tool_restriction_check :
    string -> datetime -> datetime -> World S -> bool * World S;
  tool_leave_update :
    string -> string -> option datetime -> option datetime -> string ->
    string -> string -> string -> option datetime -> option string ->
    option Cancellation -> World S -> bool * World S
}.

Arguments tool_parent_phone_check {S} t.
Arguments tool_parent_email_check {S} t.
Arguments tool_student_parent_linkage {S} t.
Arguments tool_leave_balance_check {S} t.
Arguments tool_date_validity_check {S} t.
Arguments tool_restriction_check {S} t.
Arguments tool_leave_update {S} t.

(* ===================================================================== *)
(** * tools/placeholder_tools.py                                          *)
(* ===================================================================== *)

Module LeaveSystemTools.

Definition mock_parents_phone : gmap string string :=
  {[ "27603174174" := "PARENT_001"; "27821234567" := "PARENT_002" ]}.

Definition tool_parent_phone_check (phone_number : string) : option string :=
  mock_parents_phone !! phone_number.

Definition mock_parents_email : gmap string string :=
  {[ "john.smith@example.com" := "PARENT_001";
     "jane.doe@example.com" := "PARENT_002" ]}.

Definition tool_parent_email_check (email_address : string) : option string :=
  mock_parents_email !! Str.lower email_address.

Definition mock_students : gmap string (list StudentRecord) :=
  {[ "PARENT_001" :=
       [mk_StudentRecord "12345" "James" "Smith" "Finningley" "C"
          (mk_Balances 3 3)];
     "PARENT_002" :=
       [mk_StudentRecord "67890" "Michael" "Doe" "Shepstone" "E"
          (mk_Balances 2 3)] ]}.

(** The loop of [tool_student_parent_linkage]. *)
Fixpoint find_student (students : list StudentRecord)
  (requested_student_identifier identifier_lower : string)
  : option StudentRecord :=
  match students with
  | [] => None
  | st :: rest =>
      if String.eqb (adminNumber st) requested_student_identifier
         || Str.contains (Str.lower (firstName st)) identifier_lower
         || Str.contains (Str.lower (lastName st)) identifier_lower
      then Some st
      else find_student rest requested_student_identifier identifier_lower
  end.

Definition tool_student_parent_linkage
  (parent_auth_id requested_student_identifier : string)
  : option StudentRecord :=
  let students := default [] (mock_students !! parent_auth_id) in
  let identifier_lower := Str.lower requested_student_identifier in
  find_student students requested_student_identifier identifier_lower.

Definition mock_balances : gmap string Balances :=
  {[ "12345" := mk_Balances 3 3; "67890" := mk_Balances 2 3 ]}.

Definition tool_leave_balance_check (student_admin_number leave_type : string)
  : Z :=
  let student_balance :=
    default (mk_Balances 0 0) (mock_balances !! student_admin_number) in
  if String.eqb (Str.lower leave_type) "overnight" then
    b_overnight student_balance
  else if existsb (String.eqb (Str.lower leave_type))
            ["supper"; "fridaysupper"; "friday_supper"] then
    b_fridaySupper student_balance
  else 0.

Definition closed_weekends : gmap string (list (datetime * datetime)) :=
  {[ "E" := [(DT.make 2025 1 18 0 0, DT.make 2025 1 19 0 0);
             (DT.make 2025 2 22 0 0, DT.make 2025 2 23 0 0)];
     "D" := [(DT.make 2025 1 18 0 0, DT.make 2025 1 19 0 0);
             (DT.make 2025 2 22 0 0, DT.make 2025 2 23 0 0)] ]}.

(** [not (end_date < a or start_date > b)] *)
Definition overlaps (start_date end_date a b : datetime) : bool :=
  negb (DT.lt end_date a || DT.gt start_date b).

(** The loop over the closed weekends of a block. *)
Fixpoint in_closed_weekend (closed : list (datetime * datetime))
  (start_date end_date : datetime) : bool :=
  match closed with
  | [] => false
  | (closed_start, closed_end) :: rest =>
      if overlaps start_date end_date closed_start closed_end then true
      else in_closed_weekend rest start_date end_date
  end.

Definition term_start : datetime := DT.make 2025 1 15 0 0.
Definition term_end : datetime := DT.make 2025 3 28 0 0.

Definition tool_date_validity_check (student_block : string)
  (start_date end_date : datetime) : DateValidity :=
  if match closed_weekends !! student_block with
     | Some closed => in_closed_weekend closed start_date end_date
     | None => false
     end
  then
    mk_DateValidity false
      ("Falls on closed weekend for " +:+ student_block
       +:+ " Block (First weekend of term or weekend after half term)")
  else if DT.lt start_date term_start || DT.gt end_date term_end then
    mk_DateValidity false "Dates fall outside of term dates"
  else mk_DateValidity true "".

Record RestrictionEntry : Type := mk_RestrictionEntry {
  r_start : datetime;
  r_end : datetime;
  r_reason : string
}.

Definition mock_restrictions : gmap string (list RestrictionEntry) :=
  {[ "12345" := [];
     "67890" := [mk_RestrictionEntry (DT.make 2025 2 1 0 0)
                   (DT.make 2025 2 28 0 0) "Academic concerns"] ]}.

(** The loop of [tool_restriction_check]. *)
Fixpoint any_restriction_overlaps (restrictions : list RestrictionEntry)
  (start_date end_date : datetime) : bool :=
  match restrictions with
  | [] => false
  | restriction :: rest =>
      if negb (DT.lt end_date (r_start restriction)
               || DT.gt start_date (r_end restriction))
      then true
      else any_restriction_overlaps rest start_date end_date
  end.

Definition tool_restriction_check (student_admin_number : string)
  (start_date end_date : datetime) : bool :=
  let restrictions := default [] (mock_restrictions !! student_admin_number) in
  any_restriction_overlaps restrictions start_date end_date.

(** The lines printed by [tool_leave_update]; it returns [True] on each of
    its three paths and changes no balance. *)
Definition tool_leave_update_lines
  (student_admin_number leave_type : string)
  (start_date end_date : option datetime)
  (requesting_parent student_name house block : string)
  (departure_timestamp : option datetime) (driver_id_capture : option string)
  (cancellation_details : option Cancellation) : list string :=
  match cancellation_details with
  | Some details =>
      ["[TOOL] Leave CANCELLED for " +:+ student_name +:+ " ("
         +:+ student_admin_number +:+ ")";
       "       By HM: " +:+ str_opt (hmID details);
       "       Reason: " +:+ str_opt (c_reason details);
       "       Balance refunded: " +:+ leave_type]
  | None =>
  match departure_timestamp with
  | Some ts =>
      ("[TOOL] Departure logged for " +:+ student_name +:+ " at "
         +:+ DT.str ts)
      :: (if truthy driver_id_capture
          then ["       Driver ID captured: " +:+ str_opt driver_id_capture]
          else [])
  | None =>
      ["[TOOL] Leave APPROVED and registered:";
       "       Student: " +:+ student_name +:+ " (" +:+ student_admin_number
         +:+ ")";
       "       House: " +:+ house +:+ ", Block: " +:+ block;
       "       Type: " +:+ leave_type;
       "       Period: " +:+ str_opt_datetime start_date +:+ " to "
         +:+ str_opt_datetime end_date;
       "       Requesting Parent: " +:+ requesting_parent;
       "       Balance deducted: "
         +:+ (if existsb (String.eqb leave_type) ["Overnight"; "Friday Supper"]
              then leave_type else "None (Day Leave)")]
  end end.

Definition tool_leave_update
  (student_admin_number leave_type : string)
  (start_date end_date : option datetime)
  (requesting_parent student_name house block : string)
  (departure_timestamp : option datetime) (driver_id_capture : option string)
  (cancellation_details : option Cancellation)
  (w : World unit) : bool * World unit :=
  (true,
   mk_World
     (stdout w
      ++ tool_leave_update_lines student_admin_number leave_type start_date
           end_date requesting_parent student_name house block
           departure_timestamp driver_id_capture cancellation_details)
     (store w)).

(** A tool that only computes leaves the world as it is. *)
Definition pure_tool {A : Type} (a : A) (w : World unit) : A * World unit :=
  (a, w).

(** The object [LeaveSystemTools()]. *)
Definition tools : Tools unit :=
  mk_Tools unit
    (fun phone_number => pure_tool (tool_parent_phone_check phone_number))
    (fun email_address => pure_tool (tool_parent_email_check email_address))
    (fun parent_auth_id identifier =>
       pure_tool (tool_student_parent_linkage parent_auth_id identifier))
    (fun admin leave_type =>
       pure_tool (tool_leave_balance_check admin leave_type))
    (fun student_block start_date end_date =>
       pure_tool (tool_date_validity_check student_block start_date end_date))
    (fun admin start_date end_date =>
       pure_tool (tool_restriction_check admin start_date end_date))
    tool_leave_update.

End LeaveSystemTools.

(* ===================================================================== *)
(** * processors/leave_processor.py                                       *)
(* ===================================================================== *)

(** The dict returned to the caller. *)
Record Decision : Type := mk_Decision {
  d_status : string;
  d_reason : option string;
  d_message : string;
  d_leave_request : option LeaveRequest;
  d_trigger_reason : option string
}.

(** The dict returned by [_authenticate_parent]. *)
Inductive AuthResult : Type :=
| NotAuthenticated (message : string)
| Authenticated (parent_info : ParentInfo).

Module LeaveProcessor.

Section Processor.

Context {S : Type}.
Variable tools : Tools S.

Local Open Scope monad_scope.

Definition _authenticate_parent (identifier channel : string)
  : M S AuthResult :=
  let! parent_auth_id :=
    (if String.eqb channel "whatsapp" then
       call (tool_parent_phone_check tools identifier)
     else if String.eqb channel "email" then
       call (tool_parent_email_check tools identifier)
     else ret None) in
  match parent_auth_id with
  | Some id =>
      if String.eqb id "" then
        ret (NotAuthenticated
               "I couldn't verify your identity. Please ensure you're using the registered contact details on file.")
      else
        ret (Authenticated
               (mk_ParentInfo id None
                  (if String.eqb channel "whatsapp" then Some identifier
                   else None)
                  (if String.eqb channel "email" then Some identifier
                   else None)
                  channel))
  | None =>
      ret (NotAuthenticated
             "I couldn't verify your identity. Please ensure you're using the registered contact details on file.")
  end.

Definition _format_approval_message (leave_request : LeaveRequest)
  (new_balance : option Z) (balance_type : option string) : result string :=
  rbind (strftime_opt (start_date leave_request) "%A %d %B %Y at %H:%M")
    (fun start_text =>
  rbind (strftime_opt (end_date leave_request) "%A %d %B %Y at %H:%M")
    (fun end_text =>
  let message :=
    "Thank you for submitting your request." +:+ nl +:+ nl
    +:+ "I'm pleased to confirm that the exeat request for "
    +:+ full_name (student leave_request) +:+ " for "
    +:+ LeaveType_value (leave_type leave_request)
    +:+ " leave has been approved." +:+ nl +:+ nl
    +:+ "Dates: " +:+ start_text +:+ " to " +:+ end_text in
  match new_balance with
  | Some b =>
      Ok (message +:+ nl +:+ nl +:+ "Remaining " +:+ str_opt balance_type
          +:+ " leave balance: " +:+ Str.of_Z b)
  | None => Ok message
  end)).

(** [balance_type] is bound only on the two branches that set it: reading
    it elsewhere raises [UnboundLocalError]. *)
Definition _approve_leave (leave_request : LeaveRequest)
  (deduct_balance : bool) : M S Decision :=
  let! success :=
    call (tool_leave_update tools
            (admin_number (student leave_request))
            (LeaveType_value (leave_type leave_request))
            (start_date leave_request)
            (end_date leave_request)
            (auth_id (parent leave_request))
            (full_name (student leave_request))
            (house (student leave_request))
            (block (student leave_request))
            None None None) in
  if negb success then
    ret (mk_Decision "error" None
           "An error occurred while processing the leave. Please try again or contact the Housemaster."
           None None)
  else
    let '(new_balance, balance_type) :=
      if deduct_balance then
        match leave_type leave_request with
        | OVERNIGHT =>
            (Some (overnight_balance (student leave_request) - 1),
             Some "overnight")
        | FRIDAY_SUPPER =>
            (Some (friday_supper_balance (student leave_request) - 1),
             Some "Friday Supper")
        | _ => (None, None)
        end
      else (None, None) in
    let! balance_type_arg :=
      (if deduct_balance then
         match balance_type with
         | Some b => ret (Some b)
         | None => raise UnboundLocalError
         end
       else ret None) in
    let! message :=
      lift (_format_approval_message leave_request new_balance
              balance_type_arg) in
    ret (mk_Decision "approved" None message (Some leave_request) None).

Definition _reject_leave (leave_request : LeaveRequest) (reason : string)
  : M S Decision :=
  let message :=
    "Thank you for your request." +:+ nl +:+ nl
    +:+ "Unfortunately, I'm unable to approve the exeat for "
    +:+ full_name (student leave_request)
    +:+ " on this occasion because " +:+ reason +:+ "." +:+ nl +:+ nl
    +:+ "If you require this leave to be granted, please contact "
    +:+ full_name (student leave_request)
    +:+ "'s Housemaster directly to request a Special Leave." in
  ret (mk_Decision "rejected" (Some reason) message (Some leave_request) None).

Definition _route_to_special_leave (leave_request : LeaveRequest)
  (trigger_reason : string) : M S Decision :=
  let st := student leave_request in
  let housemaster_email :=
    "hm." +:+ Str.lower (house st) +:+ "@michaelhouse.org" in
  let! start_text :=
    lift (strftime_opt (start_date leave_request) "%d %B %Y %H:%M") in
  let! end_text :=
    lift (strftime_opt (end_date leave_request) "%d %B %Y %H:%M") in
  let email_content :=
    "Special Leave Request Forwarded" +:+ nl +:+ nl
    +:+ "Student: " +:+ full_name st +:+ " (" +:+ admin_number st +:+ ")"
    +:+ nl
    +:+ "House: " +:+ house st +:+ nl
    +:+ "Block: " +:+ block st +:+ nl +:+ nl
    +:+ "Requesting Parent: " +:+ auth_id (parent leave_request) +:+ nl
    +:+ "Contact: "
    +:+ str_opt (if truthy (phone (parent leave_request))
                 then phone (parent leave_request)
                 else email (parent leave_request)) +:+ nl +:+ nl
    +:+ "Leave Type: " +:+ LeaveType_value (leave_type leave_request) +:+ nl
    +:+ "Dates: " +:+ start_text +:+ " to " +:+ end_text +:+ nl +:+ nl
    +:+ "Reason for Special Leave: " +:+ trigger_reason +:+ nl +:+ nl
    +:+ "Please respond with " +:+ dquote +:+ "APPROVE" +:+ dquote +:+ " or "
    +:+ dquote +:+ "REJECT" +:+ dquote +:+ " to process this request." +:+ nl
  in
  let! _ := print (nl +:+ "[SPECIAL LEAVE EMAIL SENT TO: " +:+ housemaster_email +:+ "]") in
  let! _ := print email_content in
  let! _ := print ("[END EMAIL]" +:+ nl) in
  let message :=
    "Thank you for your request." +:+ nl +:+ nl
    +:+ "This leave request for " +:+ full_name st
    +:+ " requires special approval as " +:+ Str.lower trigger_reason +:+ "."
    +:+ nl +:+ nl
    +:+ "I have forwarded your request to the " +:+ house st
    +:+ " Housemaster for manual review. You will be notified once a decision has been made."
    +:+ nl +:+ nl
    +:+ "Thank you for your patience." in
  ret (mk_Decision "special_pending" None message (Some leave_request)
         (Some trigger_reason)).

(** The checks in the order of the source.  Each [return] of the source
    ends the function: the part of the body that follows a check is named
    ([balance_check], [special_or_approve]) and is where the checks that do
    not return go on. *)
Definition _process_leave_eligibility (leave_request : LeaveRequest)
  : M S Decision :=
  match start_date leave_request, end_date leave_request with
  | Some sd, Some ed =>
      let st := student leave_request in
      let type := leave_type leave_request in
      let special_or_approve : M S Decision :=
        if LeaveType_eqb type SPECIAL then
          _route_to_special_leave leave_request
            "Special leave explicitly requested"
        else _approve_leave leave_request true in
      let balance_check : M S Decision :=
        if LeaveType_eqb type OVERNIGHT then
          let! balance :=
            call (tool_leave_balance_check tools (admin_number st)
                    "Overnight") in
          if balance <? 1 then
            _reject_leave leave_request
              (full_name st
               +:+ " has insufficient overnight leave balance (0 remaining)")
          else special_or_approve
        else if LeaveType_eqb type FRIDAY_SUPPER then
          let! balance :=
            call (tool_leave_balance_check tools (admin_number st)
                    "Supper") in
          if balance <? 1 then
            _reject_leave leave_request
              (full_name st
               +:+ " has insufficient Friday Supper leave balance (0 remaining)")
          else special_or_approve
        else special_or_approve in
      let! date_validity :=
        call (tool_date_validity_check tools (block st) sd ed) in
      if negb (isValid date_validity) then
        if Str.contains "closed weekend" (Str.lower (dv_reason date_validity))
        then _route_to_special_leave leave_request (dv_reason date_validity)
        else _reject_leave leave_request (dv_reason date_validity)
      else if LeaveType_eqb type OVERNIGHT && negb (DT.weekday sd =? 5) then
        _route_to_special_leave leave_request
          "Overnight leave requested for a night other than Saturday to Sunday"
      else if LeaveType_eqb type DAY_LEAVE then
        _approve_leave leave_request false
      else if existsb (LeaveType_eqb type)
                [OVERNIGHT; FRIDAY_SUPPER; DAY_LEAVE] then
        let! is_restricted :=
          call (tool_restriction_check tools (admin_number st) sd ed) in
        if is_restricted then
          _reject_leave leave_request
            (full_name st
             +:+ " is currently restricted from weekend leave during this period")
        else balance_check
      else balance_check
  | _, _ =>
      ret (mk_Decision "error" (Some "missing_dates")
             "I couldn't determine the dates for this leave request. Please specify the start and end dates clearly."
             None None)
  end.

(** [now] is what [datetime.now()] returns inside the parser. *)
Definition process_parent_request (now : datetime)
  (message_text sender_identifier channel : string) : M S Decision :=
  let! auth_result := _authenticate_parent sender_identifier channel in
  match auth_result with
  | NotAuthenticated message =>
      ret (mk_Decision "rejected" (Some "authentication_failed") message
             None None)
  | Authenticated parent_info =>
      let! parsed_data := lift (LeaveRequestParser.parse_request now message_text) in
      if negb (truthy (LeaveRequestParser.pd_student_identifier parsed_data))
      then
        ret (mk_Decision "error" (Some "parse_failed")
               "I couldn't identify which student this request is for. Please include the student's name or admin number."
               None None)
      else
        let student_identifier :=
          str_opt (LeaveRequestParser.pd_student_identifier parsed_data) in
        let! student_record :=
          call (tool_student_parent_linkage tools (auth_id parent_info)
                  student_identifier) in
        match student_record with
        | None =>
            ret (mk_Decision "rejected" (Some "student_linkage_failed")
                   ("I couldn't find a student matching '"
                    +:+ student_identifier
                    +:+ "' linked to your account. Please check the name or admin number and try again.")
                   None None)
        | Some record =>
            let student_info :=
              mk_StudentInfo (adminNumber record) (firstName record)
                (lastName record) (sr_house record) (sr_block record)
                (b_overnight (balances record))
                (b_fridaySupper (balances record)) in
            let leave_request :=
              mk_LeaveRequest student_info parent_info
                (LeaveRequestParser.pd_leave_type parsed_data)
                (LeaveRequestParser.pd_start_date parsed_data)
                (LeaveRequestParser.pd_end_date parsed_data)
                PENDING None None None in
            _process_leave_eligibility leave_request
        end
  end.

End Processor.

End LeaveProcessor.

(** The processor as [LeaveProcessor()] builds it, with the placeholder
    tools, run on an empty output. *)
Definition world0 : World unit := mk_World [] tt.

Definition run_parent_request (now : datetime)
  (message_text sender_identifier channel : string)
  : result Decision * World unit :=
  LeaveProcessor.process_parent_request LeaveSystemTools.tools now
    message_text sender_identifier channel world0.

Import LeaveRequestParser LeaveProcessor.

(* ===================================================================== *)
(** * The parent path with tools that may raise                           *)
(* ===================================================================== *)

(** [LeaveProcessor] takes its tools object from the caller (the tests
    put mocks in its place, [api_production.py] puts [DatabaseTools]) and
    has no [try]: what a call of a tool raises leaves
    [process_parent_request] as it is.  The calls of [LeaveSystemTools]
    always return.  Those of [DatabaseTools] ([tools/database_tools.py])
    go through [_get_connection] and [_execute_query] outside a [try]
    (also in [tool_leave_update], whose [try] begins after
    [_get_connection]) and raise when the database does not answer.
    [Raising.Tools] is the interface of such tools: a call returns a
    value or raises.  The functions of the processor that call a tool are
    given again over it, with the same text; those that call none
    ([_reject_leave], [_route_to_special_leave],
    [_format_approval_message]) are the ones of [LeaveProcessor]. *)
Module Raising.

Record Tools (S : Type) : Type := mk_Tools {
  tool_parent_phone_check : string -> M S (option string);
  tool_parent_email_check : string -> M S (option string);
  tool_student_parent_linkage : string -> string -> M S (option StudentRecord);
  tool_leave_balance_check : string -> string -> M S Z;
  tool_date_validity_check : string -> datetime -> datetime -> M S DateValidity;
  tool_restriction_check : string -> datetime -> datetime -> M S bool;
  tool_leave_update :
    string -> string -> option datetime -> option datetime -> string ->
    string -> string -> string -> option datetime -> option string ->
    option Cancellation -> M S bool
}.

Arguments tool_parent_phone_check {S} t.
Arguments tool_parent_email_check {S} t.
Arguments tool_student_parent_linkage {S} t.
Arguments tool_leave_balance_check {S} t.
Arguments tool_date_validity_check {S} t.
Arguments tool_restriction_check {S} t.
Arguments tool_leave_update {S} t.

Section Processor.

Context {S : Type}.
Variable tools : Tools S.

Local Open Scope monad_scope.

Definition _authenticate_parent (identifier channel : string)
  : M S AuthResult :=
  let! parent_auth_id :=
    (if String.eqb channel "whatsapp" then
       tool_parent_phone_check tools identifier
     else if String.eqb channel "email" then
       tool_parent_email_check tools identifier
     else ret None) in
  match parent_auth_id with
  | Some id =>
      if String.eqb id "" then
        ret (NotAuthenticated
               "I couldn't verify your identity. Please ensure you're using the registered contact details on file.")
      else
        ret (Authenticated
               (mk_ParentInfo id None
                  (if String.eqb channel "whatsapp" then Some identifier
                   else None)
                  (if String.eqb channel "email" then Some identifier
                   else None)
                  channel))
  | None =>
      ret (NotAuthenticated
             "I couldn't verify your identity. Please ensure you're using the registered contact details on file.")
  end.

Definition _approve_leave (leave_request : LeaveRequest)
  (deduct_balance : bool) : M S Decision :=
  let! success :=
    tool_leave_update tools
      (admin_number (student leave_request))
      (LeaveType_value (leave_type leave_request))
      (start_date leave_request)
      (end_date leave_request)
      (auth_id (parent leave_request))
      (full_name (student leave_request))
      (house (student leave_request))
      (block (student leave_request))
      None None None in
  if negb success then
    ret (mk_Decision "error" None
           "An error occurred while processing the leave. Please try again or contact the Housemaster."
           None None)
  else
    let '(new_balance, balance_type) :=
      if deduct_balance then
        match leave_type leave_request with
        | OVERNIGHT =>
            (Some (overnight_balance (student leave_request) - 1),
             Some "overnight")
        | FRIDAY_SUPPER =>
            (Some (friday_supper_balance (student leave_request) - 1),
             Some "Friday Supper")
        | _ => (None, None)
        end
      else (None, None) in
    let! balance_type_arg :=
      (if deduct_balance then
         match balance_type with
         | Some b => ret (Some b)
         | None => raise UnboundLocalError
         end
       else ret None) in
    let! message :=
      lift (_format_approval_message leave_request new_balance
              balance_type_arg) in
    ret (mk_Decision "approved" None message (Some leave_request) None).

Definition _process_leave_eligibility (leave_request : LeaveRequest)
  : M S Decision :=
  match start_date leave_request, end_date leave_request with
  | Some sd, Some ed =>
      let st := student leave_request in
      let type := leave_type leave_request in
      let special_or_approve : M S Decision :=
        if LeaveType_eqb type SPECIAL then
          _route_to_special_leave leave_request
            "Special leave explicitly requested"
        else _approve_leave leave_request true in
      let balance_check : M S Decision :=
        if LeaveType_eqb type OVERNIGHT then
          let! balance :=
            tool_leave_balance_check tools (admin_number st) "Overnight" in
          if balance <? 1 then
            _reject_leave leave_request
              (full_name st
               +:+ " has insufficient overnight leave balance (0 remaining)")
          else special_or_approve
        else if LeaveType_eqb type FRIDAY_SUPPER then
          let! balance :=
            tool_leave_balance_check tools (admin_number st) "Supper" in
          if balance <? 1 then
            _reject_leave leave_request
              (full_name st
               +:+ " has insufficient Friday Supper leave balance (0 remaining)")
          else special_or_approve
        else special_or_approve in
      let! date_validity :=
        tool_date_validity_check tools (block st) sd ed in
      if negb (isValid date_validity) then
        if Str.contains "closed weekend" (Str.lower (dv_reason date_validity))
        then _route_to_special_leave leave_request (dv_reason date_validity)
        else _reject_leave leave_request (dv_reason date_validity)
      else if LeaveType_eqb type OVERNIGHT && negb (DT.weekday sd =? 5) then
        _route_to_special_leave leave_request
          "Overnight leave requested for a night other than Saturday to Sunday"
      else if LeaveType_eqb type DAY_LEAVE then
        _approve_leave leave_request false
      else if existsb (LeaveType_eqb type)
                [OVERNIGHT; FRIDAY_SUPPER; DAY_LEAVE] then
        let! is_restricted :=
          tool_restriction_check tools (admin_number st) sd ed in
        if is_restricted then
          _reject_leave leave_request
            (full_name st
             +:+ " is currently restricted from weekend leave during this period")
        else balance_check
      else balance_check
  | _, _ =>
      ret (mk_Decision "error" (Some "missing_dates")
             "I couldn't determine the dates for this leave request. Please specify the start and end dates clearly."
             None None)
  end.

Definition process_parent_request (now : datetime)
  (message_text sender_identifier channel : string) : M S Decision :=
  let! auth_result := _authenticate_parent sender_identifier channel in
  match auth_result with
  | NotAuthenticated message =>
      ret (mk_Decision "rejected" (Some "authentication_failed") message
             None None)
  | Authenticated parent_info =>
      let! parsed_data := lift (parse_request now message_text) in
      if negb (truthy (pd_student_identifier parsed_data))
      then
        ret (mk_Decision "error" (Some "parse_failed")
               "I couldn't identify which student this request is for. Please include the student's name or admin number."
               None None)
      else
        let student_identifier :=
          str_opt (pd_student_identifier parsed_data) in
        let! student_record :=
          tool_student_parent_linkage tools (auth_id parent_info)
            student_identifier in
        match student_record with
        | None =>
            ret (mk_Decision "rejected" (Some "student_linkage_failed")
                   ("I couldn't find a student matching '"
                    +:+ student_identifier
                    +:+ "' linked to your account. Please check the name or admin number and try again.")
                   None None)
        | Some record =>
            let student_info :=
              mk_StudentInfo (adminNumber record) (firstName record)
                (lastName record) (sr_house record) (sr_block record)
                (b_overnight (balances record))
                (b_fridaySupper (balances record)) in
            let leave_request :=
              mk_LeaveRequest student_info parent_info
                (pd_leave_type parsed_data)
                (pd_start_date parsed_data)
                (pd_end_date parsed_data)
                PENDING None None None in
            _process_leave_eligibility leave_request
        end
  end.

End Processor.


End Raising.

(** Tools that always return, as tools that may raise. *)
Definition returning {S : Type} (tools : Tools S) : Raising.Tools S :=
  Raising.mk_Tools S
    (fun phone_number => call (tool_parent_phone_check tools phone_number))
    (fun email_address => call (tool_parent_email_check tools email_address))
    (fun parent_auth_id identifier =>
       call (tool_student_parent_linkage tools parent_auth_id identifier))
    (fun admin leave_type =>
       call (tool_leave_balance_check tools admin leave_type))
    (fun student_block start_date end_date =>
       call (tool_date_validity_check tools student_block start_date
               end_date))
    (fun admin start_date end_date =>
       call (tool_restriction_check tools admin start_date end_date))
    (fun admin leave_type start_date end_date requesting_parent student_name
         house block departure_timestamp driver_id_capture
         cancellation_details =>
       call (tool_leave_update tools admin leave_type start_date end_date
               requesting_parent student_name house block departure_timestamp
               driver_id_capture cancellation_details)).


(* ===================================================================== *)
(** * The clock as the parser reads it                                    *)
(* ===================================================================== *)

(** [_parse_relative_date(date_str)] has the text as its one argument and
    reads the clock itself, in its second statement; the functions above
    take what the clock gave as their argument [now].  Here the reading
    is kept as the effect that it is: a computation that reads the clock
    is a tree, [Now k] asks [datetime.now()] and goes on with [k] of the
    answer. *)
Inductive Clocked (A : Type) : Type :=
| Done (a : A)
| Now (k : datetime -> Clocked A).

Arguments Done {A} a.
Arguments Now {A} k.

Fixpoint clocked_bind {A B : Type} (c : Clocked A) (f : A -> Clocked B)
  : Clocked B :=
  match c with
  | Done a => f a
  | Now k => Now (fun now => clocked_bind (k now) f)
  end.

(** A run in which the clock gives [readings], one at each call of
    [datetime.now()]; [None] when the list ends before the run does. *)
Fixpoint run_clocked {A : Type} (c : Clocked A) (readings : list datetime)
  : option A :=
  match c with
  | Done a => Some a
  | Now k =>
      match readings with
      | [] => None
      | now :: rest => run_clocked (k now) rest
      end
  end.

(** The functions of the parser that read the clock, with the arguments
    that the source gives them. *)
Module ClockedParser.

Definition _parse_relative_date (date_str : string)
  : Clocked (result (option datetime)) :=
  Now (fun now => Done (LeaveRequestParser._parse_relative_date now date_str)).

(** The loop over [DATE_PATTERNS]: one call of [_parse_relative_date], and
    with it one reading of the clock, for each pattern found in the text,
    until one gives a date. *)
Fixpoint single_date_loop (patterns : list Re.regex) (text : string)
  (leave_type : LeaveType)
  : Clocked (result (option datetime * option datetime)) :=
  match patterns with
  | [] => Done (Ok (None, None))
  | pattern :: rest =>
      match Re.search true pattern text with
      | Some m =>
          match Re.group 1 m with
          | Some date_str =>
              clocked_bind (_parse_relative_date date_str)
                (fun base_date =>
                   match base_date with
                   | Ok (Some b) =>
                       Done (rbind (_infer_date_range b leave_type)
                               (fun w => Ok (Some (fst w), Some (snd w))))
                   | Ok None => single_date_loop rest text leave_type
                   | Raise e => Done (Raise e)
                   end)
          | None => Done (Raise AttributeError)
          end
      | None => single_date_loop rest text leave_type
      end
  end.

Definition _extract_dates (text : string) (leave_type : LeaveType)
  : Clocked (result (option datetime * option datetime)) :=
  match Re.search false date_range_pattern text with
  | Some range_match =>
      match Re.group 1 range_match, Re.group 2 range_match with
      | Some start_str, Some end_str =>
          let start_date := _parse_date_string start_str in
          let end_date := _parse_date_string end_str in
          Done (Ok (_apply_leave_times start_date end_date leave_type))
      | _, _ => Done (Raise TypeError)
      end
  | None => single_date_loop DATE_PATTERNS text leave_type
  end.

Definition parse_request (message_text : string)
  : Clocked (result ParsedData) :=
  let text_lower := Str.lower message_text in
  let student_identifier := _extract_student_identifier message_text in
  let leave_type := _determine_leave_type text_lower in
  clocked_bind (_extract_dates text_lower leave_type)
    (fun r =>
       Done (rbind r
               (fun dates =>
                  Ok (mk_ParsedData student_identifier leave_type (fst dates)
                        (snd dates) message_text)))).

End ClockedParser.

(* ===================================================================== *)
(** * More of [str]: [split] and [strip]                                  *)
(* ===================================================================== *)

Module PyStr.

(** The characters [str.strip()] removes, among the ASCII ones. *)
Definition is_space (c : ascii) : bool :=
  Re.in_ranges [(" ", " "); ("009", "013"); ("028", "031")]%char c.

(** [s[n:]] *)
Fixpoint drop (n : nat) (s : string) : string :=
  match n, s with
  | S n', String _ s' => drop n' s'
  | _, _ => s
  end.

(** The text before and the text after the first occurrence of [sep]. *)
Fixpoint split_once (sep s : string) : option (string * string) :=
  if String.prefix sep s then Some ("", drop (String.length sep) s)
  else
    match s with
    | EmptyString => None
    | String c s' =>
        match split_once sep s' with
        | Some (before, after) => Some (String c before, after)
        | None => None
        end
    end.

(** [s.split(sep, 1)] for a separator that is not empty. *)
Definition split1 (sep s : string) : list string :=
  match split_once sep s with
  | Some (before, after) => [before; after]
  | None => [s]
  end.

Fixpoint lstrip (s : string) : string :=
  match s with
  | String c s' => if is_space c then lstrip s' else s
  | EmptyString => EmptyString
  end.

Fixpoint rstrip (s : string) : string :=
  match s with
  | EmptyString => EmptyString
  | String c s' =>
      match rstrip s' with
      | EmptyString => if is_space c then EmptyString
                       else String c EmptyString
      | t => String c t
      end
  end.

(** [s.strip()] *)
Definition strip (s : string) : string := rstrip (lstrip s).

End PyStr.

(* ===================================================================== *)
(** * The housemaster path: values and tools                              *)
(* ===================================================================== *)

(** The dict returned by [tool_hm_auth_house_check]. *)
Record HousemasterRecord : Type := mk_HousemasterRecord {
  hr_hmID : string;
  hr_assignedHouse : string
}.

(** [HousemasterInfo] of [models/leave_models.py]; the engine gives it an
    id and a house and leaves the other fields at [None]. *)
Record HousemasterInfo : Type := mk_HousemasterInfo {
  hm_id : string;
  hm_house : string;
  hm_name : option string;
  hm_email : option string;
  hm_phone : option string
}.

(** One entry of the leave history returned by [tool_leave_query_hm]. *)
Record LeaveEntry : Type := mk_LeaveEntry {
  le_leaveType : string;
  le_startDate : string;
  le_endDate : string;
  le_status : string
}.

(** The dict returned by [tool_leave_query_hm]: the keys ['balances'] and
    ['leaves'] may be missing. *)
Record HmQueryResult : Type := mk_HmQueryResult {
  q_balances : option (gmap string Z);
  q_leaves : option (list LeaveEntry)
}.

(** What [LeaveProcessor] asks of [self.tools] on the housemaster path,
    besides [tool_leave_update]. *)
Record HmTools (S : Type) : Type := mk_HmTools {
  tool_hm_auth_house_check :
    string -> World S -> option HousemasterRecord * World S;
  tool_restriction_update :
    string -> string -> datetime -> datetime -> string ->
    World S -> bool * World S;
  tool_leave_query_hm :
    string -> string -> string -> World S -> HmQueryResult * World S
}.

Arguments tool_hm_auth_house_check {S} h.
Arguments tool_restriction_update {S} h.
Arguments tool_leave_query_hm {S} h.

(** The dict returned to the housemaster. *)
Record HmReply : Type := mk_HmReply {
  h_status : string;
  h_message : string
}.

(* ===================================================================== *)
(** * tools/placeholder_tools.py: the housemaster and guard tools         *)
(* ===================================================================== *)

Module HousemasterTools.

Definition mock_housemasters : gmap string HousemasterRecord :=
  {[ "hm.finningley@michaelhouse.org" :=
       mk_HousemasterRecord "HM_001" "Finningley";
     "hm.shepstone@michaelhouse.org" :=
       mk_HousemasterRecord "HM_002" "Shepstone";
     "27831112222" := mk_HousemasterRecord "HM_001" "Finningley" ]}.

Definition tool_hm_auth_house_check (identifier : string)
  : option HousemasterRecord :=
  mock_housemasters
    !! (if Str.contains "@" identifier then Str.lower identifier
        else identifier).

(** [tool_restriction_update] prints four lines and returns [True]. *)
Definition tool_restriction_update
  (hm_id student_admin_number : string) (start_date end_date : datetime)
  (reason : string) (w : World unit) : bool * World unit :=
  (true,
   mk_World
     (stdout w
      ++ ["[TOOL] Restriction set for student " +:+ student_admin_number;
          "       By HM: " +:+ hm_id;
          "       Period: " +:+ DT.str_date start_date +:+ " to "
            +:+ DT.str_date end_date;
          "       Reason: " +:+ reason])
     (store w)).

Definition tool_leave_query_hm
  (hm_id student_admin_number query_type : string) : HmQueryResult :=
  if String.eqb query_type "balance" then
    mk_HmQueryResult (Some {[ "overnight" := 2; "fridaySupper" := 3 ]}) None
  else
    mk_HmQueryResult None
      (Some [mk_LeaveEntry "Overnight" "2025-02-01" "2025-02-02" "Approved"]).

(** The object [LeaveSystemTools()], housemaster side. *)
Definition housemaster_tools : HmTools unit :=
  mk_HmTools unit
    (fun identifier =>
       LeaveSystemTools.pure_tool (tool_hm_auth_house_check identifier))
    tool_restriction_update
    (fun hm_id admin query_type =>
       LeaveSystemTools.pure_tool (tool_leave_query_hm hm_id admin query_type)).

(** An active leave of the register read by the guard. *)
Record ActiveLeave : Type := mk_ActiveLeave {
  al_leaveType : string;
  al_startDate : datetime;
  al_endDate : datetime;
  al_studentName : string;
  al_requestingParent : string;
  al_departed : bool
}.

Definition mock_active_leaves : gmap string (list ActiveLeave) :=
  {[ "12345" :=
       [mk_ActiveLeave "Overnight" (DT.make 2025 2 8 14 0)
          (DT.make 2025 2 9 18 50) "James Smith" "John Smith" false] ]}.

(** [a <= b] on datetimes. *)
Definition le (a b : datetime) : bool := negb (DT.lt b a).

(** The loop of [tool_leave_lookup]. *)
Fixpoint active_at (leaves : list ActiveLeave) (current_timestamp : datetime)
  : list ActiveLeave :=
  match leaves with
  | [] => []
  | leave :: rest =>
      if le (al_startDate leave) current_timestamp
         && le current_timestamp (al_endDate leave)
         && negb (al_departed leave)
      then leave :: active_at rest current_timestamp
      else active_at rest current_timestamp
  end.

Definition tool_leave_lookup (student_admin_number : string)
  (current_timestamp : datetime) : option (list ActiveLeave) :=
  let leaves := default [] (mock_active_leaves !! student_admin_number) in
  match active_at leaves current_timestamp with
  | [] => None
  | active_leaves => Some active_leaves
  end.

End HousemasterTools.

(* ===================================================================== *)
(** * processors/leave_processor.py: the housemaster path                 *)
(* ===================================================================== *)

(** The exceptions of the housemaster path: [IndexError], raised by an
    index outside a list, besides those of [exn]. *)
Inductive hm_exn : Type :=
| IndexError
| Builtin (e : exn).

Inductive hm_result (A : Type) : Type :=
| HmOk (a : A)
| HmRaise (e : hm_exn).

Arguments HmOk {A} a.
Arguments HmRaise {A} e.

(** A computation of the housemaster path. *)
Definition HM (S A : Type) : Type := World S -> hm_result A * World S.

Definition hm_ret {S A : Type} (a : A) : HM S A := fun w => (HmOk a, w).

Definition hm_raise {S A : Type} (e : hm_exn) : HM S A :=
  fun w => (HmRaise e, w).

Definition hm_bind {S A B : Type} (m : HM S A) (f : A -> HM S B) : HM S B :=
  fun w =>
    match m w with
    | (HmOk a, w') => f a w'
    | (HmRaise e, w') => (HmRaise e, w')
    end.

Definition hm_call {S A : Type} (t : World S -> A * World S) : HM S A :=
  fun w => let (a, w') := t w in (HmOk a, w').

Definition hm_lift {S A : Type} (r : result A) : HM S A :=
  fun w =>
    match r with
    | Ok a => (HmOk a, w)
    | Raise e => (HmRaise (Builtin e), w)
    end.

(** [xs[i]] *)
Definition index {S : Type} (xs : list string) (i : nat) : HM S string :=
  match nth_error xs i with
  | Some x => hm_ret x
  | None => hm_raise IndexError
  end.

Declare Scope hm_scope.
Delimit Scope hm_scope with hm.
Notation "'let!' x ':=' m 'in' k" := (hm_bind m (fun x => k))
  (at level 10, x name, m at level 200, k at level 200, only parsing)
  : hm_scope.

(** The character the source has in front of each line of a leave
    history: the bytes of a bullet read in another encoding. *)
Definition bullet : string :=
  String (ascii_of_nat 195) (String (ascii_of_nat 162)
  (String (ascii_of_nat 226) (String (ascii_of_nat 130)
  (String (ascii_of_nat 172) (String (ascii_of_nat 194)
  (String (ascii_of_nat 162) EmptyString)))))).

Module LeaveProcessorHM.

Section Processor.

Context {S : Type}.
Variable tools : Tools S.
Variable hm_tools : HmTools S.

Local Open Scope hm_scope.

Definition error_reply (message : string) : HmReply :=
  mk_HmReply "error" message.

Definition success_reply (message : string) : HmReply :=
  mk_HmReply "success" message.

(** [match.group(1)] of a match of [admin_pattern], a group that every
    match sets. *)
Definition admin_number_of (m : Re.captures) : string :=
  str_opt (Re.group 1 m).

(** The reason of a cancellation: what follows the first "because", or
    else the first "reason:", in the text in lower case. *)
Definition cancellation_reason (message_text : string) : HM S string :=
  let text_lower := Str.lower message_text in
  if Str.contains "because" text_lower then
    let! after := index (PyStr.split1 "because" text_lower) 1 in
    hm_ret (PyStr.strip after)
  else if Str.contains "reason:" text_lower then
    let! after := index (PyStr.split1 "reason:" text_lower) 1 in
    hm_ret (PyStr.strip after)
  else hm_ret "Housemaster decision".

(** [now1] and [now2] are what the two calls of [datetime.now()] return,
    in the order of the calls. *)
Definition _process_hm_cancellation (now1 now2 : datetime)
  (message_text : string) (housemaster : HousemasterInfo) : HM S HmReply :=
  match Re.search false LeaveRequestParser.admin_pattern message_text with
  | None =>
      hm_ret (error_reply
                "Please include the student's admin number to cancel their leave.")
  | Some m =>
      let student_admin_number := admin_number_of m in
      let! reason := cancellation_reason message_text in
      let! success :=
        hm_call (tool_leave_update tools student_admin_number ""
                   (Some now1) (Some now2) "" "" (hm_house housemaster) ""
                   None None
                   (Some (mk_Cancellation (Some (hm_id housemaster))
                            (Some reason)))) in
      if success then
        hm_ret (success_reply
                  ("Leave cancelled for student " +:+ student_admin_number
                   +:+ ". The balance has been refunded and the parent will be notified."))
      else
        hm_ret (error_reply
                  "Failed to cancel leave. Please verify the student admin number.")
  end.

Definition _process_hm_restriction (now1 now2 : datetime)
  (message_text : string) (housemaster : HousemasterInfo) : HM S HmReply :=
  match Re.search false LeaveRequestParser.admin_pattern message_text with
  | None =>
      hm_ret (error_reply
                "Please include the student's admin number to set a restriction.")
  | Some m =>
      let student_admin_number := admin_number_of m in
      let start_date := now1 in
      let! end_date := hm_lift (DT.add_days now2 14) in
      let reason := "Housemaster restriction" in
      let! success :=
        hm_call (tool_restriction_update hm_tools (hm_id housemaster)
                   student_admin_number start_date end_date reason) in
      if success then
        hm_ret (success_reply
                  ("Restriction placed on student " +:+ student_admin_number
                   +:+ " from " +:+ DT.strftime start_date "%d %b" +:+ " to "
                   +:+ DT.strftime end_date "%d %b" +:+ "."))
      else hm_ret (error_reply "Failed to set restriction.")
  end.

Definition _process_hm_balance_query (message_text : string)
  (housemaster : HousemasterInfo) : HM S HmReply :=
  match Re.search false LeaveRequestParser.admin_pattern message_text with
  | None =>
      hm_ret (error_reply
                "Please include the student's admin number to check their balance.")
  | Some m =>
      let student_admin_number := admin_number_of m in
      let! result :=
        hm_call (tool_leave_query_hm hm_tools (hm_id housemaster)
                   student_admin_number "balance") in
      let balances := default ∅ (q_balances result) in
      hm_ret (success_reply
                ("Leave Balance for Student " +:+ student_admin_number +:+ ":"
                 +:+ nl +:+ "Overnight Leave: "
                 +:+ Str.of_Z (default 0 (balances !! "overnight"))
                 +:+ " remaining" +:+ nl +:+ "Friday Supper Leave: "
                 +:+ Str.of_Z (default 0 (balances !! "fridaySupper"))
                 +:+ " remaining"))
  end.

(** The loop that adds one line for each leave. *)
Fixpoint history_lines (message : string) (leaves : list LeaveEntry)
  : string :=
  match leaves with
  | [] => message
  | leave :: rest =>
      history_lines
        (message +:+ bullet +:+ " " +:+ le_leaveType leave +:+ ": "
         +:+ le_startDate leave +:+ " to " +:+ le_endDate leave +:+ " ("
         +:+ le_status leave +:+ ")" +:+ nl)
        rest
  end.

Definition _process_hm_leave_query (message_text : string)
  (housemaster : HousemasterInfo) : HM S HmReply :=
  match Re.search false LeaveRequestParser.admin_pattern message_text with
  | None =>
      hm_ret (error_reply
                "Please include the student's admin number to view their leave history.")
  | Some m =>
      let student_admin_number := admin_number_of m in
      let! result :=
        hm_call (tool_leave_query_hm hm_tools (hm_id housemaster)
                   student_admin_number "leaves") in
      match default [] (q_leaves result) with
      | [] =>
          hm_ret (success_reply
                    ("No leave history found for student "
                     +:+ student_admin_number +:+ "."))
      | leaves =>
          hm_ret (success_reply
                    (history_lines
                       ("Leave History for Student " +:+ student_admin_number
                        +:+ ":" +:+ nl +:+ nl)
                       leaves))
      end
  end.

Definition process_housemaster_request (now1 now2 : datetime)
  (message_text sender_identifier channel : string) : HM S HmReply :=
  let! hm_info :=
    hm_call (tool_hm_auth_house_check hm_tools sender_identifier) in
  match hm_info with
  | None =>
      hm_ret (error_reply
                "I couldn't verify your Housemaster credentials. Please ensure you're using your registered contact details.")
  | Some record =>
      let housemaster :=
        mk_HousemasterInfo (hr_hmID record) (hr_assignedHouse record)
          None None None in
      let text_lower := Str.lower message_text in
      if Str.contains "cancel" text_lower
         || Str.contains "revoke" text_lower then
        _process_hm_cancellation now1 now2 message_text housemaster
      else if Str.contains "restrict" text_lower
              || Str.contains "restriction" text_lower
              || Str.contains "block" text_lower then
        _process_hm_restriction now1 now2 message_text housemaster
      else if Str.contains "balance" text_lower
              || Str.contains "how many" text_lower then
        _process_hm_balance_query message_text housemaster
      else if Str.contains "leave" text_lower
              || Str.contains "exeat" text_lower then
        _process_hm_leave_query message_text housemaster
      else
        hm_ret (error_reply
                  "I didn't understand your request. You can ask about leave balances, view leave history, cancel approved leaves, or set restrictions.")
  end.

End Processor.

End LeaveProcessorHM.

Import LeaveProcessorHM.

(* ===================================================================== *)
(** * Vocabulary of the statements                                        *)
(* ===================================================================== *)

(** A date of the calendar (years 1 to 9999). *)
Definition ordinal_ok (d : datetime) : Prop :=
  1 <= ordinal d <= DT.MAXORDINAL.

(** The clock shows a day of the calendar at least 13 days before its
    last day, 9999-12-31. *)
Definition clock_ok (now : datetime) : Prop :=
  1 <= ordinal now /\ ordinal now + 13 <= DT.MAXORDINAL.

(** A run that returns a decision with one of the four statuses and a
    message. *)
Definition statuses : list string :=
  ["approved"; "rejected"; "special_pending"; "error"].

Definition terminal {S : Type} (r : result Decision * World S) : Prop :=
  exists d w', r = (Ok d, w') /\ In (d_status d) statuses /\ d_message d <> "".


(** The first weekday, in the order of [self.weekdays], whose name is in a
    text. *)
Definition first_weekday_in (s : string) : option (string * Z) :=
  find (fun p => Str.contains (fst p) s) weekdays.

(** The priority order of the categories as the specification gives it: an
    ordered table of (predicate, category), the first that applies wins. *)
Definition category_rules : list ((string -> bool) * LeaveType) :=
  [ (Str.any_in SPECIAL_INDICATORS, SPECIAL);
    (Str.any_in OVERNIGHT_INDICATORS, OVERNIGHT);
    (Str.any_in SUPPER_INDICATORS, FRIDAY_SUPPER);
    (Str.any_in DAY_LEAVE_INDICATORS, DAY_LEAVE);
    (Str.any_in ["saturday"; "sunday"; "weekend"], DAY_LEAVE) ].

Fixpoint first_match (rules : list ((string -> bool) * LeaveType))
  (default : LeaveType) (text : string) : LeaveType :=
  match rules with
  | [] => default
  | (applies, category) :: rest =>
      if applies text then category else first_match rest default text
  end.

(** The trigger of the weekday rule of overnight leave. *)
Definition non_saturday_trigger : string :=
  "Overnight leave requested for a night other than Saturday to Sunday".



(** The decision of [_approve_leave] after a register update that
    failed. *)
Definition update_failed_decision : Decision :=
  mk_Decision "error" None
    "An error occurred while processing the leave. Please try again or contact the Housemaster."
    None None.

(** The name of the balance asked of the tool, its name in the messages,
    and the balance of the linked record, for the two counted categories. *)
Definition tool_kind (t : LeaveType) : string :=
  match t with
  | OVERNIGHT => "Overnight"
  | _ => "Supper"
  end.



(* ===================================================================== *)
(** * Sample requests                                                     *)
(* ===================================================================== *)

(** Thursday 6 February 2025, 10:30. *)
Definition thursday : datetime := DT.make 2025 2 6 10 30.

Definition james : StudentInfo :=
  mk_StudentInfo "12345" "James" "Smith" "Finningley" "C" 0 0.

Definition james3 : StudentInfo :=
  mk_StudentInfo "12345" "James" "Smith" "Finningley" "C" 3 3.

Definition michael : StudentInfo :=
  mk_StudentInfo "67890" "Michael" "Doe" "Shepstone" "E" 2 3.

Definition parent1 : ParentInfo :=
  mk_ParentInfo "PARENT_001" None (Some "27603174174") None "whatsapp".

Definition parent2 : ParentInfo :=
  mk_ParentInfo "PARENT_002" None None (Some "jane.doe@example.com") "email".

(** Day leave on Sunday 9 February 2025 for a student with both balances
    at zero. *)
Definition day_leave_request : LeaveRequest :=
  mk_LeaveRequest james parent1 DAY_LEAVE (Some (DT.make 2025 2 9 9 0))
    (Some (DT.make 2025 2 9 17 0)) PENDING None None None.

(** Overnight leave on Tuesday 11 February 2025. *)
Definition tuesday_overnight_request : LeaveRequest :=
  mk_LeaveRequest james parent1 OVERNIGHT (Some (DT.make 2025 2 11 9 0))
    (Some (DT.make 2025 2 11 17 0)) PENDING None None None.

(** Overnight leave from Saturday 8 February 2025. *)
Definition saturday_overnight_request : LeaveRequest :=
  mk_LeaveRequest james3 parent1 OVERNIGHT (Some (DT.make 2025 2 8 14 0))
    (Some (DT.make 2025 2 9 18 50)) PENDING None None None.



(** The placeholder tools with a register update that reports a failure,
    as the one of [DatabaseTools] does after an error of the database and
    as a mock of the tests can ([tool_leave_update.return_value]). *)
Definition tools_with_failing_update : Tools unit :=
  mk_Tools unit
    (tool_parent_phone_check LeaveSystemTools.tools)
    (tool_parent_email_check LeaveSystemTools.tools)
    (tool_student_parent_linkage LeaveSystemTools.tools)
    (tool_leave_balance_check LeaveSystemTools.tools)
    (tool_date_validity_check LeaveSystemTools.tools)
    (tool_restriction_check LeaveSystemTools.tools)
    (fun _ _ _ _ _ _ _ _ _ _ _ w => (false, w)).

(** One approval attempt for student 12345, whose stored overnight balance
    is 3, in a given world. *)
Definition overnight_message : string :=
  "overnight leave for James this Saturday".

Definition attempt (w : World unit) : result Decision * World unit :=
  process_parent_request LeaveSystemTools.tools thursday overnight_message
    "27603174174" "whatsapp" w.


(* ===================================================================== *)
(** * Vocabulary of the further properties                                *)
(* ===================================================================== *)

(** Special leave on Saturday 8 February 2025. *)
Definition special_request : LeaveRequest :=
  mk_LeaveRequest james3 parent1 SPECIAL (Some (DT.make 2025 2 8 9 0))
    (Some (DT.make 2025 2 8 17 0)) PENDING None None None.

(** The decision for a sender that is not authenticated, and the one for
    a request without both dates. *)
Definition auth_failure_message : string :=
  "I couldn't verify your identity. Please ensure you're using the registered contact details on file.".

Definition auth_failed_decision : Decision :=
  mk_Decision "rejected" (Some "authentication_failed") auth_failure_message
    None None.

Definition missing_dates_decision : Decision :=
  mk_Decision "error" (Some "missing_dates")
    "I couldn't determine the dates for this leave request. Please specify the start and end dates clearly."
    None None.


(** The two closed weekends of the placeholder tools, and the test of the
    tool: the blocks D and E alone have closed weekends. *)
Definition first_weekend : datetime * datetime :=
  (DT.make 2025 1 18 0 0, DT.make 2025 1 19 0 0).

Definition half_term_weekend : datetime * datetime :=
  (DT.make 2025 2 22 0 0, DT.make 2025 2 23 0 0).

Definition on_closed_weekend (student_block : string)
  (start_date end_date : datetime) : bool :=
  (String.eqb student_block "D" || String.eqb student_block "E")
  && (LeaveSystemTools.overlaps start_date end_date (fst first_weekend)
        (snd first_weekend)
      || LeaveSystemTools.overlaps start_date end_date (fst half_term_weekend)
           (snd half_term_weekend)).

Definition closed_weekend_reason (student_block : string) : string :=
  "Falls on closed weekend for " +:+ student_block
  +:+ " Block (First weekend of term or weekend after half term)".

(** Day leave of a student of block E on Saturday 18 January 2025. *)
Definition closed_weekend_day_leave : LeaveRequest :=
  mk_LeaveRequest michael parent2 DAY_LEAVE (Some (DT.make 2025 1 18 9 0))
    (Some (DT.make 2025 1 18 17 0)) PENDING None None None.

(** The student of a record returned by the linkage tool. *)
Definition student_of_record (record : StudentRecord) : StudentInfo :=
  mk_StudentInfo (adminNumber record) (firstName record) (lastName record)
    (sr_house record) (sr_block record) (b_overnight (balances record))
    (b_fridaySupper (balances record)).

(** The authentication tool of a channel. *)
Definition auth_tool {S : Type} (tools : Tools S) (channel : string)
  : option (string -> World S -> option string * World S) :=
  if String.eqb channel "whatsapp" then Some (tool_parent_phone_check tools)
  else if String.eqb channel "email" then Some (tool_parent_email_check tools)
  else None.

(* ===================================================================== *)
(** * What a pattern matches                                              *)
(* ===================================================================== *)

Module ReSpec.

Import Re.

(** [n] pieces, each of them in [P], one after the other. *)
Fixpoint power (P : string -> Prop) (n : nat) (a : string) : Prop :=
  match n with
  | O => a = ""
  | S n' => exists a1 a2, a = a1 +:+ a2 /\ P a1 /\ power P n' a2
  end.

(** The texts a pattern can take, whatever stands around them ([\b] takes
    nothing). *)
Fixpoint lang (ic : bool) (r : regex) (a : string) : Prop :=
  match r with
  | Eps => a = ""
  | Chr c => exists x, a = String x "" /\ chr_matches ic c x = true
  | Cls rs => exists x, a = String x "" /\ cls_matches ic rs x = true
  | Cat r1 r2 => exists a1 a2, a = a1 +:+ a2 /\ lang ic r1 a1 /\ lang ic r2 a2
  | Alt r1 r2 => lang ic r1 a \/ lang ic r2 a
  | Rep r' lo hi =>
      exists n, (lo <= n)%nat
                /\ match hi with Some h => (n <= h)%nat | None => True end
                /\ power (lang ic r') n a
  | Grp _ r' => lang ic r' a
  | Wb => a = ""
  end.

(** The groups of a pattern, with the pattern inside each. *)
Fixpoint groups_of (r : regex) : list (nat * regex) :=
  match r with
  | Cat r1 r2 | Alt r1 r2 => groups_of r1 ++ groups_of r2
  | Rep r' _ _ => groups_of r'
  | Grp n r' => (n, r') :: groups_of r'
  | _ => []
  end.

(** [v] is a piece of [a]. *)
Definition within (v a : string) : Prop :=
  exists x y, a = x +:+ v +:+ y.

(** A captured group holds a piece of the match, taken by the pattern
    inside one of the groups of that number. *)
Definition cap_ok (ic : bool) (gs : list (nat * regex)) (a : string)
  (nv : nat * string) : Prop :=
  exists r', In (fst nv, r') gs /\ lang ic r' (snd nv) /\ within (snd nv) a.

(** The characters a pattern can take. *)
Fixpoint accepts (ic : bool) (r : regex) (x : ascii) : bool :=
  match r with
  | Chr c => chr_matches ic c x
  | Cls rs => cls_matches ic rs x
  | Cat r1 r2 | Alt r1 r2 => accepts ic r1 x || accepts ic r2 x
  | Rep r' _ _ | Grp _ r' => accepts ic r' x
  | _ => false
  end.

(** What a successful match says: the text splits into the part taken,
    which the pattern describes, and the rest, on which the continuation
    succeeded with the new groups in front of the old ones. *)
Definition sound_step (ic : bool) (P : string -> Prop)
  (gs : list (nat * regex))
  (step : option ascii -> string -> captures -> cont -> option outcome)
  : Prop :=
  forall prev s caps k o,
    step prev s caps k = Some o ->
    exists a s' p' new,
      s = a +:+ s' /\ P a /\ Forall (cap_ok ic gs a) new
      /\ k p' s' (new ++ caps) = Some o.

(** The longest text a pattern takes, for a pattern whose repetitions
    are all bounded. *)
Fixpoint bounded (r : regex) : bool :=
  match r with
  | Cat r1 r2 | Alt r1 r2 => bounded r1 && bounded r2
  | Rep r' _ (Some _) | Grp _ r' => bounded r'
  | Rep _ _ None => false
  | _ => true
  end.

Fixpoint max_length (r : regex) : nat :=
  match r with
  | Eps | Wb => 0
  | Chr _ | Cls _ => 1
  | Cat r1 r2 => max_length r1 + max_length r2
  | Alt r1 r2 => Nat.max (max_length r1) (max_length r2)
  | Rep r' _ (Some h) => h * max_length r'
  | Rep _ _ None => 0
  | Grp _ r' => max_length r'
  end.

(** The shortest text a pattern takes. *)
Fixpoint min_length (r : regex) : nat :=
  match r with
  | Eps | Wb => 0
  | Chr _ | Cls _ => 1
  | Cat r1 r2 => min_length r1 + min_length r2
  | Alt r1 r2 => Nat.min (min_length r1) (min_length r2)
  | Rep r' lo _ => lo * min_length r'
  | Grp _ r' => min_length r'
  end.

(** The characters with which a match of a pattern can begin. *)
Fixpoint first_accepts (ic : bool) (r : regex) (x : ascii) : bool :=
  match r with
  | Chr c => chr_matches ic c x
  | Cls rs => cls_matches ic rs x
  | Cat r1 r2 =>
      if (1 <=? min_length r1)%nat then first_accepts ic r1 x
      else first_accepts ic r1 x || first_accepts ic r2 x
  | Alt r1 r2 => first_accepts ic r1 x || first_accepts ic r2 x
  | Rep r' _ _ | Grp _ r' => first_accepts ic r' x
  | _ => false
  end.

End ReSpec.

(** Every character of [s] passes the test [p]. *)
Fixpoint all_chars (p : ascii -> bool) (s : string) : bool :=
  match s with
  | EmptyString => true
  | String c s' => p c && all_chars p s'
  end.

Definition is_digit (c : ascii) : bool :=
  Re.in_ranges [("0", "9")]%char c.

Definition is_letter (c : ascii) : bool :=
  Re.in_ranges [("A", "Z"); ("a", "z")]%char c.

(** A letter or a character of [\s]. *)
Definition is_name_char (c : ascii) : bool :=
  Re.in_ranges
    [("A", "Z"); ("a", "z"); (" ", " "); ("009", "013"); ("028", "031")]%char
    c.

(** The two shapes of a student identifier: five digits, or a name. *)
Definition is_admin_number (s : string) : bool :=
  Nat.eqb (String.length s) 5 && all_chars is_digit s.

Definition is_name (s : string) : bool :=
  match s with
  | String c _ => is_letter c && all_chars is_name_char s
  | EmptyString => false
  end.

(** The 256 characters. *)
Definition all_ascii : list ascii := map ascii_of_nat (seq 0 256).

(** A text of ASCII characters.  The texts of the model stand for Python
    strings of such characters: on them [str.lower], [str.strip], the
    classes [\d], [\s] and [\w], [\b] and [re.IGNORECASE] are the ones of
    the model, while on other characters Python follows Unicode (more
    letters change case, more characters are digits, blanks or letters).
    The statements that depend on how a text is read assume it. *)
Definition is_ascii_char (c : ascii) : bool := (nat_of_ascii c <? 128)%nat.

Definition is_ascii (s : string) : bool := all_chars is_ascii_char s.


(** A digit or a slash: the characters of a date written in numbers. *)
Definition is_digit_or_slash (c : ascii) : bool :=
  Re.in_ranges [("0", "9"); ("/", "/")]%char c.


(** No digit; the characters of "this", "next" and "weekend" in either
    case, and the blanks. *)
Definition is_not_digit (c : ascii) : bool := negb (is_digit c).

Definition is_weekend_char (c : ascii) : bool :=
  Str.contains (String (Str.lower_char c) "") "thisnextweekend"
  || Re.in_ranges [(" ", " "); ("009", "013"); ("028", "031")]%char c.

(* ===================================================================== *)
(** * The calendar: years, months and days of an ordinal                  *)
(* ===================================================================== *)

(** The integers [lo], [lo + 1], ..., [lo + n - 1]. *)
Definition Z_range (lo : Z) (n : nat) : list Z :=
  map (fun i => lo + Z.of_nat i) (seq 0 n).

(** [p] is the triple [(year, month, day)]. *)
Definition same_ymd (p : Z * Z * Z) (year month day : Z) : bool :=
  let '(y, m, d) := p in (y =? year) && (m =? month) && (d =? day).

(** The end of [_ord2ymd]: the month and the day of the day [n] of a
    year, counted from 0. *)
Definition month_day (leapyear : bool) (n : Z) : Z * Z :=
  let month := Z.shiftr (n + 50) 5 in
  let preceding :=
    nth (Z.to_nat month) DT.DAYS_BEFORE_MONTH 0
    + (if (2 <? month) && leapyear then 1 else 0) in
  if n <? preceding then
    let month := month - 1 in
    let preceding :=
      preceding
      - (nth (Z.to_nat month) DT.DAYS_IN_MONTH 0
         + (if (month =? 2) && leapyear then 1 else 0)) in
    (month, n - preceding + 1)
  else (month, n - preceding + 1).

(** The days before a month and the days of a month, in a leap year or in
    a common year. *)
Definition days_before (leapyear : bool) (month : Z) : Z :=
  nth (Z.to_nat month) DT.DAYS_BEFORE_MONTH 0
  + (if (2 <? month) && leapyear then 1 else 0).

Definition days_in (leapyear : bool) (month : Z) : Z :=
  if (month =? 2) && leapyear then 29
  else nth (Z.to_nat month) DT.DAYS_IN_MONTH 0.

(** What [_ord2ymd] computes on the first 365 days of a year of the first
    cycle of 400 years: the quotients that give the year are those of the
    first day, which give that year and its kind; the last day of a leap
    year is 31 December. *)
Definition year_ok (year : Z) : bool :=
  let a := DT.days_before_year year in
  let b := a + 364 in
  let a1 := a mod DT.DI100Y in
  let b1 := b mod DT.DI100Y in
  let a2 := a1 mod DT.DI4Y in
  let b2 := b1 mod DT.DI4Y in
  let n100 := a / DT.DI100Y in
  let n4 := a1 / DT.DI4Y in
  let n1 := a2 / 365 in
  (0 <=? a) && (a + 365 <? DT.DI400Y)
  && (n100 =? b / DT.DI100Y) && (n4 =? b1 / DT.DI4Y) && (n1 =? b2 / 365)
  && (a2 mod 365 =? 0)
  && (1 + n100 * 100 + n4 * 4 + n1 =? year)
  && negb (n1 =? 4) && negb (n100 =? 4)
  && Bool.eqb ((n1 =? 3) && (negb (n4 =? 24) || (n100 =? 3)))
       (DT.is_leap year)
  && (if DT.is_leap year
      then same_ymd (DT.ord2ymd (a + 366)) year 12 31
      else true).

(** Four digits. *)
Definition four_digits (s : string) : bool :=
  match s with
  | String a (String b (String c (String d EmptyString))) =>
      is_digit a && is_digit b && is_digit c && is_digit d
  | _ => false
  end.

(** The name of a month and of the day of the week of a date, and the
    date as the approval message shows it. *)
Definition month_name (month : Z) : string :=
  nth (Z.to_nat (month - 1)) DT.MONTH_NAMES "".

Definition day_name (d : datetime) : string :=
  nth (Z.to_nat (DT.weekday d)) DT.DAY_NAMES "".

Definition long_date (year month day hh mm : Z) : string :=
  day_name (DT.make year month day hh mm) +:+ " " +:+ Str.pad 2 day +:+ " "
  +:+ month_name month +:+ " " +:+ Str.pad 4 year +:+ " at "
  +:+ Str.pad 2 hh +:+ ":" +:+ Str.pad 2 mm.

(** The character of a digit, and a number written with two and with four
    digits, zeros in front. *)
Definition digit_char (n : Z) : ascii := ascii_of_nat (48 + Z.to_nat n).

Definition two_digit (n : Z) : string :=
  String (digit_char (n / 10)) (String (digit_char (n mod 10)) "").

Definition four_digit (n : Z) : string :=
  String (digit_char (n / 1000))
    (String (digit_char (n / 100 mod 10))
       (String (digit_char (n / 10 mod 10))
          (String (digit_char (n mod 10)) ""))).

(** A date written day/month/year, each part with its zeros. *)
Definition numeric_text (year month day : Z) : string :=
  two_digit day +:+ "/" +:+ two_digit month +:+ "/" +:+ four_digit year.

(* ===================================================================== *)
(** * The housemaster path: vocabulary and sample requests                *)
(* ===================================================================== *)

(** The housemaster path as [LeaveProcessor()] builds it, with the
    placeholder tools, run on an empty output. *)
Definition run_housemaster_request (now1 now2 : datetime)
  (message_text sender_identifier channel : string)
  : hm_result HmReply * World unit :=
  LeaveProcessorHM.process_housemaster_request LeaveSystemTools.tools
    HousemasterTools.housemaster_tools now1 now2 message_text sender_identifier channel
    world0.

(** The housemaster of a record returned by the authentication tool. *)
Definition housemaster_of (record : HousemasterRecord) : HousemasterInfo :=
  mk_HousemasterInfo (hr_hmID record) (hr_assignedHouse record) None None
    None.

(** The text in lower case names a cancellation, a restriction, a balance
    or a leave history. *)
Definition asks_cancellation (message_text : string) : bool :=
  Str.any_in ["cancel"; "revoke"] (Str.lower message_text).

Definition asks_restriction (message_text : string) : bool :=
  Str.any_in ["restrict"; "block"] (Str.lower message_text).

Definition asks_balance (message_text : string) : bool :=
  Str.any_in ["balance"; "how many"] (Str.lower message_text).

Definition asks_leaves (message_text : string) : bool :=
  Str.any_in ["leave"; "exeat"] (Str.lower message_text).

(** One line of a leave history. *)
Definition leave_line (leave : LeaveEntry) : string :=
  bullet +:+ " " +:+ le_leaveType leave +:+ ": " +:+ le_startDate leave
  +:+ " to " +:+ le_endDate leave +:+ " (" +:+ le_status leave +:+ ")"
  +:+ nl.

(** The texts of a list, one after the other. *)
Fixpoint joined (xs : list string) : string :=
  match xs with
  | [] => ""
  | x :: rest => x +:+ joined rest
  end.

(** A question about a balance that names the block of the student. *)
Definition balance_question : string :=
  "What is the balance of 12345 in C block?".

(** Monday 10 February 2025, 08:00, and a second later. *)
Definition monday : datetime := DT.make 2025 2 10 8 0.
Definition monday_later : datetime := mk_datetime (ordinal monday) 8 0 1 0.

(** A run of the housemaster path that returns a reply with one of the
    two statuses and a message. *)
Definition hm_terminal {S : Type} (r : hm_result HmReply * World S) : Prop :=
  exists reply w',
    r = (HmOk reply, w') /\ In (h_status reply) ["success"; "error"]
    /\ h_message reply <> "".

(** The replies of the cancellation and of the restriction. *)
Definition cancellation_reply (student_admin_number : string)
  (success : bool) : HmReply :=
  if success then
    mk_HmReply "success"
      ("Leave cancelled for student " +:+ student_admin_number
       +:+ ". The balance has been refunded and the parent will be notified.")
  else
    mk_HmReply "error"
      "Failed to cancel leave. Please verify the student admin number.".

Definition restriction_reply (student_admin_number : string)
  (start_date end_date : datetime) (success : bool) : HmReply :=
  if success then
    mk_HmReply "success"
      ("Restriction placed on student " +:+ student_admin_number +:+ " from "
       +:+ DT.strftime start_date "%d %b" +:+ " to "
       +:+ DT.strftime end_date "%d %b" +:+ ".")
  else mk_HmReply "error" "Failed to set restriction.".

(** Requests of the housemaster of Finningley. *)
Definition finningley : string := "HM.Finningley@michaelhouse.org".

Definition cancel_text : string :=
  "Please cancel the leave of 67890 because He is ILL ".

Definition history_text : string := "leave history of 12345 please".

(** The leave of student 12345 in the register read by the guard. *)
Definition james_active_leave : HousemasterTools.ActiveLeave :=
  HousemasterTools.mk_ActiveLeave "Overnight" (DT.make 2025 2 8 14 0)
    (DT.make 2025 2 9 18 50) "James Smith" "John Smith" false.

Definition balance_text : string :=
  "how many overnight leaves has 12345 left".

(** The entry of the leave history of the placeholder tools. *)
Definition placeholder_entry : LeaveEntry :=
  mk_LeaveEntry "Overnight" "2025-02-01" "2025-02-02" "Approved".

(* ===================================================================== *)
(** * Properties                                                          *)
(* ===================================================================== *)

(** Calendar and [strptime] on sample values. *)
Example ymd2ord_2025_02_08 : DT.ymd2ord 2025 2 8 = 739290.
Proof. reflexivity. Qed.

Example weekday_2025_02_08 : DT.weekday (DT.make 2025 2 8 0 0) = 5.
Proof. reflexivity. Qed.

Example strftime_ex :
  DT.strftime (DT.make 2025 2 8 14 0) "%A %d %B %Y at %H:%M"
  = "Saturday 08 February 2025 at 14:00".
Proof. vm_compute. reflexivity. Qed.

Example str_ex : DT.str (DT.make 2025 12 31 9 5) = "2025-12-31 09:05:00".
Proof. vm_compute. reflexivity. Qed.

Example ord_max : DT.ymd2ord 9999 12 31 = DT.MAXORDINAL.
Proof. reflexivity. Qed.

Example strptime_ex1 :
  Strptime.strptime "15/02/2025" "%d/%m/%Y" = Ok (DT.make 2025 2 15 0 0).
Proof. vm_compute. reflexivity. Qed.

Example strptime_ex2 :
  Strptime.strptime "15 february 2025" "%d %B %Y" = Ok (DT.make 2025 2 15 0 0).
Proof. vm_compute. reflexivity. Qed.

Example strptime_ex3 :
  Strptime.strptime "31/02/2025" "%d/%m/%Y" = Raise ValueError.
Proof. vm_compute. reflexivity. Qed.

Example strptime_ex4 :
  Strptime.strptime "5-3-25" "%d-%m-%y" = Ok (DT.make 2025 3 5 0 0).
Proof. vm_compute. reflexivity. Qed.

Example strptime_ex5 :
  Strptime.strptime "15/02/2025" "%d/%m/%y" = Raise ValueError.
Proof. vm_compute. reflexivity. Qed.

(* ===================================================================== *)
(** * Sample runs                                                         *)
(* ===================================================================== *)

Example extract_admin_number :
  _extract_student_identifier "Can student 12345 have leave this Saturday?"
  = Some "12345".
Proof. vm_compute. reflexivity. Qed.

Example extract_name_with_for :
  _extract_student_identifier "Request leave for Michael Doe this weekend"
  = Some "Michael Doe".
Proof. vm_compute. reflexivity. Qed.

Example extract_first_name_only :
  _extract_student_identifier "Can my son James go out this Saturday?"
  = Some "James".
Proof. vm_compute. reflexivity. Qed.

Example parse_date_range :
  exists pd,
    parse_request thursday "leave from 15/02/2025 to 16/02/2025" = Ok pd
    /\ pd_leave_type pd = OVERNIGHT
    /\ pd_start_date pd = Some (DT.make 2025 2 15 14 0)
    /\ pd_end_date pd = Some (DT.make 2025 2 16 18 50).
Proof. eexists. split; [vm_compute; reflexivity |]. repeat split. Qed.

(** "overnight leave this Saturday" on a Thursday, stored balance 3:
    Saturday 14:00 to Sunday 18:50, approved, 2 reported as remaining. *)
Example scenario_overnight_this_saturday :
  exists d w message,
    run_parent_request thursday "overnight leave for James this Saturday"
      "27603174174" "whatsapp" = (Ok d, w)
    /\ d = mk_Decision "approved" None message
             (Some saturday_overnight_request) None
    /\ _format_approval_message saturday_overnight_request (Some 2)
         (Some "overnight") = Ok message.
Proof.
  eexists; eexists; eexists. split; [vm_compute; reflexivity |].
  split; vm_compute; reflexivity.
Qed.

(** "day leave this Sunday": approved. *)
Example scenario_day_leave_this_sunday :
  exists d w,
    run_parent_request thursday "day leave for James this Sunday"
      "27603174174" "whatsapp" = (Ok d, w)
    /\ d_status d = "approved".
Proof. eexists; eexists. split; [vm_compute; reflexivity |]. reflexivity. Qed.

(** A closed weekend of the E block: special_pending. *)
Example scenario_closed_weekend :
  exists d w,
    run_parent_request thursday "overnight leave for Michael 22/02/2025"
      "jane.doe@example.com" "email" = (Ok d, w)
    /\ d_status d = "special_pending"
    /\ d_trigger_reason d
       = Some "Falls on closed weekend for E Block (First weekend of term or weekend after half term)".
Proof. eexists; eexists. split; [vm_compute; reflexivity |]. split; reflexivity. Qed.

(** An overnight leave that resolves to a Tuesday: special_pending. *)
Example scenario_overnight_on_a_tuesday :
  exists d w,
    run_parent_request thursday "overnight leave for James 11/02/2025"
      "27603174174" "whatsapp" = (Ok d, w)
    /\ d_status d = "special_pending"
    /\ d_trigger_reason d = Some non_saturday_trigger.
Proof. eexists; eexists. split; [vm_compute; reflexivity |]. split; reflexivity. Qed.

Lemma is_leap_mod4 y : DT.is_leap y = true -> y mod 4 = 0.
Proof.
  unfold DT.is_leap. intros H. apply andb_prop in H. destruct H as [H _].
  apply Z.eqb_eq in H. exact H.
Qed.

Lemma days_before_month_bounds y m :
  1 <= m <= 12 ->
  0 <= DT.days_before_month y m /\
  DT.days_before_month y m + DT.days_in_month y m
  <= (if DT.is_leap y then 366 else 365).
Proof.
  intros Hm. unfold DT.days_before_month, DT.days_in_month.
  assert (Hc : m = 1 \/ m = 2 \/ m = 3 \/ m = 4 \/ m = 5 \/ m = 6 \/ m = 7
               \/ m = 8 \/ m = 9 \/ m = 10 \/ m = 11 \/ m = 12) by lia.
  destruct (DT.is_leap y);
    repeat (destruct Hc as [-> | Hc]; [simpl; lia |]); subst; simpl; lia.
Qed.

Lemma ymd2ord_bounds y m d :
  DT.check_date_fields y m d = true ->
  1 <= DT.ymd2ord y m d <= DT.MAXORDINAL.
Proof.
  unfold DT.check_date_fields, DT.MINYEAR, DT.MAXYEAR. intros H.
  repeat (apply andb_prop in H; destruct H as [H ?]).
  repeat match goal with
         | h : (_ <=? _) = true |- _ => apply Z.leb_le in h
         end.
  destruct (days_before_month_bounds y m ltac:(lia)) as [Hb0 Hb1].
  unfold DT.ymd2ord, DT.MAXORDINAL, DT.days_before_year.
  destruct (DT.is_leap y) eqn:Hl.
  - apply is_leap_mod4 in Hl. Z.div_mod_to_equations. lia.
  - Z.div_mod_to_equations. lia.
Qed.

(* ===================================================================== *)
(** * Patterns: the groups that every match sets                          *)
(* ===================================================================== *)

Module ReFacts.

Import Re.

Lemma mono_refl c : mono c c.
Proof. intros m H. exact H. Qed.

Lemma mono_trans a b c : mono a b -> mono b c -> mono a c.
Proof. intros H1 H2 m H. apply H2, H1, H. Qed.

Lemma mono_cons n v c : mono c ((n, v) :: c).
Proof.
  intros m H. unfold has in *. simpl. destruct (Nat.eqb n m); [discriminate | exact H].
Qed.

Lemma has_cons n v c : has n ((n, v) :: c).
Proof. unfold has. simpl. rewrite Nat.eqb_refl. discriminate. Qed.

Lemma rep_loop_ends step n b
  (Hstep : forall prev s caps k o,
      step prev s caps k = Some o -> ends_in k caps b n o) :
  forall fuel lo hi prev s caps k o,
    rep_loop step fuel lo hi prev s caps k = Some o ->
    ends_in k caps (negb (Nat.eqb lo 0) && b) n o.
Proof.
  assert (Hstop : forall lo prev s caps (k : cont) o,
             (if Nat.eqb lo 0 then k prev s caps else None) = Some o ->
             ends_in k caps (negb (Nat.eqb lo 0) && b) n o).
  { intros lo prev s caps k o H. destruct (Nat.eqb lo 0); [| discriminate].
    exists prev, s, caps. repeat split; [exact H | apply mono_refl |].
    simpl. discriminate. }
  induction fuel as [| fuel IH]; intros lo hi prev s caps k o H; simpl in H.
  - apply Hstop in H. exact H.
  - match type of H with
    | match ?again with _ => _ end = _ => destruct again as [o' |] eqn:Ha
    end.
    + injection H as ->.
      assert (Hs : step prev s caps
                     (fun p' s' c' =>
                        rep_loop step fuel (Nat.pred lo) (option_map Nat.pred hi)
                          p' s' c' k) = Some o).
      { destruct hi as [[| h] |]; [discriminate | exact Ha | exact Ha]. }
      apply Hstep in Hs. destruct Hs as (p1 & s1 & c1 & Hk & Hm & Hb).
      apply IH in Hk. destruct Hk as (p2 & s2 & c2 & Hk & Hm2 & _).
      exists p2, s2, c2. repeat split; [exact Hk | eapply mono_trans; eauto |].
      intros Hsets. apply andb_prop in Hsets. destruct Hsets as [_ Hsets].
      apply Hm2, Hb, Hsets.
    + apply Hstop in H. exact H.
Qed.

Lemma rmatch_ends ic n r :
  forall prev s caps k o,
    rmatch ic r prev s caps k = Some o ->
    ends_in k caps (always_sets n r) n o.
Proof.
  induction r as [| c | rs | r1 IH1 r2 IH2 | r1 IH1 r2 IH2 | r IH lo hi
                 | m r IH |]; intros prev s caps k o H;
    [simpl in H | simpl in H | simpl in H | simpl in H | simpl in H
    | change (rep_loop (rmatch ic r) (S (String.length s)) lo hi prev s caps k
              = Some o) in H
    | simpl in H | simpl in H].
  - exists prev, s, caps. repeat split; [exact H | apply mono_refl | discriminate].
  - destruct s as [| x s']; [discriminate |].
    destruct (chr_matches ic c x); [| discriminate].
    exists (Some x), s', caps.
    repeat split; [exact H | apply mono_refl | discriminate].
  - destruct s as [| x s']; [discriminate |].
    destruct (cls_matches ic rs x); [| discriminate].
    exists (Some x), s', caps.
    repeat split; [exact H | apply mono_refl | discriminate].
  - apply IH1 in H. destruct H as (p1 & s1 & c1 & H & Hm1 & Hb1).
    apply IH2 in H. destruct H as (p2 & s2 & c2 & H & Hm2 & Hb2).
    exists p2, s2, c2. repeat split; [exact H | eapply mono_trans; eauto |].
    simpl. intros Hs. apply orb_prop in Hs. destruct Hs as [Hs | Hs].
    + apply Hm2, Hb1, Hs.
    + apply Hb2, Hs.
  - destruct (rmatch ic r1 prev s caps k) as [o1 |] eqn:H1.
    + injection H as ->. apply IH1 in H1.
      destruct H1 as (p1 & s1 & c1 & H & Hm1 & Hb1).
      exists p1, s1, c1. repeat split; [exact H | exact Hm1 |].
      simpl. intros Hs. apply andb_prop in Hs. apply Hb1, Hs.
    + apply IH2 in H. destruct H as (p1 & s1 & c1 & H & Hm1 & Hb1).
      exists p1, s1, c1. repeat split; [exact H | exact Hm1 |].
      simpl. intros Hs. apply andb_prop in Hs. apply Hb1, Hs.
  - apply (rep_loop_ends (rmatch ic r) n (always_sets n r) IH) in H. exact H.
  - apply IH in H. destruct H as (p1 & s1 & c1 & H & Hm1 & Hb1).
    eexists p1, s1, _. repeat split; [exact H | |].
    + eapply mono_trans; [exact Hm1 | apply mono_cons].
    + simpl. intros Hs. apply orb_prop in Hs. destruct Hs as [Hs | Hs].
      * apply Nat.eqb_eq in Hs. subst m. apply has_cons.
      * apply mono_cons, Hb1, Hs.
  - destruct (xorb (is_word prev) (is_word (head s))); [| discriminate].
    exists prev, s, caps.
    repeat split; [exact H | apply mono_refl | discriminate].
Qed.

Lemma search_from_has ic n r :
  always_sets n r = true ->
  forall s prev o, search_from ic r prev s = Some o -> has n (fst o).
Proof.
  intros Hs. induction s as [| c s IH]; intros prev o H; simpl in H.
  - destruct (rmatch ic r prev "" [] finish) as [o' |] eqn:Hm; [| discriminate].
    injection H as ->. apply (rmatch_ends ic n) in Hm.
    destruct Hm as (p1 & s1 & c1 & H & _ & Hb). unfold finish in H.
    injection H as <-. apply Hb, Hs.
  - destruct (rmatch ic r prev (String c s) [] finish) as [o' |] eqn:Hm.
    + injection H as ->. apply (rmatch_ends ic n) in Hm.
      destruct Hm as (p1 & s1 & c1 & H & _ & Hb). unfold finish in H.
      injection H as <-. apply Hb, Hs.
    + eapply IH, H.
Qed.

Lemma search_has ic n r text caps :
  always_sets n r = true ->
  search ic r text = Some caps -> exists v, group n caps = Some v.
Proof.
  intros Hs H. unfold search in H.
  destruct (search_from ic r None text) as [o |] eqn:Ho; [| discriminate].
  injection H as <-. apply (search_from_has ic n r Hs) in Ho.
  unfold has in Ho. destruct (group n (fst o)) as [v |]; [eauto | congruence].
Qed.

End ReFacts.

(* ===================================================================== *)
(** * The parser stays inside the calendar and raises nothing             *)
(* ===================================================================== *)

Lemma strptime_ordinal data fmt d :
  Strptime.strptime data fmt = Ok d -> ordinal_ok d.
Proof.
  unfold Strptime.strptime. intros H.
  destruct (Re.match_ true (Strptime.format_regex fmt) data)
    as [[caps rest] |]; [| discriminate].
  destruct rest; [| discriminate].
  destruct (Strptime.year_of caps) as [y |]; [| discriminate].
  destruct (Strptime.month_of caps) as [m |]; [| discriminate].
  destruct (Strptime.int_group Strptime.g_d caps) as [dd |]; [| discriminate].
  destruct (DT.check_date_fields y m dd) eqn:Hc; [| discriminate].
  injection H as <-. unfold ordinal_ok. simpl. apply ymd2ord_bounds, Hc.
Qed.

Lemma try_formats_ordinal date_str fmts d :
  try_formats date_str fmts = Some d -> ordinal_ok d.
Proof.
  induction fmts as [| fmt rest IH]; simpl; [discriminate |].
  destruct (Strptime.strptime date_str fmt) as [d' | e] eqn:Hs.
  - intros H. injection H as <-. eapply strptime_ordinal, Hs.
  - exact IH.
Qed.

Lemma parse_date_string_ordinal date_str d :
  _parse_date_string date_str = Some d -> ordinal_ok d.
Proof. apply try_formats_ordinal. Qed.

Lemma weekday_range d : 0 <= DT.weekday d <= 6.
Proof. unfold DT.weekday. Z.div_mod_to_equations. lia. Qed.

Lemma days_ahead_of_range s day_num cur :
  0 <= day_num <= 6 -> 0 <= cur <= 6 ->
  0 <= days_ahead_of s day_num cur <= 13.
Proof.
  intros Hd Hc. unfold days_ahead_of.
  destruct (Str.contains "next" s).
  - destruct (0 <? day_num - cur); lia.
  - destruct (Str.contains "this" s || (day_num - cur <? 0)) eqn:Ht.
    + destruct (day_num - cur <=? 0) eqn:Hle;
        [apply Z.leb_le in Hle | apply Z.leb_gt in Hle]; lia.
    + apply orb_false_elim in Ht. destruct Ht as [_ Ht].
      apply Z.ltb_ge in Ht. lia.
Qed.

Lemma add_days_ok d k :
  1 <= ordinal d + k <= DT.MAXORDINAL ->
  DT.add_days d k
  = Ok (mk_datetime (ordinal d + k) (hour d) (minute d) (second d)
          (microsecond d)).
Proof.
  intros H. unfold DT.add_days.
  replace (0 <? ordinal d + k) with true by (symmetry; apply Z.ltb_lt; lia).
  replace (ordinal d + k <=? DT.MAXORDINAL) with true
    by (symmetry; apply Z.leb_le; lia).
  reflexivity.
Qed.

Lemma weekdays_range day_name day_num :
  In (day_name, day_num) weekdays -> 0 <= day_num <= 6.
Proof.
  unfold weekdays. simpl. intros H.
  repeat (destruct H as [H | H]; [injection H as _ <-; lia |]).
  contradiction.
Qed.

Lemma weekday_loop_ok items today s r :
  (forall a b, In (a, b) items -> 0 <= b <= 6) ->
  1 <= ordinal today -> ordinal today + 13 <= DT.MAXORDINAL ->
  weekday_loop items today s = Some r ->
  exists d, r = Ok d /\ ordinal_ok d.
Proof.
  intros Hit H1 H13. induction items as [| [a b] rest IH]; simpl;
    [discriminate |].
  destruct (Str.contains a s).
  - intros H. injection H as <-.
    pose proof (days_ahead_of_range s b (DT.weekday today)
                  (Hit a b (or_introl eq_refl)) (weekday_range today)) as Hr.
    rewrite add_days_ok by lia. eexists. split; [reflexivity |].
    unfold ordinal_ok. simpl. lia.
  - apply IH. intros a' b' Hin. apply (Hit a' b'). right. exact Hin.
Qed.

Lemma parse_relative_date_ok now date_str :
  clock_ok now ->
  exists ob, _parse_relative_date now date_str = Ok ob
             /\ forall b, ob = Some b -> ordinal_ok b.
Proof.
  intros [H1 H13]. unfold _parse_relative_date.
  destruct (Str.contains "today" (Str.lower date_str)).
  - eexists. split; [reflexivity |]. intros b Hb. injection Hb as <-.
    unfold ordinal_ok. simpl. lia.
  - destruct (Str.contains "tomorrow" (Str.lower date_str)).
    + rewrite add_days_ok by (simpl; lia). simpl.
      eexists. split; [reflexivity |]. intros b Hb. injection Hb as <-.
      unfold ordinal_ok. simpl. lia.
    + destruct (weekday_loop weekdays (DT.replace_midnight now)
                  (Str.lower date_str)) as [r |] eqn:Hw.
      * apply weekday_loop_ok in Hw;
          [| exact weekdays_range | simpl; lia | simpl; lia].
        destruct Hw as (d & -> & Hd). simpl.
        eexists. split; [reflexivity |]. intros b Hb. injection Hb as <-.
        exact Hd.
      * eexists. split; [reflexivity |]. intros b Hb.
        eapply parse_date_string_ordinal, Hb.
Qed.

Lemma saturday_has_next_day b :
  ordinal_ok b -> DT.weekday b = 5 -> ordinal b + 1 <= DT.MAXORDINAL.
Proof.
  unfold ordinal_ok, DT.weekday, DT.MAXORDINAL. intros H Hw.
  Z.div_mod_to_equations. lia.
Qed.

Lemma infer_date_range_ok b lt :
  ordinal_ok b -> exists w, _infer_date_range b lt = Ok w.
Proof.
  intros Hb. unfold _infer_date_range. destruct lt.
  - destruct (DT.weekday b =? 5) eqn:Hw.
    + apply Z.eqb_eq in Hw. pose proof (saturday_has_next_day b Hb Hw).
      unfold ordinal_ok in Hb. rewrite add_days_ok by lia. simpl. eauto.
    + eauto.
  - destruct (DT.weekday b =? 4); eauto.
  - eauto.
  - eauto.
Qed.

Lemma single_date_loop_ok now patterns text lt :
  clock_ok now ->
  Forall (fun p => Re.always_sets 1 p = true) patterns ->
  exists w, single_date_loop now patterns text lt = Ok w.
Proof.
  intros Hc Hp. induction Hp as [| p rest Hp1 Hrest IH]; simpl; [eauto |].
  destruct (Re.search true p text) as [m |] eqn:Hs; [| exact IH].
  destruct (ReFacts.search_has _ _ _ _ _ Hp1 Hs) as [v ->].
  destruct (parse_relative_date_ok now v Hc) as (ob & -> & Hob). simpl.
  destruct ob as [b |]; [| exact IH].
  destruct (infer_date_range_ok b lt (Hob b eq_refl)) as [w ->]. simpl. eauto.
Qed.

Lemma DATE_PATTERNS_set_group1 :
  Forall (fun p => Re.always_sets 1 p = true) DATE_PATTERNS.
Proof. repeat constructor. Qed.

Lemma extract_dates_ok now text lt :
  clock_ok now -> exists w, _extract_dates now text lt = Ok w.
Proof.
  intros Hc. unfold _extract_dates.
  destruct (Re.search false date_range_pattern text) as [m |] eqn:Hs.
  - destruct (ReFacts.search_has false 1 date_range_pattern text m eq_refl Hs)
      as [v1 ->].
    destruct (ReFacts.search_has false 2 date_range_pattern text m eq_refl Hs)
      as [v2 ->].
    eauto.
  - apply single_date_loop_ok; [exact Hc | exact DATE_PATTERNS_set_group1].
Qed.

Lemma parse_request_ok now message_text :
  clock_ok now -> exists pd, parse_request now message_text = Ok pd.
Proof.
  intros Hc. unfold parse_request.
  destruct (extract_dates_ok now (Str.lower message_text)
              (_determine_leave_type (Str.lower message_text)) Hc) as [w ->].
  simpl. eauto.
Qed.

(* ===================================================================== *)
(** * Every run of the engine ends in a decision                          *)
(* ===================================================================== *)

Ltac terminal_now :=
  eexists; eexists; split; [reflexivity |];
  split; [simpl; tauto | simpl; discriminate].

Section Engine.

Context {S : Type}.
Variable tools : Tools S.

Lemma reject_terminal lr reason (w : World S) :
  terminal (_reject_leave lr reason w).
Proof. unfold _reject_leave, ret. terminal_now. Qed.

Lemma route_terminal lr trigger sd ed (w : World S) :
  start_date lr = Some sd -> end_date lr = Some ed ->
  terminal (_route_to_special_leave lr trigger w).
Proof.
  intros Hs He. unfold _route_to_special_leave, bind, lift, print, ret.
  rewrite Hs, He. simpl. terminal_now.
Qed.

Lemma approve_terminal lr deduct sd ed w :
  start_date lr = Some sd -> end_date lr = Some ed ->
  deduct = false \/ leave_type lr = OVERNIGHT \/ leave_type lr = FRIDAY_SUPPER ->
  terminal (_approve_leave tools lr deduct w).
Proof.
  intros Hs He Hd. unfold _approve_leave, bind, call.
  destruct (tool_leave_update tools _ _ _ _ _ _ _ _ _ _ _ w) as [success w1].
  destruct success; simpl; [| unfold ret; terminal_now].
  unfold _format_approval_message, lift, ret, raise. rewrite Hs, He.
  destruct deduct.
  - destruct Hd as [Hd | [Hd | Hd]]; [discriminate | |]; rewrite Hd; simpl;
      terminal_now.
  - simpl. terminal_now.
Qed.

Lemma eligibility_terminal lr w :
  terminal (_process_leave_eligibility tools lr w).
Proof.
  unfold _process_leave_eligibility.
  destruct (start_date lr) as [sd |] eqn:Hs;
    [| unfold ret; terminal_now].
  destruct (end_date lr) as [ed |] eqn:He;
    [| unfold ret; terminal_now].
  unfold bind at 1. unfold call at 1.
  destruct (tool_date_validity_check tools _ sd ed w) as [dv w1].
  destruct (isValid dv); simpl.
  2:{ destruct (Str.contains _ _).
      - eapply route_terminal; eassumption.
      - apply reject_terminal. }
  destruct (leave_type lr) eqn:Ht; simpl.
  - destruct (negb (DT.weekday sd =? 5));
      [eapply route_terminal; eassumption |].
    unfold bind, call, ret.
    destruct (tool_restriction_check tools _ sd ed w1) as [is_restricted w2].
    destruct is_restricted; [apply reject_terminal |].
    destruct (tool_leave_balance_check tools _ _ w2) as [balance w3].
    destruct (balance <? 1); [apply reject_terminal |]. simpl.
    eapply approve_terminal; [eassumption | eassumption | tauto].
  - unfold bind, call, ret.
    destruct (tool_restriction_check tools _ sd ed w1) as [is_restricted w2].
    destruct is_restricted; [apply reject_terminal |].
    destruct (tool_leave_balance_check tools _ _ w2) as [balance w3].
    destruct (balance <? 1); [apply reject_terminal |]. simpl.
    eapply approve_terminal; [eassumption | eassumption | tauto].
  - eapply approve_terminal; [eassumption | eassumption | tauto].
  - unfold bind, ret. simpl. eapply route_terminal; eassumption.
Qed.

Lemma authenticate_ok identifier channel w :
  exists r w', _authenticate_parent tools identifier channel w = (Ok r, w')
               /\ match r with
                  | NotAuthenticated message => message <> ""
                  | Authenticated _ => True
                  end.
Proof.
  unfold _authenticate_parent, bind.
  match goal with
  | |- context [match ?c w with _ => _ end] =>
      assert (Hc : exists o w1, c w = (Ok o, w1))
  end.
  { destruct (String.eqb channel "whatsapp").
    - unfold call. destruct (tool_parent_phone_check tools identifier w). eauto.
    - destruct (String.eqb channel "email").
      + unfold call. destruct (tool_parent_email_check tools identifier w).
        eauto.
      + unfold ret. eauto. }
  destruct Hc as (o & w1 & ->).
  destruct o as [id |]; [destruct (String.eqb id "") |]; unfold ret;
    eexists; eexists; (split; [reflexivity |]); try exact I; discriminate.
Qed.

Lemma process_parent_request_terminal now message_text sender channel w :
  clock_ok now ->
  terminal (process_parent_request tools now message_text sender channel w).
Proof.
  intros Hc. unfold process_parent_request. unfold bind at 1.
  destruct (authenticate_ok sender channel w) as (r & w1 & -> & Hr).
  destruct r as [message | parent_info].
  { unfold ret. eexists; eexists. split; [reflexivity |].
    split; [simpl; tauto | exact Hr]. }
  unfold bind at 1, lift.
  destruct (parse_request_ok now message_text Hc) as [pd ->].
  destruct (truthy (pd_student_identifier pd)); simpl;
    [| unfold ret; terminal_now].
  unfold bind, call.
  destruct (tool_student_parent_linkage tools _ _ w1) as [[record |] w2].
  - apply eligibility_terminal.
  - unfold ret. terminal_now.
Qed.

End Engine.

(* ===================================================================== *)
(** * The order of datetimes and the windows of the templates             *)
(* ===================================================================== *)



Lemma lex_ge_trans xs :
  forall ys zs,
    length xs = length ys -> length ys = length zs ->
    DT.lex_lt ys xs = false -> DT.lex_lt zs ys = false ->
    DT.lex_lt zs xs = false.
Proof.
  induction xs as [| x xs IH]; intros [| y ys] [| z zs] Hl1 Hl2 H1 H2;
    simpl in *; try discriminate; try reflexivity.
  injection Hl1 as Hl1. injection Hl2 as Hl2.
  apply orb_false_elim in H1. destruct H1 as [Hyx H1].
  apply orb_false_elim in H2. destruct H2 as [Hzy H2].
  apply Z.ltb_ge in Hyx, Hzy.
  apply orb_false_intro; [apply Z.ltb_ge; lia |].
  destruct (z =? x) eqn:Hzx; [| reflexivity]. apply Z.eqb_eq in Hzx.
  assert (y = x) by lia. subst.
  rewrite Z.eqb_refl in H1, H2. simpl in *. eapply IH; eauto.
Qed.

Lemma ge_trans a b c :
  DT.lt b a = false -> DT.lt c b = false -> DT.lt c a = false.
Proof. apply lex_ge_trans; reflexivity. Qed.

(** The windows of the templates. *)
Lemma lt_same_day_hours o h1 m1 h2 m2 s us s' us' :
  h1 < h2 ->
  DT.lt (mk_datetime o h1 m1 s us) (mk_datetime o h2 m2 s' us') = true.
Proof.
  intros H. unfold DT.lt, DT.fields. simpl.
  rewrite Z.ltb_irrefl, Z.eqb_refl. simpl.
  replace (h1 <? h2) with true by (symmetry; apply Z.ltb_lt; lia).
  reflexivity.
Qed.

Lemma lt_hours_iff oa ob h1 m1 h2 m2 s us s' us' :
  h1 < h2 ->
  DT.lt (mk_datetime oa h1 m1 s us) (mk_datetime ob h2 m2 s' us') = true
  <-> oa <= ob.
Proof.
  intros H. unfold DT.lt, DT.fields. simpl.
  replace (h1 <? h2) with true by (symmetry; apply Z.ltb_lt; lia).
  rewrite orb_true_l, andb_true_r.
  destruct (oa <? ob) eqn:H1; [apply Z.ltb_lt in H1 | apply Z.ltb_ge in H1];
    destruct (oa =? ob) eqn:H2; [apply Z.eqb_eq in H2 | apply Z.eqb_neq in H2
                                | apply Z.eqb_eq in H2 | apply Z.eqb_neq in H2];
    simpl; split; intros; try lia; try reflexivity; discriminate.
Qed.

Lemma infer_date_range_lt b lt w :
  _infer_date_range b lt = Ok w -> DT.lt (fst w) (snd w) = true.
Proof.
  unfold _infer_date_range, full_day, DT.replace_hm.
  destruct lt.
  - destruct (DT.weekday b =? 5).
    + unfold DT.add_days.
      destruct ((0 <? ordinal b + 1) && (ordinal b + 1 <=? DT.MAXORDINAL));
        simpl; [| discriminate].
      intros H. injection H as <-. simpl.
      apply lt_hours_iff; lia.
    + intros H. injection H as <-. simpl. apply lt_same_day_hours. lia.
  - destruct (DT.weekday b =? 4); intros H; injection H as <-; simpl;
      apply lt_same_day_hours; lia.
  - intros H; injection H as <-; simpl; apply lt_same_day_hours; lia.
  - intros H; injection H as <-; simpl; apply lt_same_day_hours; lia.
Qed.

Lemma single_date_loop_lt now patterns text lt sd ed :
  single_date_loop now patterns text lt = Ok (Some sd, Some ed) ->
  DT.lt sd ed = true.
Proof.
  induction patterns as [| p rest IH]; simpl; [discriminate |].
  destruct (Re.search true p text) as [m |]; [| exact IH].
  destruct (Re.group 1 m) as [date_str |]; [| discriminate].
  destruct (_parse_relative_date now date_str) as [[b |] | e]; simpl;
    [| exact IH | discriminate].
  destruct (_infer_date_range b lt) as [w | e] eqn:Hw; simpl; [| discriminate].
  intros H. injection H as <- <-. eapply infer_date_range_lt, Hw.
Qed.

(* ===================================================================== *)
(** * C4: the window of an overnight leave                                *)
(* ===================================================================== *)

(** C4, amended.  For a base date that is a Saturday, the window of an
    Overnight leave starts on the base date at 14:00 and ends on the next
    day at 18:50.  For a base date on any other weekday the window is the
    default one, the base date from 09:00 to 17:00.  For the two ends of an
    explicit range the template sets 14:00 on the first and 18:50 on the
    second, each on its own date.  In all three cases hour and minute come
    from the template and not from the input. *)
Theorem C4_overnight_window (base : datetime) :
  ordinal_ok base ->
  (DT.weekday base = 5 ->
   _infer_date_range base OVERNIGHT
   = Ok (mk_datetime (ordinal base) 14 0 (second base) (microsecond base),
         mk_datetime (ordinal base + 1) 18 50 (second base)
           (microsecond base)))
  /\ (DT.weekday base <> 5 ->
      _infer_date_range base OVERNIGHT
      = Ok (mk_datetime (ordinal base) 9 0 (second base) (microsecond base),
            mk_datetime (ordinal base) 17 0 (second base) (microsecond base)))
  /\ (forall end_date : datetime,
        _apply_leave_times (Some base) (Some end_date) OVERNIGHT
        = (Some (mk_datetime (ordinal base) 14 0 (second base)
                   (microsecond base)),
           Some (mk_datetime (ordinal end_date) 18 50 (second end_date)
                   (microsecond end_date)))).
Proof.
  intros Hb. repeat split.
  - intros Hw. unfold _infer_date_range.
    rewrite (proj2 (Z.eqb_eq _ _) Hw).
    pose proof (saturday_has_next_day base Hb Hw). unfold ordinal_ok in Hb.
    rewrite add_days_ok by lia. reflexivity.
  - intros Hw. unfold _infer_date_range.
    rewrite (proj2 (Z.eqb_neq _ _) Hw). reflexivity.
Qed.

(** A concrete instance of C4. *)
Lemma C4_overnight_window_witness :
  _infer_date_range (DT.make 2025 2 8 0 0) OVERNIGHT
  = Ok (DT.make 2025 2 8 14 0, DT.make 2025 2 9 18 50).
Proof.
  apply (proj1 (C4_overnight_window (DT.make 2025 2 8 0 0)
                  ltac:(unfold ordinal_ok; vm_compute; split; discriminate))).
  reflexivity.
Defined.

(** C4 as stated fails for a base date that is not a Saturday: Tuesday
    11 February 2025 gives 09:00 to 17:00 on that day, not 14:00 to 18:50
    on the next. *)
Lemma C4_counterexample :
  DT.weekday (DT.make 2025 2 11 0 0) = 1
  /\ _infer_date_range (DT.make 2025 2 11 0 0) OVERNIGHT
     = Ok (DT.make 2025 2 11 9 0, DT.make 2025 2 11 17 0)
  /\ _infer_date_range (DT.make 2025 2 11 0 0) OVERNIGHT
     <> Ok (DT.make 2025 2 11 14 0, DT.make 2025 2 12 18 50).
Proof. repeat split; vm_compute; congruence. Qed.

(* ===================================================================== *)
(** * C5: weekday names                                                   *)
(* ===================================================================== *)

Lemma weekday_loop_find items today s :
  weekday_loop items today s
  = option_map
      (fun p => DT.add_days today (days_ahead_of s (snd p) (DT.weekday today)))
      (find (fun p => Str.contains (fst p) s) items).
Proof.
  induction items as [| [a b] rest IH]; simpl; [reflexivity |].
  destruct (Str.contains a s); [reflexivity | exact IH].
Qed.

Lemma weekday_midnight now :
  DT.weekday (DT.replace_midnight now) = DT.weekday now.
Proof. reflexivity. Qed.

(** C5, amended.  A date expression without "today" and "tomorrow" whose
    first weekday name (in the order Monday to Sunday) is [day_name],
    number [day_num], resolves to the clock's day plus [k] days, a day that
    falls on [day_num], where, [cur] being the weekday of the clock:
      - without qualifier, [k = (day_num - cur) mod 7]: the next occurrence
        on or after the clock's day, the day itself when it is the named
        weekday;
      - with "this" (and no "next"), [k = (day_num - cur - 1) mod 7 + 1]:
        the next occurrence after the clock's day, 7 days later when the
        clock's day is the named weekday;
      - with "next", [k = day_num - cur + 7]: the named weekday of the
        following Monday-to-Sunday week, which is 7 days after the
        occurrence on or after the clock's day exactly when the named
        weekday is not earlier in the week than the clock's day. *)
Theorem C5_weekday_resolution (now : datetime) (date_str day_name : string)
  (day_num : Z) :
  clock_ok now ->
  Str.contains "today" (Str.lower date_str) = false ->
  Str.contains "tomorrow" (Str.lower date_str) = false ->
  first_weekday_in (Str.lower date_str) = Some (day_name, day_num) ->
  let cur := DT.weekday now in
  let has_next := Str.contains "next" (Str.lower date_str) in
  let has_this := Str.contains "this" (Str.lower date_str) in
  let k := if has_next then day_num - cur + 7
           else if has_this then (day_num - cur - 1) mod 7 + 1
           else (day_num - cur) mod 7 in
  _parse_relative_date now date_str
  = Ok (Some (mk_datetime (ordinal now + k) 0 0 0 0))
  /\ DT.weekday (mk_datetime (ordinal now + k) 0 0 0 0) = day_num
  /\ (has_next = false -> has_this = false -> 0 <= k <= 6)
  /\ (has_next = false -> has_this = true -> 1 <= k <= 7)
  /\ (has_next = true ->
      1 <= k <= 13 /\ (k = (day_num - cur) mod 7 + 7 <-> cur <= day_num)).
Proof.
  intros [H1 H13] Htoday Htomorrow Hfind cur has_next has_this k.
  assert (Hnum : 0 <= day_num <= 6).
  { apply (weekdays_range day_name). unfold first_weekday_in in Hfind.
    apply find_some in Hfind. exact (proj1 Hfind). }
  pose proof (weekday_range now) as Hcur. fold cur in Hcur.
  assert (Hk : days_ahead_of (Str.lower date_str) day_num cur = k).
  { unfold days_ahead_of, k, has_next, has_this.
    destruct (Str.contains "next" (Str.lower date_str)).
    - destruct (0 <? day_num - cur); reflexivity.
    - destruct (Str.contains "this" (Str.lower date_str)); simpl.
      + destruct (day_num - cur <=? 0) eqn:Hle;
          [apply Z.leb_le in Hle | apply Z.leb_gt in Hle];
          Z.div_mod_to_equations; lia.
      + destruct (day_num - cur <? 0) eqn:Hlt;
          [apply Z.ltb_lt in Hlt | apply Z.ltb_ge in Hlt];
          [destruct (day_num - cur <=? 0) eqn:Hle;
             [apply Z.leb_le in Hle | apply Z.leb_gt in Hle] |];
          Z.div_mod_to_equations; lia. }
  assert (Hrange : 0 <= k <= 13).
  { rewrite <- Hk. apply days_ahead_of_range; assumption. }
  split; [| split; [| split; [| split]]].
  - unfold _parse_relative_date. rewrite Htoday, Htomorrow.
    rewrite weekday_loop_find. fold (first_weekday_in (Str.lower date_str)).
    rewrite Hfind. simpl. rewrite weekday_midnight. fold cur. rewrite Hk.
    rewrite add_days_ok by (simpl; lia). reflexivity.
  - unfold DT.weekday. simpl. unfold cur, DT.weekday in *. subst k.
    destruct has_next; [| destruct has_this];
      Z.div_mod_to_equations; lia.
  - subst k. intros -> ->. Z.div_mod_to_equations; lia.
  - subst k. intros -> ->. Z.div_mod_to_equations; lia.
  - subst k. intros ->. Z.div_mod_to_equations; lia.
Qed.

Lemma clock_ok_thursday : clock_ok (DT.make 2025 2 6 10 30).
Proof. unfold clock_ok. vm_compute. repeat split; discriminate. Qed.

(** A concrete instance of C5. *)
Lemma C5_weekday_resolution_witness :
  _parse_relative_date (DT.make 2025 2 6 10 30) "next friday"
  = Ok (Some (DT.make 2025 2 14 0 0)).
Proof.
  apply (proj1 (C5_weekday_resolution (DT.make 2025 2 6 10 30) "next friday"
                  "friday" 4 clock_ok_thursday eq_refl eq_refl eq_refl)).
Defined.

(** C5 as stated fails twice: on Saturday 8 February 2025 "this saturday"
    is 15 February, 7 days later and not the day itself; on Sunday
    9 February 2025 "next saturday" is 15 February, the first Saturday to
    come and not 7 days after it. *)
Lemma C5_counterexample :
  DT.weekday (DT.make 2025 2 8 10 0) = 5
  /\ _parse_relative_date (DT.make 2025 2 8 10 0) "this saturday"
     = Ok (Some (DT.make 2025 2 15 0 0))
  /\ DT.weekday (DT.make 2025 2 9 10 0) = 6
  /\ _parse_relative_date (DT.make 2025 2 9 10 0) "next saturday"
     = Ok (Some (DT.make 2025 2 15 0 0)).
Proof. repeat split; vm_compute; reflexivity. Qed.

(* ===================================================================== *)
(** * C6: the order of the two ends of a window                           *)
(* ===================================================================== *)

Lemma strptime_midnight data fmt d :
  Strptime.strptime data fmt = Ok d -> d = mk_datetime (ordinal d) 0 0 0 0.
Proof.
  unfold Strptime.strptime. intros H.
  destruct (Re.match_ true (Strptime.format_regex fmt) data)
    as [[caps rest] |]; [| discriminate].
  destruct rest; [| discriminate].
  destruct (Strptime.year_of caps) as [y |]; [| discriminate].
  destruct (Strptime.month_of caps) as [m |]; [| discriminate].
  destruct (Strptime.int_group Strptime.g_d caps) as [dd |]; [| discriminate].
  destruct (DT.check_date_fields y m dd); [| discriminate].
  injection H as <-. reflexivity.
Qed.

Lemma parse_date_string_midnight date_str d :
  _parse_date_string date_str = Some d -> d = mk_datetime (ordinal d) 0 0 0 0.
Proof.
  unfold _parse_date_string. generalize formats.
  induction l as [| fmt rest IH]; simpl; [discriminate |].
  destruct (Strptime.strptime date_str fmt) as [d' | e] eqn:Hs.
  - intros H. injection H as <-. eapply strptime_midnight, Hs.
  - exact IH.
Qed.

Lemma lt_midnight_iff oa ob :
  DT.lt (mk_datetime oa 0 0 0 0) (mk_datetime ob 0 0 0 0) = true <-> oa < ob.
Proof.
  unfold DT.lt, DT.fields. simpl.
  rewrite andb_false_r, orb_false_r. apply Z.ltb_lt.
Qed.

(** C6, amended.  A window made from a single resolved date has
    start < end.  A window made from an explicit range of two dates keeps
    the two dates as written and has start < end exactly when the first
    date is not after the second (Overnight, Friday Supper, Day Leave:
    the template times are set on the two dates) or is before the second
    (Special: both ends stay at midnight). *)
Theorem C6_window_order (now : datetime) (text : string)
  (leave_type : LeaveType) (sd ed : datetime) :
  _extract_dates now text leave_type = Ok (Some sd, Some ed) ->
  match Re.search false date_range_pattern text with
  | None => DT.lt sd ed = true
  | Some range_match =>
      exists (start_str end_str : string) (a b : datetime),
        Re.group 1 range_match = Some start_str
        /\ Re.group 2 range_match = Some end_str
        /\ _parse_date_string start_str = Some a
        /\ _parse_date_string end_str = Some b
        /\ (DT.lt sd ed = true
            <-> match leave_type with
                | SPECIAL => ordinal a < ordinal b
                | _ => ordinal a <= ordinal b
                end)
  end.
Proof.
  unfold _extract_dates.
  destruct (Re.search false date_range_pattern text) as [m |].
  - destruct (Re.group 1 m) as [start_str |]; [| discriminate].
    destruct (Re.group 2 m) as [end_str |]; [| discriminate].
    destruct (_parse_date_string start_str) as [a |] eqn:Ha;
      destruct (_parse_date_string end_str) as [b |] eqn:Hb;
      simpl; try discriminate.
    intros H. exists start_str, end_str, a, b.
    split; [reflexivity |]. split; [reflexivity |].
    split; [exact Ha |]. split; [exact Hb |].
    destruct leave_type; injection H as <- <-; unfold DT.replace_hm.
    + apply lt_hours_iff; lia.
    + apply lt_hours_iff; lia.
    + apply lt_hours_iff; lia.
    + rewrite (parse_date_string_midnight _ _ Ha),
        (parse_date_string_midnight _ _ Hb). simpl. apply lt_midnight_iff.
  - apply single_date_loop_lt.
Qed.

(** A concrete instance of C6. *)
Lemma C6_window_order_witness :
  DT.lt (DT.make 2025 2 8 14 0) (DT.make 2025 2 9 18 50) = true.
Proof.
  exact (C6_window_order (DT.make 2025 2 6 10 30)
           "overnight leave for james this saturday" OVERNIGHT
           (DT.make 2025 2 8 14 0) (DT.make 2025 2 9 18 50) eq_refl).
Defined.

(** C6 as stated fails for a range written backwards: "16/02/2025 to
    15/02/2025" for a day leave gives a window from 16 February 09:00 to
    15 February 17:00. *)
Lemma C6_counterexample :
  exists pd sd ed,
    parse_request (DT.make 2025 2 6 10 30)
      "day leave for 12345 16/02/2025 to 15/02/2025" = Ok pd
    /\ pd_start_date pd = Some sd /\ pd_end_date pd = Some ed
    /\ sd = DT.make 2025 2 16 9 0 /\ ed = DT.make 2025 2 15 17 0
    /\ DT.lt sd ed = false.
Proof.
  eexists; eexists; eexists.
  split; [vm_compute; reflexivity |].
  repeat split.
Qed.

(* ===================================================================== *)
(** * C9: the clock                                                       *)
(* ===================================================================== *)

Lemma parse_relative_date_same_day now1 now2 date_str :
  ordinal now1 = ordinal now2 ->
  _parse_relative_date now1 date_str = _parse_relative_date now2 date_str.
Proof.
  intros Ho. unfold _parse_relative_date, DT.replace_midnight.
  rewrite Ho. reflexivity.
Qed.

(** With readings of the clock that all fall on the day of [now], one for
    each pattern at least, a run of the loop gives what the loop gives
    with [now] for every reading. *)
Lemma clocked_single_date_loop now patterns text lt :
  forall readings,
    Forall (fun reading => ordinal reading = ordinal now) readings ->
    (length patterns <= length readings)%nat ->
    run_clocked (ClockedParser.single_date_loop patterns text lt) readings
    = Some (single_date_loop now patterns text lt).
Proof.
  induction patterns as [| p rest IH]; intros readings Hr Hl;
    [reflexivity |].
  assert (Hskip : run_clocked (ClockedParser.single_date_loop rest text lt)
                    readings
                  = Some (single_date_loop now rest text lt)).
  { apply IH; [exact Hr | simpl in Hl; lia]. }
  cbn [ClockedParser.single_date_loop single_date_loop].
  destruct (Re.search true p text) as [m |]; [| exact Hskip].
  destruct (Re.group 1 m) as [date_str |]; [| reflexivity].
  destruct readings as [| reading readings]; [simpl in Hl; lia |].
  apply Forall_cons in Hr. destruct Hr as [Hd Hr].
  cbn [ClockedParser._parse_relative_date clocked_bind run_clocked].
  rewrite (parse_relative_date_same_day reading now date_str Hd).
  destruct (_parse_relative_date now date_str) as [[b |] | e];
    cbn [rbind run_clocked]; [reflexivity | | reflexivity].
  apply IH; [exact Hr | simpl in Hl; lia].
Qed.

Lemma run_clocked_bind_done {A B : Type} (c : Clocked A) (f : A -> B)
  (readings : list datetime) :
  run_clocked (clocked_bind c (fun a => Done (f a))) readings
  = option_map f (run_clocked c readings).
Proof.
  revert readings. induction c as [a | k IH]; intros readings;
    [reflexivity |].
  destruct readings as [| reading readings]; [reflexivity |].
  cbn [clocked_bind run_clocked]. apply IH.
Qed.

Lemma clocked_parse_request now message_text readings :
  Forall (fun reading => ordinal reading = ordinal now) readings ->
  (length DATE_PATTERNS <= length readings)%nat ->
  run_clocked (ClockedParser.parse_request message_text) readings
  = Some (parse_request now message_text).
Proof.
  intros Hr Hl. unfold ClockedParser.parse_request, parse_request. cbv zeta.
  rewrite run_clocked_bind_done.
  unfold ClockedParser._extract_dates, _extract_dates.
  destruct (Re.search false date_range_pattern (Str.lower message_text))
    as [m |].
  - destruct (Re.group 1 m), (Re.group 2 m); reflexivity.
  - rewrite (clocked_single_date_loop now) by assumption. reflexivity.
Qed.

(** C9, amended.  The resolver has no reference timestamp among its
    arguments: its one argument is the text, and it reads the clock.  For
    a fixed text the result is determined by the day that the clock
    shows: with two readings on the same day the resolver returns the
    same date, whatever the time of day, and two runs of the whole parser
    on a text, with all their readings of the clock on one day, return
    the same parsed request. *)
Theorem C9_resolution_depends_on_clock_day (text : string)
  (now1 now2 : datetime) (readings1 readings2 : list datetime) :
  ordinal now1 = ordinal now2 ->
  Forall (fun reading => ordinal reading = ordinal now1) readings1 ->
  Forall (fun reading => ordinal reading = ordinal now1) readings2 ->
  (length DATE_PATTERNS <= length readings1)%nat ->
  (length DATE_PATTERNS <= length readings2)%nat ->
  (exists k, ClockedParser._parse_relative_date text = Now k)
  /\ run_clocked (ClockedParser._parse_relative_date text) [now1]
     = run_clocked (ClockedParser._parse_relative_date text) [now2]
  /\ run_clocked (ClockedParser.parse_request text) readings1
     = run_clocked (ClockedParser.parse_request text) readings2
  /\ run_clocked (ClockedParser.parse_request text) readings1
     = Some (parse_request now1 text).
Proof.
  intros Ho H1 H2 Hl1 Hl2. split; [eexists; reflexivity |]. split.
  - cbn [ClockedParser._parse_relative_date run_clocked].
    rewrite (parse_relative_date_same_day now1 now2 text Ho). reflexivity.
  - rewrite (clocked_parse_request now1 text readings1 H1 Hl1),
      (clocked_parse_request now1 text readings2 H2 Hl2).
    split; reflexivity.
Qed.

(** A concrete instance of C9: six readings in the morning and six in the
    evening of 6 February 2025. *)
Lemma C9_resolution_depends_on_clock_day_witness :
  run_clocked (ClockedParser.parse_request "leave for James tomorrow")
    (repeat (DT.make 2025 2 6 8 15) 6)
  = run_clocked (ClockedParser.parse_request "leave for James tomorrow")
      (repeat (DT.make 2025 2 6 23 59) 6).
Proof.
  apply (C9_resolution_depends_on_clock_day "leave for James tomorrow"
           (DT.make 2025 2 6 8 15) (DT.make 2025 2 6 23 59)
           (repeat (DT.make 2025 2 6 8 15) 6)
           (repeat (DT.make 2025 2 6 23 59) 6) eq_refl).
  - repeat constructor.
  - repeat constructor.
  - vm_compute. lia.
  - vm_compute. lia.
Defined.

(** C9 as stated fails: the reference time is not among the inputs of
    the resolver, which reads the clock.  Two runs on the same input,
    the text "tomorrow", give 7 February 2025 when the clock shows
    6 February and 8 February when it shows 7 February; no value is the
    result of the resolver on that text. *)
Lemma C9_counterexample :
  run_clocked (ClockedParser._parse_relative_date "tomorrow")
    [DT.make 2025 2 6 10 0]
  = Some (Ok (Some (DT.make 2025 2 7 0 0)))
  /\ run_clocked (ClockedParser._parse_relative_date "tomorrow")
       [DT.make 2025 2 7 10 0]
     = Some (Ok (Some (DT.make 2025 2 8 0 0)))
  /\ ~ exists r, ClockedParser._parse_relative_date "tomorrow" = Done r.
Proof.
  split; [vm_compute; reflexivity |]. split; [vm_compute; reflexivity |].
  intros [r H]. discriminate H.
Qed.

(* ===================================================================== *)
(** * C10: the priority order of the categories                           *)
(* ===================================================================== *)

(** C10.  The category of a text is the category of the first rule that
    applies in the order: special-leave keywords, overnight keywords,
    Friday-supper keywords, day-leave keywords, a mention of Saturday,
    Sunday or weekend (Day Leave); Overnight when no rule applies.  In
    particular a text with an overnight keyword and a day-leave keyword
    (and no special-leave keyword, the first rule) is Overnight, and a
    text to which no rule applies is Overnight. *)
Theorem C10_category_priority (text : string) :
  _determine_leave_type text = first_match category_rules OVERNIGHT text
  /\ (Str.any_in SPECIAL_INDICATORS text = false ->
      Str.any_in OVERNIGHT_INDICATORS text = true ->
      Str.any_in DAY_LEAVE_INDICATORS text = true ->
      _determine_leave_type text = OVERNIGHT)
  /\ ((forall rule, In rule category_rules -> fst rule text = false) ->
      _determine_leave_type text = OVERNIGHT).
Proof.
  assert (Hw : Str.any_in ["saturday"; "sunday"; "weekend"] text
               = Str.contains "saturday" text || Str.contains "sunday" text
                 || Str.contains "weekend" text).
  { unfold Str.any_in. simpl. rewrite orb_false_r, orb_assoc. reflexivity. }
  split; [| split].
  - unfold _determine_leave_type, category_rules, first_match.
    rewrite <- Hw. reflexivity.
  - intros Hs Ho _. unfold _determine_leave_type. rewrite Hs, Ho. reflexivity.
  - intros Hnone.
    assert (H1 : Str.any_in SPECIAL_INDICATORS text = false)
      by (apply (Hnone (Str.any_in SPECIAL_INDICATORS, SPECIAL)); simpl; tauto).
    assert (H2 : Str.any_in OVERNIGHT_INDICATORS text = false)
      by (apply (Hnone (Str.any_in OVERNIGHT_INDICATORS, OVERNIGHT)); simpl;
          tauto).
    assert (H3 : Str.any_in SUPPER_INDICATORS text = false)
      by (apply (Hnone (Str.any_in SUPPER_INDICATORS, FRIDAY_SUPPER)); simpl;
          tauto).
    assert (H4 : Str.any_in DAY_LEAVE_INDICATORS text = false)
      by (apply (Hnone (Str.any_in DAY_LEAVE_INDICATORS, DAY_LEAVE));
          simpl; tauto).
    assert (H5 : Str.any_in ["saturday"; "sunday"; "weekend"] text = false)
      by (apply (Hnone (Str.any_in ["saturday"; "sunday"; "weekend"],
                        DAY_LEAVE)); simpl; tauto).
    unfold _determine_leave_type. rewrite <- Hw.
    rewrite H1, H2, H3, H4, H5. reflexivity.
Qed.

(** A concrete instance of C10. *)
Lemma C10_category_priority_witness :
  _determine_leave_type "day leave, maybe overnight" = OVERNIGHT.
Proof.
  apply (proj1 (proj2 (C10_category_priority "day leave, maybe overnight")));
    reflexivity.
Defined.

(* ===================================================================== *)
(** * C1: day leave                                                       *)
(* ===================================================================== *)

Lemma bind_call {S A B : Type} (t : World S -> A * World S) (k : A -> M S B)
  (w w' : World S) (a : A) :
  t w = (a, w') -> bind (call t) k w = k a w'.
Proof. intros H. unfold bind, call. rewrite H. reflexivity. Qed.

Lemma bind_ret {S A B : Type} (a : A) (k : A -> M S B) (w : World S) :
  bind (ret a) k w = k a w.
Proof. reflexivity. Qed.

(** C1, amended.  A Day Leave request with both dates present and a
    window that passes the date-validity check goes straight to the
    register update, whatever the balances of the student record and of
    the store are: the statement holds for every record (balances at zero
    included) and for every balance tool.  The tools called are the
    date-validity check and the register update (with leave type "Day
    Leave" and no balance to deduct) and no other: the final world is the
    one the register update returns, and putting any other restriction
    and balance tools in place of the given ones changes nothing.  When
    the register update reports success the request is approved, and the
    decision carries the request as it was and a message without a
    remaining balance; when it reports a failure the decision is an
    error. *)
Theorem C1_day_leave_approved {S : Type} (tools : Tools S)
  (lr : LeaveRequest) (sd ed : datetime) (w w1 w2 : World S)
  (reason : string) (success : bool) :
  leave_type lr = DAY_LEAVE ->
  start_date lr = Some sd -> end_date lr = Some ed ->
  tool_date_validity_check tools (block (student lr)) sd ed w
  = (mk_DateValidity true reason, w1) ->
  tool_leave_update tools (admin_number (student lr)) "Day Leave" (Some sd)
    (Some ed) (auth_id (parent lr)) (full_name (student lr))
    (house (student lr)) (block (student lr)) None None None w1
  = (success, w2) ->
  (success = true ->
   exists message,
     _format_approval_message lr None None = Ok message
     /\ _process_leave_eligibility tools lr w
        = (Ok (mk_Decision "approved" None message (Some lr) None), w2))
  /\ (success = false ->
      _process_leave_eligibility tools lr w
      = (Ok update_failed_decision, w2))
  /\ (forall tools' : Tools S,
         tool_date_validity_check tools' = tool_date_validity_check tools ->
         tool_leave_update tools' = tool_leave_update tools ->
         _process_leave_eligibility tools' lr w
         = _process_leave_eligibility tools lr w).
Proof.
  intros Ht Hs He Hv Hu.
  assert (Hrun : _process_leave_eligibility tools lr w
                 = _approve_leave tools lr false w1).
  { unfold _process_leave_eligibility. rewrite Hs, He.
    rewrite (bind_call _ _ _ _ _ Hv). simpl. rewrite Ht. reflexivity. }
  split; [| split].
  - intros ->. rewrite Hrun. unfold _approve_leave. rewrite Ht, Hs, He. simpl.
    rewrite (bind_call _ _ _ _ _ Hu). simpl.
    unfold _format_approval_message. rewrite Hs, He. simpl.
    eexists. split; reflexivity.
  - intros ->. rewrite Hrun. unfold _approve_leave. rewrite Ht, Hs, He. simpl.
    rewrite (bind_call _ _ _ _ _ Hu). reflexivity.
  - intros tools' H1 H2. unfold _process_leave_eligibility. rewrite Hs, He.
    rewrite H1. rewrite !(bind_call _ _ _ _ _ Hv). simpl.
    rewrite Ht. simpl. unfold _approve_leave. rewrite H2. reflexivity.
Qed.

Lemma placeholder_leave_update_succeeds
  (admin leave_type : string) (start_date end_date : option datetime)
  (requesting_parent student_name house block : string) (w : World unit) :
  exists lines,
    tool_leave_update LeaveSystemTools.tools admin leave_type start_date
      end_date requesting_parent student_name house block None None None w
    = (true, mk_World (stdout w ++ lines) (store w))
    /\ (leave_type = "Day Leave" ->
        last lines = Some "       Balance deducted: None (Day Leave)").
Proof.
  eexists. split; [reflexivity |]. intros ->. reflexivity.
Qed.

(** A concrete instance of C1. *)
Lemma C1_day_leave_approved_witness :
  exists message,
    fst (_process_leave_eligibility LeaveSystemTools.tools day_leave_request
           world0)
    = Ok (mk_Decision "approved" None message (Some day_leave_request) None).
Proof.
  destruct (C1_day_leave_approved LeaveSystemTools.tools day_leave_request
              (DT.make 2025 2 9 9 0) (DT.make 2025 2 9 17 0) world0 world0 _ ""
              true eq_refl eq_refl eq_refl eq_refl eq_refl)
    as [H _].
  destruct (H eq_refl) as [message [_ Hrun]].
  exists message. rewrite Hrun. reflexivity.
Defined.

(** C1 as stated fails when the register update reports a failure: the
    Day Leave request of a linked student for Sunday 9 February 2025, in
    the term and on no closed weekend, ends in an error, not in an
    approval. *)
Lemma C1_counterexample :
  exists pd d w,
    parse_request thursday "day leave for James this Sunday" = Ok pd
    /\ pd_leave_type pd = DAY_LEAVE
    /\ pd_start_date pd = Some (DT.make 2025 2 9 9 0)
    /\ pd_end_date pd = Some (DT.make 2025 2 9 17 0)
    /\ tool_date_validity_check tools_with_failing_update "C"
         (DT.make 2025 2 9 9 0) (DT.make 2025 2 9 17 0) world0
       = (mk_DateValidity true "", world0)
    /\ process_parent_request tools_with_failing_update thursday
         "day leave for James this Sunday" "27603174174" "whatsapp" world0
       = (Ok d, w)
    /\ d = update_failed_decision
    /\ d_status d <> "approved".
Proof.
  eexists; eexists; eexists.
  split; [vm_compute; reflexivity |].
  split; [reflexivity |]. split; [reflexivity |]. split; [reflexivity |].
  split; [reflexivity |]. split; [vm_compute; reflexivity |].
  split; [reflexivity | discriminate].
Qed.

(* ===================================================================== *)
(** * C2: overnight leave on a night other than Saturday                  *)
(* ===================================================================== *)

(** C2, amended.  For an Overnight request with both dates present that
    passes the date-validity check: when the start date is not a Saturday
    the decision is special_pending, with the trigger "Overnight leave
    requested for a night other than Saturday to Sunday"; hence a decision
    of approved or rejected (for a restriction or for the balance) implies
    that the start date is a Saturday.  A request that does not pass the
    date-validity check is decided before the weekday rule, whatever the
    day of its start: it is special_pending with the reason of the check
    as trigger when this reason names a closed weekend, and rejected with
    the reason of the check otherwise. *)
Theorem C2_overnight_weekday_rule {S : Type} (tools : Tools S)
  (lr : LeaveRequest) (sd ed : datetime) (w w1 : World S) (valid : bool)
  (reason : string) :
  leave_type lr = OVERNIGHT ->
  start_date lr = Some sd -> end_date lr = Some ed ->
  tool_date_validity_check tools (block (student lr)) sd ed w
  = (mk_DateValidity valid reason, w1) ->
  (valid = true ->
   (DT.weekday sd <> 5 ->
    _process_leave_eligibility tools lr w
    = _route_to_special_leave lr non_saturday_trigger w1
    /\ exists d w',
        _process_leave_eligibility tools lr w = (Ok d, w')
        /\ d_status d = "special_pending"
        /\ d_trigger_reason d = Some non_saturday_trigger)
   /\ (forall d w',
          _process_leave_eligibility tools lr w = (Ok d, w') ->
          d_status d = "approved" \/ d_status d = "rejected" ->
          DT.weekday sd = 5))
  /\ (valid = false ->
      (Str.contains "closed weekend" (Str.lower reason) = true ->
       _process_leave_eligibility tools lr w
       = _route_to_special_leave lr reason w1
       /\ exists d w',
           _process_leave_eligibility tools lr w = (Ok d, w')
           /\ d_status d = "special_pending"
           /\ d_trigger_reason d = Some reason)
      /\ (Str.contains "closed weekend" (Str.lower reason) = false ->
          exists message,
            _process_leave_eligibility tools lr w
            = (Ok (mk_Decision "rejected" (Some reason) message (Some lr)
                     None), w1))).
Proof.
  intros Ht Hs He Hv. split.
  - intros ->.
    assert (Hroute : DT.weekday sd <> 5 ->
                     _process_leave_eligibility tools lr w
                     = _route_to_special_leave lr non_saturday_trigger w1).
    { intros Hw. unfold _process_leave_eligibility. rewrite Hs, He.
      rewrite (bind_call _ _ _ _ _ Hv). simpl. rewrite Ht. simpl.
      rewrite (proj2 (Z.eqb_neq _ _) Hw). reflexivity. }
    assert (Hdec : DT.weekday sd <> 5 ->
                   exists d w',
                     _process_leave_eligibility tools lr w = (Ok d, w')
                     /\ d_status d = "special_pending"
                     /\ d_trigger_reason d = Some non_saturday_trigger).
    { intros Hw. rewrite (Hroute Hw).
      unfold _route_to_special_leave, bind, lift, print, ret.
      rewrite Hs, He. simpl. eexists; eexists. repeat split. }
    split.
    + intros Hw. split; [apply Hroute, Hw | apply Hdec, Hw].
    + intros d w' Hr Hst.
      destruct (Z.eq_dec (DT.weekday sd) 5) as [Heq | Hne]; [exact Heq |].
      destruct (Hdec Hne) as (d0 & w0 & Hr0 & Hst0 & _).
      rewrite Hr in Hr0. injection Hr0 as <- <-.
      rewrite Hst0 in Hst. destruct Hst; discriminate.
  - intros ->.
    assert (Hrun : _process_leave_eligibility tools lr w
                   = if Str.contains "closed weekend" (Str.lower reason)
                     then _route_to_special_leave lr reason w1
                     else _reject_leave lr reason w1).
    { unfold _process_leave_eligibility. rewrite Hs, He.
      rewrite (bind_call _ _ _ _ _ Hv). simpl.
      destruct (Str.contains "closed weekend" (Str.lower reason));
        reflexivity. }
    rewrite Hrun. split.
    + intros ->. split; [reflexivity |].
      unfold _route_to_special_leave, bind, lift, print, ret.
      rewrite Hs, He. simpl. eexists; eexists. repeat split.
    + intros ->. unfold _reject_leave, ret. eexists. reflexivity.
Qed.

(** A concrete instance of C2. *)
Lemma C2_overnight_weekday_rule_witness :
  exists d w',
    _process_leave_eligibility LeaveSystemTools.tools
      tuesday_overnight_request world0 = (Ok d, w')
    /\ d_status d = "special_pending"
    /\ d_trigger_reason d = Some non_saturday_trigger.
Proof.
  apply (proj1 (proj1 (C2_overnight_weekday_rule LeaveSystemTools.tools
                         tuesday_overnight_request (DT.make 2025 2 11 9 0)
                         (DT.make 2025 2 11 17 0) world0 world0 true ""
                         eq_refl eq_refl eq_refl eq_refl) eq_refl)).
  vm_compute. discriminate.
Defined.

(** C2 as stated fails when the date-validity check is not passed, which
    comes before the weekday rule: the Overnight request for Tuesday
    1 April 2025, outside the term, is rejected, not special_pending. *)
Lemma C2_counterexample :
  exists d lr sd,
    fst (run_parent_request (DT.make 2025 2 6 10 30)
           "overnight leave for James 01/04/2025" "27603174174" "whatsapp")
    = Ok d
    /\ d_leave_request d = Some lr
    /\ leave_type lr = OVERNIGHT
    /\ start_date lr = Some sd
    /\ sd = DT.make 2025 4 1 9 0
    /\ DT.weekday sd = 1
    /\ d_status d = "rejected"
    /\ d_reason d = Some "Dates fall outside of term dates".
Proof.
  eexists; eexists; eexists.
  split; [vm_compute; reflexivity |]. repeat split.
Qed.

(* ===================================================================== *)
(** * C3: the balance check and the register update                       *)
(* ===================================================================== *)





(* ===================================================================== *)
(** * C7: restrictions                                                    *)
(* ===================================================================== *)







(* ===================================================================== *)
(** * C8: the decision returned to the caller                             *)
(* ===================================================================== *)

(** The engine over tools that always return is the engine over tools that
    may raise, at tools that do not. *)
Lemma returning_tools_agree {S : Type} (tools : Tools S) (now : datetime)
  (message_text sender_identifier channel : string) :
  Raising.process_parent_request (returning tools) now message_text
    sender_identifier channel
  = process_parent_request tools now message_text sender_identifier channel.
Proof. reflexivity. Qed.


Section RaisingEngine.

Context {S : Type}.
Variable tools : Raising.Tools S.














End RaisingEngine.




(* ===================================================================== *)
(** * Further properties of the code                                      *)
(* ===================================================================== *)

(** The properties that follow are read off the code: X1 to X12, X22
    and X23 are about the parent path, the parser and the placeholder
    tools, X13 to X21 about the housemaster path and the tool of the
    guard. *)

(* ===================================================================== *)
(** * What an approval implies                                            *)
(* ===================================================================== *)

(** X1.  An approval has passed every check, in the order of the source:
    a decision with status "approved" comes from a request with both
    dates whose window the date tool found valid; for overnight and Friday
    supper leave the restriction tool then answered no and the balance
    tool answered at least 1, an overnight window starting on a Saturday;
    for day leave neither tool was called; special leave is never
    approved; and the leave update tool returned [True] on the world the
    last check left. *)
Theorem X1_approved_only_after_all_checks {S : Type} (tools : Tools S)
  (lr : LeaveRequest) (w w' : World S) (d : Decision) :
  _process_leave_eligibility tools lr w = (Ok d, w') ->
  d_status d = "approved" ->
  exists (sd ed : datetime) (reason : string) (w1 w3 : World S),
    start_date lr = Some sd /\ end_date lr = Some ed
    /\ tool_date_validity_check tools (block (student lr)) sd ed w
       = (mk_DateValidity true reason, w1)
    /\ match leave_type lr with
       | DAY_LEAVE => w3 = w1
       | SPECIAL => False
       | OVERNIGHT | FRIDAY_SUPPER =>
           (leave_type lr = OVERNIGHT -> DT.weekday sd = 5)
           /\ exists (w2 : World S) (balance : Z),
               tool_restriction_check tools (admin_number (student lr)) sd ed
                 w1 = (false, w2)
               /\ tool_leave_balance_check tools (admin_number (student lr))
                    (tool_kind (leave_type lr)) w2 = (balance, w3)
               /\ 1 <= balance
       end
    /\ tool_leave_update tools (admin_number (student lr))
         (LeaveType_value (leave_type lr)) (Some sd) (Some ed)
         (auth_id (parent lr)) (full_name (student lr)) (house (student lr))
         (block (student lr)) None None None w3 = (true, w')
    /\ d_leave_request d = Some lr.
Proof.
  assert (Hrej : forall reason (w0 : World S),
             _reject_leave lr reason w0 = (Ok d, w') ->
             d_status d = "approved" -> False).
  { intros reason w0 H Hst. unfold _reject_leave, ret in H.
    injection H as <- _. discriminate. }
  assert (Hroute : forall trigger (w0 : World S),
             _route_to_special_leave lr trigger w0 = (Ok d, w') ->
             d_status d = "approved" -> False).
  { intros trigger w0 H Hst.
    unfold _route_to_special_leave, bind, lift, print, ret in H.
    destruct (strftime_opt (start_date lr) _); [| discriminate].
    destruct (strftime_opt (end_date lr) _); [| discriminate].
    simpl in H. injection H as <- _. discriminate. }
  assert (Happ : forall deduct (w0 : World S),
             _approve_leave tools lr deduct w0 = (Ok d, w') ->
             d_status d = "approved" ->
             tool_leave_update tools (admin_number (student lr))
               (LeaveType_value (leave_type lr)) (start_date lr) (end_date lr)
               (auth_id (parent lr)) (full_name (student lr))
               (house (student lr)) (block (student lr)) None None None w0
             = (true, w')
             /\ d_leave_request d = Some lr).
  { intros deduct w0 H Hst. unfold _approve_leave, bind, call in H.
    destruct (tool_leave_update tools _ _ _ _ _ _ _ _ _ _ _ w0)
      as [success wu].
    destruct success; simpl in H.
    - destruct (if deduct then _ else _) as [nb bt].
      destruct ((if deduct then _ else ret None) wu) as [[bta | e] wb] eqn:Hb;
        [| discriminate].
      assert (wb = wu).
      { destruct deduct; [destruct bt |]; unfold ret, raise in Hb;
          congruence. }
      subst wb.
      unfold lift, ret in H.
      destruct (_format_approval_message lr nb bta); [| discriminate].
      injection H as <- <-. split; reflexivity.
    - unfold ret in H. injection H as <- _. discriminate. }
  intros H Hst. unfold _process_leave_eligibility in H.
  destruct (start_date lr) as [sd |] eqn:Hs;
    [| unfold ret in H; injection H as <- _; discriminate].
  destruct (end_date lr) as [ed |] eqn:He;
    [| unfold ret in H; injection H as <- _; discriminate].
  unfold bind at 1 in H. unfold call at 1 in H.
  destruct (tool_date_validity_check tools _ sd ed w) as [[valid reason] w1]
    eqn:Hv.
  destruct valid; simpl in H.
  2:{ destruct (Str.contains _ _); exfalso; eauto. }
  destruct (leave_type lr) eqn:Ht; simpl in H.
  - destruct (DT.weekday sd =? 5) eqn:Hw; simpl in H; [| exfalso; eauto].
    unfold bind at 1 in H. unfold call at 1 in H.
    destruct (tool_restriction_check tools _ sd ed w1) as [restricted w2]
      eqn:Hr.
    destruct restricted; [exfalso; eauto |].
    unfold bind at 1 in H. unfold call at 1 in H.
    destruct (tool_leave_balance_check tools _ _ w2) as [balance w3] eqn:Hb.
    destruct (balance <? 1) eqn:Hlt; [exfalso; eauto |].
    apply Happ in H; [| exact Hst]. destruct H as [Hu Hl].
    exists sd, ed, reason, w1, w3. repeat split; try assumption.
    + intros _. apply Z.eqb_eq, Hw.
    + exists w2, balance. repeat split; try assumption.
      apply Z.ltb_ge in Hlt. exact Hlt.
  - unfold bind at 1 in H. unfold call at 1 in H.
    destruct (tool_restriction_check tools _ sd ed w1) as [restricted w2]
      eqn:Hr.
    destruct restricted; [exfalso; eauto |].
    unfold bind at 1 in H. unfold call at 1 in H.
    destruct (tool_leave_balance_check tools _ _ w2) as [balance w3] eqn:Hb.
    destruct (balance <? 1) eqn:Hlt; [exfalso; eauto |].
    apply Happ in H; [| exact Hst]. destruct H as [Hu Hl].
    exists sd, ed, reason, w1, w3. repeat split; try assumption.
    + intros Hc; discriminate.
    + exists w2, balance. repeat split; try assumption.
      apply Z.ltb_ge in Hlt. exact Hlt.
  - apply Happ in H; [| exact Hst]. destruct H as [Hu Hl].
    exists sd, ed, reason, w1, w1. repeat split; assumption.
  - exfalso; eauto.
Qed.

(** A concrete instance of X1. *)
Lemma X1_approved_only_after_all_checks_witness :
  exists (d : Decision) (w' : World unit),
    _process_leave_eligibility LeaveSystemTools.tools
      saturday_overnight_request world0 = (Ok d, w')
    /\ d_leave_request d = Some saturday_overnight_request.
Proof.
  eexists; eexists. split; [vm_compute; reflexivity |].
  destruct (X1_approved_only_after_all_checks LeaveSystemTools.tools
              saturday_overnight_request world0 _ _ eq_refl eq_refl)
    as (sd & ed & reason & w1 & w3 & _ & _ & _ & _ & _ & H).
  exact H.
Defined.

(** X2.  A request of category Special whose window the date tool finds
    valid is not decided by the engine: the three parts of the email to
    the housemaster are printed, the status is "special_pending" with the
    trigger "Special leave explicitly requested", and no restriction,
    balance or leave update tool is called. *)
Theorem X2_special_request_is_forwarded {S : Type} (tools : Tools S)
  (lr : LeaveRequest) (sd ed : datetime) (w w1 : World S) (reason : string) :
  leave_type lr = SPECIAL ->
  start_date lr = Some sd -> end_date lr = Some ed ->
  tool_date_validity_check tools (block (student lr)) sd ed w
  = (mk_DateValidity true reason, w1) ->
  exists (d : Decision) (email_lines : list string),
    _process_leave_eligibility tools lr w
    = (Ok d, mk_World (stdout w1 ++ email_lines) (store w1))
    /\ length email_lines = 3%nat
    /\ d_status d = "special_pending"
    /\ d_trigger_reason d = Some "Special leave explicitly requested"
    /\ d_leave_request d = Some lr.
Proof.
  intros Ht Hs He Hv. unfold _process_leave_eligibility. rewrite Hs, He.
  unfold bind at 1. unfold call at 1. rewrite Hv. simpl. rewrite Ht. simpl.
  unfold _route_to_special_leave, bind, lift, print, ret. rewrite Hs, He.
  simpl. eexists. eexists (_ :: _ :: _ :: nil).
  rewrite <- !app_assoc. simpl. repeat split.
Qed.

(** A concrete instance of X2. *)
Lemma X2_special_request_is_forwarded_witness :
  exists (d : Decision) (w' : World unit),
    _process_leave_eligibility LeaveSystemTools.tools special_request world0
    = (Ok d, w')
    /\ d_status d = "special_pending".
Proof.
  destruct (X2_special_request_is_forwarded LeaveSystemTools.tools
              special_request (DT.make 2025 2 8 9 0) (DT.make 2025 2 8 17 0)
              world0 world0 "" eq_refl eq_refl eq_refl eq_refl)
    as (d & lines & H & _ & Hst & _).
  exists d. eexists. split; [exact H | exact Hst].
Defined.

(* ===================================================================== *)
(** * The authentication gate                                             *)
(* ===================================================================== *)

(** X3.  A sender that is not authenticated gets the decision "rejected"
    with the reason "authentication_failed" and nothing else happens: on
    a channel other than "whatsapp" and "email" no tool is called at all;
    on these two channels the one authentication tool is called, and an
    answer that is [None] or the empty string ends the request in the
    world that tool left. *)
Theorem X3_unauthenticated_sender_is_rejected {S : Type} (tools : Tools S)
  (now : datetime) (message_text sender channel : string) (w : World S) :
  (channel <> "whatsapp" -> channel <> "email" ->
   process_parent_request tools now message_text sender channel w
   = (Ok auth_failed_decision, w))
  /\ (forall (o : option string) (w1 : World S),
         channel = "whatsapp" ->
         tool_parent_phone_check tools sender w = (o, w1) ->
         truthy o = false ->
         process_parent_request tools now message_text sender channel w
         = (Ok auth_failed_decision, w1))
  /\ (forall (o : option string) (w1 : World S),
         channel = "email" ->
         tool_parent_email_check tools sender w = (o, w1) ->
         truthy o = false ->
         process_parent_request tools now message_text sender channel w
         = (Ok auth_failed_decision, w1)).
Proof.
  split; [| split].
  - intros H1 H2. unfold process_parent_request, _authenticate_parent.
    apply String.eqb_neq in H1, H2. unfold bind. rewrite H1, H2. reflexivity.
  - intros o w1 -> Hc Ht. unfold process_parent_request, _authenticate_parent.
    unfold bind, call. simpl. rewrite Hc.
    destruct o as [id |]; [| reflexivity].
    simpl in Ht. apply negb_false_iff in Ht. rewrite Ht. reflexivity.
  - intros o w1 -> Hc Ht. unfold process_parent_request, _authenticate_parent.
    unfold bind, call. simpl. rewrite Hc.
    destruct o as [id |]; [| reflexivity].
    simpl in Ht. apply negb_false_iff in Ht. rewrite Ht. reflexivity.
Qed.

(** A concrete instance of X3. *)
Lemma X3_unauthenticated_sender_is_rejected_witness :
  run_parent_request thursday "overnight leave for James this Saturday"
    "27603174174" "sms" = (Ok auth_failed_decision, world0).
Proof.
  apply (proj1 (X3_unauthenticated_sender_is_rejected LeaveSystemTools.tools
                  thursday "overnight leave for James this Saturday"
                  "27603174174" "sms" world0)); discriminate.
Defined.

(* ===================================================================== *)
(** * A range with an endpoint that is no date                            *)
(* ===================================================================== *)



(* ===================================================================== *)
(** * What the messages say                                               *)
(* ===================================================================== *)

Lemma prefix_app_l x a b :
  String.prefix x a = true -> String.prefix x (a +:+ b) = true.
Proof.
  revert a. induction x as [| c x IH]; intros a H;
    [destruct (a +:+ b); reflexivity |].
  destruct a as [| c' a]; [discriminate |]. simpl in *.
  destruct (Ascii.ascii_dec c c'); [apply IH, H | discriminate].
Qed.

Lemma prefix_self_app x b : String.prefix x (x +:+ b) = true.
Proof.
  induction x as [| c x IH]; [destruct b; reflexivity |]. simpl.
  destruct (Ascii.ascii_dec c c); [exact IH | congruence].
Qed.

Lemma contains_cons x c a :
  Str.contains x (String c a)
  = String.prefix x (String c a) || Str.contains x a.
Proof. reflexivity. Qed.

Lemma contains_app_l x a b :
  Str.contains x a = true -> Str.contains x (a +:+ b) = true.
Proof.
  induction a as [| c a IH]; intros H.
  - destruct x; [destruct b; reflexivity | discriminate].
  - change (String c a +:+ b) with (String c (a +:+ b)).
    rewrite contains_cons in *.
    apply orb_prop in H. destruct H as [H | H].
    + apply (prefix_app_l x (String c a) b) in H.
      change (String c a +:+ b) with (String c (a +:+ b)) in H.
      rewrite H. reflexivity.
    + rewrite (IH H). apply orb_true_r.
Qed.

Lemma contains_app_r x a b :
  Str.contains x b = true -> Str.contains x (a +:+ b) = true.
Proof.
  intros H. induction a as [| c a IH]; [exact H |].
  change (String c a +:+ b) with (String c (a +:+ b)).
  rewrite contains_cons, IH. apply orb_true_r.
Qed.

Lemma contains_self_app x b : Str.contains x (x +:+ b) = true.
Proof.
  destruct x as [| c x]; [destruct b; reflexivity |].
  change (String c x +:+ b) with (String c (x +:+ b)).
  rewrite contains_cons.
  change (String c (x +:+ b)) with (String c x +:+ b).
  rewrite prefix_self_app. reflexivity.
Qed.

Lemma contains_refl x : Str.contains x x = true.
Proof.
  destruct x as [| c x]; [reflexivity |]. rewrite contains_cons.
  pose proof (prefix_self_app (String c x) "") as H.
  assert (Hnil : forall s, s +:+ "" = s)
    by (induction s as [| c' s IH]; [reflexivity |];
        change (String c' s +:+ "") with (String c' (s +:+ ""));
        rewrite IH; reflexivity).
  rewrite Hnil in H. rewrite H. reflexivity.
Qed.

Ltac contains_part :=
  solve [repeat first
           [ reflexivity
           | apply contains_self_app
           | apply contains_refl
           | apply contains_app_l; reflexivity
           | apply contains_app_r ]].

Lemma eligibility_cases {S : Type} (tools : Tools S) (lr : LeaveRequest)
  (w w' : World S) (d : Decision) :
  _process_leave_eligibility tools lr w = (Ok d, w') ->
  (exists reason (w0 : World S), _reject_leave lr reason w0 = (Ok d, w'))
  \/ (exists trigger (w0 : World S),
         _route_to_special_leave lr trigger w0 = (Ok d, w'))
  \/ (exists deduct (w0 : World S),
         _approve_leave tools lr deduct w0 = (Ok d, w'))
  \/ d = missing_dates_decision.
Proof.
  intros H. unfold _process_leave_eligibility in H.
  destruct (start_date lr) as [sd |];
    [| unfold ret in H; injection H as <- _; auto].
  destruct (end_date lr) as [ed |];
    [| unfold ret in H; injection H as <- _; auto].
  unfold bind at 1 in H. unfold call at 1 in H.
  destruct (tool_date_validity_check tools _ sd ed w) as [[valid reason] w1].
  destruct valid; simpl in H.
  2:{ destruct (Str.contains _ _); eauto 6. }
  destruct (leave_type lr); simpl in H.
  - destruct (DT.weekday sd =? 5); simpl in H; [| eauto 6].
    unfold bind at 1 in H. unfold call at 1 in H.
    destruct (tool_restriction_check tools _ sd ed w1) as [restricted w2].
    destruct restricted; [eauto 6 |].
    unfold bind at 1 in H. unfold call at 1 in H.
    destruct (tool_leave_balance_check tools _ _ w2) as [balance w3].
    destruct (balance <? 1); eauto 6.
  - unfold bind at 1 in H. unfold call at 1 in H.
    destruct (tool_restriction_check tools _ sd ed w1) as [restricted w2].
    destruct restricted; [eauto 6 |].
    unfold bind at 1 in H. unfold call at 1 in H.
    destruct (tool_leave_balance_check tools _ _ w2) as [balance w3].
    destruct (balance <? 1); eauto 6.
  - eauto 6.
  - eauto 6.
Qed.

(** X5.  Every decision of the eligibility engine other than an error
    names the student in its message.  A rejection also carries its
    reason and shows it in the message; a referral to the housemaster
    carries its trigger and shows it in lower case, with the house of the
    student; an approval names the category of the leave. *)
Theorem X5_reply_names_the_student {S : Type} (tools : Tools S)
  (lr : LeaveRequest) (w w' : World S) (d : Decision) :
  _process_leave_eligibility tools lr w = (Ok d, w') ->
  d_status d <> "error" ->
  Str.contains (full_name (student lr)) (d_message d) = true
  /\ (d_status d = "rejected" ->
      exists reason, d_reason d = Some reason
                     /\ Str.contains reason (d_message d) = true)
  /\ (d_status d = "special_pending" ->
      exists trigger, d_trigger_reason d = Some trigger
                      /\ Str.contains (Str.lower trigger) (d_message d) = true
                      /\ Str.contains (house (student lr)) (d_message d)
                         = true)
  /\ (d_status d = "approved" ->
      Str.contains (LeaveType_value (leave_type lr)) (d_message d) = true).
Proof.
  intros H Hne. apply eligibility_cases in H.
  destruct H as [(reason & w0 & H) | [(trigger & w0 & H) |
                 [(deduct & w0 & H) | ->]]].
  - unfold _reject_leave, ret in H. injection H as <- _.
    cbn [d_message d_status d_reason d_trigger_reason].
    split; [contains_part |]. split; [| split; discriminate].
    intros _. exists reason. split; [reflexivity | contains_part].
  - unfold _route_to_special_leave, bind, lift, print, ret in H.
    destruct (strftime_opt (start_date lr) _); [| discriminate].
    destruct (strftime_opt (end_date lr) _); [| discriminate].
    cbv beta iota in H. injection H as <- _.
    cbn [d_message d_status d_reason d_trigger_reason].
    split; [contains_part |]. split; [discriminate |].
    split; [| discriminate].
    intros _. exists trigger. split; [reflexivity |].
    split; contains_part.
  - unfold _approve_leave, bind, call in H.
    destruct (tool_leave_update tools _ _ _ _ _ _ _ _ _ _ _ w0)
      as [success wu].
    destruct success; cbn [negb] in H; cbv iota in H.
    2:{ unfold ret in H. injection H as <- _. exfalso. apply Hne.
        reflexivity. }
    destruct (if deduct then _ else _) as [nb bt].
    destruct ((if deduct then _ else ret None) wu) as [[bta | e] wb];
      [| discriminate].
    unfold lift, ret in H.
    destruct (_format_approval_message lr nb bta) as [message | e] eqn:Hm;
      [| discriminate].
    injection H as <- _.
    cbn [d_message d_status d_reason d_trigger_reason].
    unfold _format_approval_message in Hm.
    destruct (strftime_opt (start_date lr) _) as [st | e]; [| discriminate].
    destruct (strftime_opt (end_date lr) _) as [et | e]; [| discriminate].
    cbn [rbind] in Hm.
    assert (Hbase : forall tail,
               Str.contains (full_name (student lr))
                 (("Thank you for submitting your request." +:+ nl +:+ nl
                   +:+ "I'm pleased to confirm that the exeat request for "
                   +:+ full_name (student lr) +:+ " for "
                   +:+ LeaveType_value (leave_type lr)
                   +:+ " leave has been approved." +:+ nl +:+ nl
                   +:+ "Dates: " +:+ st +:+ " to " +:+ et) +:+ tail) = true
               /\ Str.contains (LeaveType_value (leave_type lr))
                    (("Thank you for submitting your request." +:+ nl +:+ nl
                      +:+ "I'm pleased to confirm that the exeat request for "
                      +:+ full_name (student lr) +:+ " for "
                      +:+ LeaveType_value (leave_type lr)
                      +:+ " leave has been approved." +:+ nl +:+ nl
                      +:+ "Dates: " +:+ st +:+ " to " +:+ et) +:+ tail)
                  = true).
    { intros tail. split; apply contains_app_l; contains_part. }
    assert (Hnil : forall x : string, x = x +:+ "").
    { induction x as [| c x IH]; [reflexivity |].
      change (String c x +:+ "") with (String c (x +:+ "")).
      f_equal. exact IH. }
    destruct nb as [b |]; injection Hm as <-.
    + destruct (Hbase (nl +:+ nl +:+ "Remaining " +:+ str_opt bta
                       +:+ " leave balance: " +:+ Str.of_Z b)) as [H1 H2].
      split; [exact H1 |]. split; [discriminate |]. split; [discriminate |].
      intros _. exact H2.
    + destruct (Hbase "") as [H1 H2]. rewrite <- Hnil in H1, H2.
      split; [exact H1 |]. split; [discriminate |]. split; [discriminate |].
      intros _. exact H2.
  - exfalso. apply Hne. reflexivity.
Qed.

(** A concrete instance of X5. *)
Lemma X5_reply_names_the_student_witness :
  exists (d : Decision) (w' : World unit),
    _process_leave_eligibility LeaveSystemTools.tools
      saturday_overnight_request world0 = (Ok d, w')
    /\ Str.contains "James Smith" (d_message d) = true.
Proof.
  destruct (_process_leave_eligibility LeaveSystemTools.tools
              saturday_overnight_request world0) as [[d | e] w'] eqn:H;
    [| vm_compute in H; discriminate].
  exists d, w'. split; [reflexivity |].
  apply (proj1 (X5_reply_names_the_student LeaveSystemTools.tools
                  saturday_overnight_request world0 w' d H
                  ltac:(vm_compute in H; injection H as <- _;
                        discriminate))).
Defined.

(* ===================================================================== *)
(** * The date rules of the placeholder tools                             *)
(* ===================================================================== *)

Lemma closed_weekends_lookup (student_block : string) :
  LeaveSystemTools.closed_weekends !! student_block
  = if String.eqb student_block "D" || String.eqb student_block "E"
    then Some [first_weekend; half_term_weekend] else None.
Proof.
  unfold LeaveSystemTools.closed_weekends.
  destruct (String.eqb student_block "E") eqn:HE.
  - apply String.eqb_eq in HE. subst. reflexivity.
  - apply String.eqb_neq in HE.
    rewrite lookup_insert_ne by congruence.
    destruct (String.eqb student_block "D") eqn:HD.
    + apply String.eqb_eq in HD. subst. reflexivity.
    + apply String.eqb_neq in HD.
      rewrite lookup_singleton_ne by congruence. reflexivity.
Qed.

Lemma placeholder_date_validity (student_block : string)
  (start_date end_date : datetime) :
  LeaveSystemTools.tool_date_validity_check student_block start_date end_date
  = if on_closed_weekend student_block start_date end_date then
      mk_DateValidity false (closed_weekend_reason student_block)
    else if DT.lt start_date LeaveSystemTools.term_start
            || DT.gt end_date LeaveSystemTools.term_end then
      mk_DateValidity false "Dates fall outside of term dates"
    else mk_DateValidity true "".
Proof.
  unfold LeaveSystemTools.tool_date_validity_check, on_closed_weekend.
  rewrite closed_weekends_lookup.
  destruct (String.eqb student_block "D" || String.eqb student_block "E");
    simpl; [| reflexivity].
  destruct (LeaveSystemTools.overlaps start_date end_date (DT.make 2025 1 18 0 0)
              (DT.make 2025 1 19 0 0)); simpl; [reflexivity |].
  destruct (LeaveSystemTools.overlaps start_date end_date (DT.make 2025 2 22 0 0)
              (DT.make 2025 2 23 0 0)); reflexivity.
Qed.

Lemma lower_app a b : Str.lower (a +:+ b) = Str.lower a +:+ Str.lower b.
Proof.
  induction a as [| c a IH]; [reflexivity |].
  change (String c a +:+ b) with (String c (a +:+ b)). simpl.
  rewrite IH. reflexivity.
Qed.

Lemma closed_weekend_reason_is_recognised (student_block : string) :
  Str.contains "closed weekend" (Str.lower (closed_weekend_reason student_block))
  = true.
Proof.
  unfold closed_weekend_reason. rewrite lower_app.
  apply contains_app_l. reflexivity.
Qed.

(** X6.  With the placeholder tools a window that meets a closed weekend
    of the block of the student is referred to the housemaster whatever
    the category of the leave, day leave and special leave included, with
    the reason of the tool as trigger; a window that meets none and lies
    partly outside the term is rejected with "Dates fall outside of term
    dates", again whatever the category. *)
Theorem X6_placeholder_invalid_dates (lr : LeaveRequest) (sd ed : datetime)
  (w : World unit) :
  start_date lr = Some sd -> end_date lr = Some ed ->
  (on_closed_weekend (block (student lr)) sd ed = true ->
   exists (d : Decision) (email_lines : list string),
     _process_leave_eligibility LeaveSystemTools.tools lr w
     = (Ok d, mk_World (stdout w ++ email_lines) (store w))
     /\ length email_lines = 3%nat
     /\ d_status d = "special_pending"
     /\ d_trigger_reason d
        = Some (closed_weekend_reason (block (student lr))))
  /\ (on_closed_weekend (block (student lr)) sd ed = false ->
      DT.lt sd LeaveSystemTools.term_start = true
      \/ DT.gt ed LeaveSystemTools.term_end = true ->
      _process_leave_eligibility LeaveSystemTools.tools lr w
      = _reject_leave lr "Dates fall outside of term dates" w).
Proof.
  intros Hs He.
  assert (Hpure : forall (A B : Type) (a : A) (k : A -> M unit B)
                         (w0 : World unit),
             bind (call (LeaveSystemTools.pure_tool a)) k w0 = k a w0)
    by reflexivity.
  split.
  - intros Hc. unfold _process_leave_eligibility. rewrite Hs, He.
    cbn [tool_date_validity_check LeaveSystemTools.tools]. rewrite Hpure.
    rewrite placeholder_date_validity, Hc. cbn [isValid dv_reason negb].
    rewrite closed_weekend_reason_is_recognised.
    unfold _route_to_special_leave, bind, lift, print, ret. rewrite Hs, He.
    simpl. eexists. eexists (_ :: _ :: _ :: nil).
    rewrite <- !app_assoc. simpl. repeat split.
  - intros Hc Hout. unfold _process_leave_eligibility. rewrite Hs, He.
    cbn [tool_date_validity_check LeaveSystemTools.tools]. rewrite Hpure.
    rewrite placeholder_date_validity, Hc.
    replace (DT.lt sd LeaveSystemTools.term_start
             || DT.gt ed LeaveSystemTools.term_end) with true
      by (symmetry; destruct Hout as [-> | ->];
          [reflexivity | apply orb_true_r]).
    reflexivity.
Qed.

(** A concrete instance of X6. *)
Lemma X6_placeholder_invalid_dates_witness :
  exists (d : Decision) (w' : World unit),
    _process_leave_eligibility LeaveSystemTools.tools closed_weekend_day_leave
      world0 = (Ok d, w')
    /\ d_status d = "special_pending".
Proof.
  destruct (proj1 (X6_placeholder_invalid_dates closed_weekend_day_leave
                     (DT.make 2025 1 18 9 0) (DT.make 2025 1 18 17 0) world0
                     eq_refl eq_refl) eq_refl)
    as (d & lines & H & _ & Hst & _).
  exists d. eexists. split; [exact H | exact Hst].
Defined.

Lemma lt_of_ordinal a b : ordinal a < ordinal b -> DT.lt a b = true.
Proof.
  intros H. unfold DT.lt, DT.fields. simpl.
  replace (ordinal a <? ordinal b) with true
    by (symmetry; apply Z.ltb_lt; exact H).
  reflexivity.
Qed.

Lemma lt_ordinal_le a b : DT.lt a b = true -> ordinal a <= ordinal b.
Proof.
  unfold DT.lt, DT.fields. simpl. intros H.
  apply orb_prop in H. destruct H as [H | H].
  - apply Z.ltb_lt in H. lia.
  - apply andb_prop in H. destruct H as [H _]. apply Z.eqb_eq in H. lia.
Qed.

Lemma lt_asym a b : DT.lt a b = true -> DT.lt b a = false.
Proof.
  intros H. destruct (DT.lt b a) eqn:Hba; [| reflexivity].
  pose proof (ge_trans a b a) as Ht.
  assert (Hf : DT.lt a b = false); [| congruence].
  clear Ht. revert H Hba. unfold DT.lt. generalize (DT.fields a), (DT.fields b).
  induction l as [| x xs IH]; intros [| y ys]; simpl; try discriminate.
  intros H1 H2. apply orb_prop in H1, H2.
  destruct H1 as [H1 | H1], H2 as [H2 | H2].
  - apply Z.ltb_lt in H1, H2. lia.
  - apply Z.ltb_lt in H1. apply andb_prop in H2. destruct H2 as [H2 _].
    apply Z.eqb_eq in H2. lia.
  - apply Z.ltb_lt in H2. apply andb_prop in H1. destruct H1 as [H1 _].
    apply Z.eqb_eq in H1. lia.
  - apply andb_prop in H1, H2. destruct H1 as [_ H1], H2 as [_ H2].
    exfalso. specialize (IH ys H1 H2). congruence.
Qed.

(** X7.  A closed weekend of the placeholder tools ends at 00:00 of its
    Sunday: a window that starts later on that Sunday and ends on the
    same day is valid for every block, the blocks D and E included. *)
Theorem X7_closed_sunday_after_midnight_is_open (student_block : string)
  (weekend : datetime * datetime) (sd ed : datetime) :
  weekend = first_weekend \/ weekend = half_term_weekend ->
  DT.gt sd (snd weekend) = true ->
  ordinal ed = ordinal (snd weekend) ->
  LeaveSystemTools.tool_date_validity_check student_block sd ed
  = mk_DateValidity true "".
Proof.
  intros Hw Hgt Hord. rewrite placeholder_date_validity.
  unfold DT.gt in Hgt. pose proof (lt_ordinal_le _ _ Hgt) as Hle.
  assert (O1 : ordinal (snd first_weekend) = 739270) by reflexivity.
  assert (O2 : ordinal (snd half_term_weekend) = 739305) by reflexivity.
  assert (O3 : ordinal (fst half_term_weekend) = 739304) by reflexivity.
  assert (O4 : ordinal LeaveSystemTools.term_start = 739266) by reflexivity.
  assert (O5 : ordinal LeaveSystemTools.term_end = 739338) by reflexivity.
  assert (Hclosed : on_closed_weekend student_block sd ed = false).
  { unfold on_closed_weekend, LeaveSystemTools.overlaps.
    apply andb_false_intro2. apply orb_false_intro.
    - replace (DT.gt sd (snd first_weekend)) with true;
        [rewrite orb_true_r; reflexivity |].
      symmetry. destruct Hw as [-> | ->]; [exact Hgt |].
      apply lt_of_ordinal. lia.
    - destruct Hw as [-> | ->].
      + rewrite (lt_of_ordinal ed (fst half_term_weekend)) by lia.
        reflexivity.
      + unfold DT.gt. rewrite Hgt, orb_true_r. reflexivity. }
  rewrite Hclosed.
  assert (Hs : DT.lt sd LeaveSystemTools.term_start = false).
  { apply lt_asym. apply lt_of_ordinal. destruct Hw as [-> | ->]; lia. }
  assert (He : DT.gt ed LeaveSystemTools.term_end = false).
  { unfold DT.gt. apply lt_asym. apply lt_of_ordinal.
    destruct Hw as [-> | ->]; lia. }
  rewrite Hs, He. reflexivity.
Qed.

(** A concrete instance of X7. *)
Lemma X7_closed_sunday_after_midnight_is_open_witness :
  LeaveSystemTools.tool_date_validity_check "E" (DT.make 2025 1 19 9 0)
    (DT.make 2025 1 19 17 0) = mk_DateValidity true "".
Proof.
  apply (X7_closed_sunday_after_midnight_is_open "E" first_weekend
           (DT.make 2025 1 19 9 0) (DT.make 2025 1 19 17 0)
           (or_introl eq_refl) eq_refl eq_refl).
Defined.

(* ===================================================================== *)
(** * Whose student a decision is about                                   *)
(* ===================================================================== *)

Lemma eligibility_leave_request {S : Type} (tools : Tools S)
  (lr lr' : LeaveRequest) (w w' : World S) (d : Decision) :
  _process_leave_eligibility tools lr w = (Ok d, w') ->
  d_leave_request d = Some lr' -> lr' = lr.
Proof.
  intros H Hl. apply eligibility_cases in H.
  destruct H as [(reason & w0 & H) | [(trigger & w0 & H) |
                 [(deduct & w0 & H) | ->]]].
  - unfold _reject_leave, ret in H.
    injection H as <- _. simpl in Hl. congruence.
  - unfold _route_to_special_leave, bind, lift, print, ret in H.
    destruct (strftime_opt (start_date lr) _); [| discriminate].
    destruct (strftime_opt (end_date lr) _); [| discriminate].
    simpl in H. injection H as <- _. simpl in Hl. congruence.
  - unfold _approve_leave, bind, call in H.
    destruct (tool_leave_update tools _ _ _ _ _ _ _ _ _ _ _ w0)
      as [success wu].
    destruct success; simpl in H.
    + destruct (if deduct then _ else _) as [nb bt].
      destruct ((if deduct then _ else ret None) wu) as [[bta | e] wb];
        [| discriminate].
      unfold lift, ret in H.
      destruct (_format_approval_message lr nb bta); [| discriminate].
      injection H as <- _. simpl in Hl. congruence.
    + unfold ret in H. injection H as <- _. discriminate.
  - discriminate.
Qed.

Lemma linked_student_of_decision {S : Type} (tools : Tools S)
  (now : datetime) (message_text sender channel : string) (w w' : World S)
  (d : Decision) (lr : LeaveRequest) :
  process_parent_request tools now message_text sender channel w
  = (Ok d, w') ->
  d_leave_request d = Some lr ->
  exists (check : string -> World S -> option string * World S)
         (identifier : string) (record : StudentRecord) (w1 w2 : World S),
    auth_tool tools channel = Some check
    /\ check sender w = (Some (auth_id (parent lr)), w1)
    /\ _extract_student_identifier message_text = Some identifier
    /\ tool_student_parent_linkage tools (auth_id (parent lr)) identifier w1
       = (Some record, w2)
    /\ student lr = student_of_record record.
Proof.
  intros H Hl. unfold process_parent_request in H.
  unfold bind at 1 in H.
  destruct (_authenticate_parent tools sender channel w)
    as [[[message | parent_info] | e] w1] eqn:Ha;
    [unfold ret in H; injection H as <- _; discriminate | | discriminate].
  assert (Hauth : exists check,
             auth_tool tools channel = Some check
             /\ check sender w = (Some (auth_id parent_info), w1)).
  { unfold _authenticate_parent, bind in Ha. unfold auth_tool.
    destruct (String.eqb channel "whatsapp").
    - unfold call in Ha.
      destruct (tool_parent_phone_check tools sender w) as [[id |] w0] eqn:Hc;
        [| unfold ret in Ha; discriminate].
      destruct (String.eqb id ""); unfold ret in Ha; [discriminate |].
      injection Ha as <- <-. simpl. eauto.
    - destruct (String.eqb channel "email").
      + unfold call in Ha.
        destruct (tool_parent_email_check tools sender w) as [[id |] w0]
          eqn:Hc; [| unfold ret in Ha; discriminate].
        destruct (String.eqb id ""); unfold ret in Ha; [discriminate |].
        injection Ha as <- <-. simpl. eauto.
      + unfold ret in Ha. discriminate. }
  destruct Hauth as (check & Hcheck & Hsender).
  unfold bind at 1 in H. unfold lift at 1 in H.
  destruct (parse_request now message_text) as [pd | e] eqn:Hp;
    [| discriminate].
  assert (Hid : pd_student_identifier pd
                = _extract_student_identifier message_text).
  { unfold parse_request in Hp.
    destruct (_extract_dates _ _ _); simpl in Hp; [| discriminate].
    injection Hp as <-. reflexivity. }
  destruct (pd_student_identifier pd) as [identifier |] eqn:Hpid;
    [| unfold ret in H; injection H as <- _; discriminate].
  cbn [truthy] in H.
  destruct (negb (negb (String.eqb identifier "")));
    [unfold ret in H; injection H as <- _; discriminate |].
  unfold bind at 1 in H. unfold call at 1 in H. cbn [str_opt] in H.
  destruct (tool_student_parent_linkage tools _ identifier w1)
    as [[record |] w2] eqn:Hlink;
    [| unfold ret in H; injection H as <- _; discriminate].
  apply eligibility_leave_request with (lr' := lr) in H; [| exact Hl].
  subst lr. simpl.
  exists check, identifier, record, w1, w2. repeat split; auto.
Qed.

(** X8.  For a message of ASCII characters, a decision that carries a
    leave request is about a student the linkage tool returned for the
    sender: the authentication tool of the channel gave the id of the
    parent of the request, the linkage tool was asked with that id and
    the identifier found in the message, and the student of the request
    is the record it returned. *)
Theorem X8_decision_is_about_a_linked_student {S : Type} (tools : Tools S)
  (now : datetime) (message_text sender channel : string) (w w' : World S)
  (d : Decision) (lr : LeaveRequest) :
  is_ascii message_text = true ->
  process_parent_request tools now message_text sender channel w
  = (Ok d, w') ->
  d_leave_request d = Some lr ->
  exists (check : string -> World S -> option string * World S)
         (identifier : string) (record : StudentRecord) (w1 w2 : World S),
    auth_tool tools channel = Some check
    /\ check sender w = (Some (auth_id (parent lr)), w1)
    /\ _extract_student_identifier message_text = Some identifier
    /\ tool_student_parent_linkage tools (auth_id (parent lr)) identifier w1
       = (Some record, w2)
    /\ student lr = student_of_record record.
Proof. intros _. apply linked_student_of_decision. Qed.

(** A concrete instance of X8. *)
Lemma X8_decision_is_about_a_linked_student_witness :
  exists (d : Decision) (w' : World unit),
    attempt world0 = (Ok d, w')
    /\ exists lr, d_leave_request d = Some lr /\ student lr = james3.
Proof.
  destruct (attempt world0) as [[d | e] w'] eqn:H;
    [| vm_compute in H; discriminate].
  exists d, w'. split; [reflexivity |].
  assert (Hl : d_leave_request d
               = Some (mk_LeaveRequest james3 parent1 OVERNIGHT
                         (Some (DT.make 2025 2 8 14 0))
                         (Some (DT.make 2025 2 9 18 50)) PENDING None None
                         None)).
  { vm_compute in H. injection H as <- _. reflexivity. }
  destruct (X8_decision_is_about_a_linked_student LeaveSystemTools.tools
              thursday overnight_message "27603174174" "whatsapp" world0 w' d
              _ eq_refl H Hl) as (check & identifier & record & w1 & w2 & _).
  eexists. split; [exact Hl | reflexivity].
Defined.

Lemma find_student_sound (students : list StudentRecord)
  (identifier identifier_lower : string) (record : StudentRecord) :
  LeaveSystemTools.find_student students identifier identifier_lower
  = Some record ->
  In record students
  /\ (adminNumber record = identifier
      \/ Str.contains (Str.lower (firstName record)) identifier_lower = true
      \/ Str.contains (Str.lower (lastName record)) identifier_lower = true).
Proof.
  induction students as [| st rest IH]; simpl; [discriminate |].
  destruct (String.eqb (adminNumber st) identifier) eqn:Ha; simpl.
  - intros [= <-]. apply String.eqb_eq in Ha. auto.
  - destruct (Str.contains (Str.lower (firstName st)) identifier_lower)
      eqn:Hf; simpl.
    + intros [= <-]. auto.
    + destruct (Str.contains (Str.lower (lastName st)) identifier_lower)
        eqn:Hl.
      * intros [= <-]. auto.
      * intros H. destruct (IH H) as [Hin Hm]. auto.
Qed.

(** X9.  With the placeholder tools a decision that carries a leave
    request is about the child of the sender: the parent is PARENT_001,
    known by one phone number and one email address, and the student is
    12345, or the parent is PARENT_002 and the student is 67890, whatever
    the message names.  The phone number has to be the registered one;
    the email address is compared in lower case. *)
Theorem X9_placeholder_parent_reaches_only_own_child (now : datetime)
  (message_text sender channel : string) (w w' : World unit) (d : Decision)
  (lr : LeaveRequest) :
  process_parent_request LeaveSystemTools.tools now message_text sender
    channel w = (Ok d, w') ->
  d_leave_request d = Some lr ->
  (auth_id (parent lr) = "PARENT_001" /\ student lr = james3
   /\ (channel = "whatsapp" /\ sender = "27603174174"
       \/ channel = "email" /\ Str.lower sender = "john.smith@example.com"))
  \/ (auth_id (parent lr) = "PARENT_002" /\ student lr = michael
      /\ (channel = "whatsapp" /\ sender = "27821234567"
          \/ channel = "email" /\ Str.lower sender = "jane.doe@example.com")).
Proof.
  intros H Hl.
  destruct (linked_student_of_decision _ _ _ _ _ _ _ _ _ H Hl)
    as (check & identifier & record & w1 & w2 & Hc & Hs & _ & Hk & Hst).
  assert (Hsender :
            (auth_id (parent lr) = "PARENT_001"
             /\ (channel = "whatsapp" /\ sender = "27603174174"
                 \/ channel = "email"
                    /\ Str.lower sender = "john.smith@example.com"))
            \/ (auth_id (parent lr) = "PARENT_002"
                /\ (channel = "whatsapp" /\ sender = "27821234567"
                    \/ channel = "email"
                       /\ Str.lower sender = "jane.doe@example.com"))).
  { unfold auth_tool in Hc.
    destruct (String.eqb channel "whatsapp") eqn:Hw.
    - apply String.eqb_eq in Hw. injection Hc as <-.
      cbn [tool_parent_phone_check LeaveSystemTools.tools] in Hs.
      unfold LeaveSystemTools.pure_tool in Hs. injection Hs as Hs _.
      unfold LeaveSystemTools.tool_parent_phone_check,
        LeaveSystemTools.mock_parents_phone in Hs.
      apply lookup_insert_Some in Hs.
      destruct Hs as [[<- <-] | [_ Hs]]; [auto |].
      apply lookup_singleton_Some in Hs. destruct Hs as [<- <-]. auto.
    - destruct (String.eqb channel "email") eqn:He; [| discriminate].
      apply String.eqb_eq in He. injection Hc as <-.
      cbn [tool_parent_email_check LeaveSystemTools.tools] in Hs.
      unfold LeaveSystemTools.pure_tool in Hs. injection Hs as Hs _.
      unfold LeaveSystemTools.tool_parent_email_check,
        LeaveSystemTools.mock_parents_email in Hs.
      apply lookup_insert_Some in Hs.
      destruct Hs as [[Hs <-] | [_ Hs]]; [auto |].
      apply lookup_singleton_Some in Hs. destruct Hs as [Hs <-]. auto. }
  cbn [tool_student_parent_linkage LeaveSystemTools.tools] in Hk.
  unfold LeaveSystemTools.pure_tool in Hk. injection Hk as Hk _.
  unfold LeaveSystemTools.tool_student_parent_linkage in Hk.
  destruct Hsender as [[Hid Hch] | [Hid Hch]]; rewrite Hid in Hk;
    [left | right]; (split; [exact Hid |]); (split; [| exact Hch]);
    apply find_student_sound in Hk; destruct Hk as [Hin _];
    vm_compute in Hin; destruct Hin as [<- | []]; rewrite Hst; reflexivity.
Qed.

(** A concrete instance of X9. *)
Lemma X9_placeholder_parent_reaches_only_own_child_witness :
  exists (d : Decision) (w' : World unit) (lr : LeaveRequest),
    attempt world0 = (Ok d, w')
    /\ d_leave_request d = Some lr
    /\ auth_id (parent lr) = "PARENT_001" /\ student lr = james3.
Proof.
  destruct (attempt world0) as [[d | e] w'] eqn:H;
    [| vm_compute in H; discriminate].
  assert (Hl : d_leave_request d
               = Some (mk_LeaveRequest james3 parent1 OVERNIGHT
                         (Some (DT.make 2025 2 8 14 0))
                         (Some (DT.make 2025 2 9 18 50)) PENDING None None
                         None)).
  { vm_compute in H. injection H as <- _. reflexivity. }
  exists d, w'. eexists. split; [reflexivity |]. split; [exact Hl |].
  destruct (X9_placeholder_parent_reaches_only_own_child thursday
              overnight_message "27603174174" "whatsapp" world0 w' d _ H Hl)
    as [(Ha & Hs & _) | (Ha & _)]; [split; assumption |].
  vm_compute in Ha. discriminate.
Defined.

(* ===================================================================== *)
(** * The matcher only returns what the pattern describes                 *)
(* ===================================================================== *)

Module ReSound.

Import Re ReSpec.

Lemma sapp_cons c (a b : string) : String c a +:+ b = String c (a +:+ b).
Proof. reflexivity. Qed.

Lemma sapp_nil_l (a : string) : "" +:+ a = a.
Proof. reflexivity. Qed.

Lemma sapp_nil_r (a : string) : a +:+ "" = a.
Proof.
  induction a as [| c a IH]; [reflexivity |].
  rewrite sapp_cons. now rewrite IH.
Qed.

Lemma sapp_assoc (a b c : string) : (a +:+ b) +:+ c = a +:+ (b +:+ c).
Proof.
  induction a as [| x a IH]; [reflexivity |].
  rewrite !sapp_cons. now rewrite IH.
Qed.

Lemma length_sapp (a b : string) :
  String.length (a +:+ b) = (String.length a + String.length b)%nat.
Proof.
  induction a as [| x a IH]; [reflexivity |].
  rewrite sapp_cons. simpl. now rewrite IH.
Qed.

Lemma take_sapp (a b : string) :
  Str.take (String.length (a +:+ b) - String.length b) (a +:+ b) = a.
Proof.
  rewrite length_sapp.
  replace (String.length a + String.length b - String.length b)%nat
    with (String.length a) by lia.
  induction a as [| x a IH]; [destruct b; reflexivity |].
  rewrite sapp_cons. simpl. now rewrite IH.
Qed.

Lemma within_refl (a : string) : within a a.
Proof. exists "", "". now rewrite sapp_nil_r. Qed.

Lemma within_app_l (v a b : string) : within v a -> within v (a +:+ b).
Proof.
  intros (x & y & ->). exists x, (y +:+ b). now rewrite !sapp_assoc.
Qed.

Lemma within_app_r (v a b : string) : within v b -> within v (a +:+ b).
Proof.
  intros (x & y & ->). exists (a +:+ x), y. now rewrite !sapp_assoc.
Qed.

Lemma cap_ok_weaken ic gs gs' a a' nv :
  (forall g, In g gs -> In g gs') ->
  (forall v, within v a -> within v a') ->
  cap_ok ic gs a nv -> cap_ok ic gs' a' nv.
Proof.
  intros Hg Ha (r' & Hin & Hl & Hw). exists r'. auto.
Qed.

Lemma rep_loop_sound ic P gs step (Hstep : sound_step ic P gs step) :
  forall fuel lo hi prev s caps k o,
    rep_loop step fuel lo hi prev s caps k = Some o ->
    exists n a s' p' new,
      s = a +:+ s' /\ (lo <= n)%nat
      /\ match hi with Some h => (n <= h)%nat | None => True end
      /\ power P n a /\ Forall (cap_ok ic gs a) new
      /\ k p' s' (new ++ caps) = Some o.
Proof.
  assert (Hstop : forall lo (hi : option nat) prev s caps (k : cont) o,
             (if Nat.eqb lo 0 then k prev s caps else None) = Some o ->
             exists n a s' p' new,
               s = a +:+ s' /\ (lo <= n)%nat
               /\ match hi with Some h => (n <= h)%nat | None => True end
               /\ power P n a /\ Forall (cap_ok ic gs a) new
               /\ k p' s' (new ++ caps) = Some o).
  { intros lo hi prev s caps k o H.
    destruct (Nat.eqb lo 0) eqn:Hlo; [| discriminate].
    apply Nat.eqb_eq in Hlo. subst lo.
    exists 0%nat, "", s, prev, []. repeat split; auto.
    destruct hi; [lia | exact I]. }
  induction fuel as [| fuel IH]; intros lo hi prev s caps k o H; simpl in H.
  - apply Hstop with (hi := hi) in H. exact H.
  - match type of H with
    | match ?again with _ => _ end = _ => destruct again as [o' |] eqn:Ha
    end.
    + injection H as ->.
      assert (Hs : step prev s caps
                     (fun p' s' c' =>
                        rep_loop step fuel (Nat.pred lo)
                          (option_map Nat.pred hi) p' s' c' k) = Some o
                   /\ hi <> Some 0%nat).
      { destruct hi as [[| h] |]; [discriminate | |]; split;
          (exact Ha || discriminate). }
      destruct Hs as [Hs Hhi].
      apply Hstep in Hs.
      destruct Hs as (a1 & s1 & p1 & new1 & -> & HP & Hc1 & Hk).
      apply IH in Hk.
      destruct Hk as (n & a2 & s2 & p2 & new2 & -> & Hlo & Hh & Hpow & Hc2
                      & Hk).
      exists (S n), (a1 +:+ a2), s2, p2, (new2 ++ new1).
      repeat split.
      * now rewrite sapp_assoc.
      * lia.
      * destruct hi as [[| h] |]; [congruence | simpl in Hh; lia | exact I].
      * exists a1, a2. auto.
      * apply Forall_app. split.
        -- eapply Forall_impl; [exact Hc2 |]. intros nv.
           apply cap_ok_weaken; [auto |]. intros v. apply within_app_r.
        -- eapply Forall_impl; [exact Hc1 |]. intros nv.
           apply cap_ok_weaken; [auto |]. intros v. apply within_app_l.
      * rewrite <- app_assoc. exact Hk.
    + apply Hstop with (hi := hi) in H. exact H.
Qed.

Lemma rmatch_sound ic r :
  sound_step ic (lang ic r) (groups_of r) (rmatch ic r).
Proof.
  induction r as [| c | rs | r1 IH1 r2 IH2 | r1 IH1 r2 IH2 | r IH lo hi
                 | m r IH |]; intros prev s caps k o H;
    [simpl in H | simpl in H | simpl in H | simpl in H | simpl in H
    | change (rep_loop (rmatch ic r) (S (String.length s)) lo hi prev s caps k
              = Some o) in H
    | simpl in H | simpl in H].
  - exists "", s, prev, []. repeat split; auto.
  - destruct s as [| x s']; [discriminate |].
    destruct (chr_matches ic c x) eqn:Hc; [| discriminate].
    exists (String x ""), s', (Some x), []. repeat split; auto.
    exists x. auto.
  - destruct s as [| x s']; [discriminate |].
    destruct (cls_matches ic rs x) eqn:Hc; [| discriminate].
    exists (String x ""), s', (Some x), []. repeat split; auto.
    exists x. auto.
  - apply IH1 in H. destruct H as (a1 & s1 & p1 & new1 & -> & H1 & Hc1 & H).
    apply IH2 in H. destruct H as (a2 & s2 & p2 & new2 & -> & H2 & Hc2 & H).
    exists (a1 +:+ a2), s2, p2, (new2 ++ new1). repeat split.
    + now rewrite sapp_assoc.
    + exists a1, a2. auto.
    + apply Forall_app. split.
      * eapply Forall_impl; [exact Hc2 |]. intros nv.
        apply cap_ok_weaken.
        -- intros g Hg. simpl. apply in_or_app. auto.
        -- intros v. apply within_app_r.
      * eapply Forall_impl; [exact Hc1 |]. intros nv.
        apply cap_ok_weaken.
        -- intros g Hg. simpl. apply in_or_app. auto.
        -- intros v. apply within_app_l.
    + rewrite <- app_assoc. exact H.
  - destruct (rmatch ic r1 prev s caps k) as [o1 |] eqn:H1.
    + injection H as ->. apply IH1 in H1.
      destruct H1 as (a1 & s1 & p1 & new1 & -> & H1 & Hc1 & H).
      exists a1, s1, p1, new1. repeat split; auto.
      * simpl. auto.
      * eapply Forall_impl; [exact Hc1 |]. intros nv.
        apply cap_ok_weaken; [| auto].
        intros g Hg. simpl. apply in_or_app. auto.
    + apply IH2 in H.
      destruct H as (a1 & s1 & p1 & new1 & -> & H2 & Hc1 & H).
      exists a1, s1, p1, new1. repeat split; auto.
      * simpl. auto.
      * eapply Forall_impl; [exact Hc1 |]. intros nv.
        apply cap_ok_weaken; [| auto].
        intros g Hg. simpl. apply in_or_app. auto.
  - apply (rep_loop_sound ic (lang ic r) (groups_of r) (rmatch ic r) IH) in H.
    destruct H as (n & a & s' & p' & new & -> & Hlo & Hhi & Hp & Hc & H).
    exists a, s', p', new. repeat split; auto.
    simpl. exists n. auto.
  - apply IH in H. destruct H as (a & s' & p' & new & -> & Hl & Hc & H).
    rewrite take_sapp in H.
    exists a, s', p', ((m, a) :: new). repeat split; auto.
    constructor.
    + exists r. simpl. repeat split; auto. apply within_refl.
    + eapply Forall_impl; [exact Hc |]. intros nv.
      apply cap_ok_weaken; [| auto]. intros g Hg. simpl. auto.
  - destruct (xorb (is_word prev) (is_word (head s))); [| discriminate].
    exists "", s, prev, []. repeat split; auto.
Qed.

Lemma search_from_sound ic r :
  forall s prev o,
    search_from ic r prev s = Some o ->
    exists pre a,
      s = pre +:+ a +:+ snd o /\ lang ic r a
      /\ Forall (cap_ok ic (groups_of r) a) (fst o).
Proof.
  assert (Hhere : forall s prev o,
             rmatch ic r prev s [] finish = Some o ->
             exists pre a,
               s = pre +:+ a +:+ snd o /\ lang ic r a
               /\ Forall (cap_ok ic (groups_of r) a) (fst o)).
  { intros s prev o H. apply rmatch_sound in H.
    destruct H as (a & s' & p' & new & -> & Hl & Hc & H).
    unfold finish in H. injection H as <-. rewrite app_nil_r.
    exists "", a. auto. }
  induction s as [| c s IH]; intros prev o H; simpl in H.
  - destruct (rmatch ic r prev "" [] finish) as [o' |] eqn:Hm;
      [| discriminate].
    injection H as ->. eapply Hhere, Hm.
  - destruct (rmatch ic r prev (String c s) [] finish) as [o' |] eqn:Hm.
    + injection H as ->. eapply Hhere, Hm.
    + apply IH in H. destruct H as (pre & a & Hs & Hl & Hc).
      exists (String c pre), a. rewrite sapp_cons, <- Hs. auto.
Qed.

Lemma group_In n caps v : group n caps = Some v -> In (n, v) caps.
Proof.
  induction caps as [| [m x] caps IH]; simpl; [discriminate |].
  destruct (Nat.eqb m n) eqn:Hm.
  - apply Nat.eqb_eq in Hm. intros [= <-]. subst. auto.
  - auto.
Qed.

(** A group of a successful search holds a piece of the text, taken by
    the pattern inside a group of that number. *)
Lemma search_group ic r text caps n v :
  search ic r text = Some caps -> group n caps = Some v ->
  within v text /\ exists r', In (n, r') (groups_of r) /\ lang ic r' v.
Proof.
  intros H Hg. unfold search in H.
  destruct (search_from ic r None text) as [o |] eqn:Ho; [| discriminate].
  injection H as <-. apply search_from_sound in Ho.
  destruct Ho as (pre & a & Hs & _ & Hc).
  apply group_In in Hg. rewrite List.Forall_forall in Hc.
  destruct (Hc _ Hg) as (r' & Hin & Hl & Hw). simpl in *.
  split; [| eauto]. rewrite Hs. apply within_app_r, within_app_l, Hw.
Qed.

Lemma prefix_within (v a : string) :
  String.prefix v a = true -> exists y, a = v +:+ y.
Proof.
  revert a. induction v as [| c v IH]; intros a H.
  - exists a. reflexivity.
  - destruct a as [| x a]; [discriminate |]. simpl in H.
    destruct (Ascii.ascii_dec c x) as [<- | Hne]; [| discriminate].
    destruct (IH a H) as (y & ->). exists y. reflexivity.
Qed.

Lemma contains_within (v a : string) :
  Str.contains v a = true -> within v a.
Proof.
  induction a as [| c a IH]; intros H.
  - destruct v; [| discriminate]. apply within_refl.
  - change (Str.contains v (String c a))
      with (String.prefix v (String c a) || Str.contains v a) in H.
    apply orb_true_iff in H. destruct H as [H | H].
    + destruct (prefix_within _ _ H) as (y & ->). exists "", y. reflexivity.
    + destruct (IH H) as (x & y & ->). exists (String c x), y. reflexivity.
Qed.

End ReSound.

(* ===================================================================== *)
(** * The student identifier                                              *)
(* ===================================================================== *)

Lemma all_ascii_complete (p : ascii -> bool) :
  forallb p all_ascii = true -> forall x, p x = true.
Proof.
  intros H x. rewrite forallb_forall in H. apply H.
  unfold all_ascii. apply in_map_iff. exists (nat_of_ascii x).
  split; [apply ascii_nat_embedding |].
  apply in_seq. pose proof (nat_ascii_bounded x). lia.
Qed.

Lemma chars_imply (p q : ascii -> bool) :
  forallb (fun x => implb (p x) (q x)) all_ascii = true ->
  forall x, p x = true -> q x = true.
Proof.
  intros H x Hx. apply all_ascii_complete with (x := x) in H.
  cbv beta in H. rewrite Hx in H. exact H.
Qed.

Lemma all_chars_app p (a b : string) :
  all_chars p (a +:+ b) = all_chars p a && all_chars p b.
Proof.
  induction a as [| c a IH]; [reflexivity |].
  rewrite ReSound.sapp_cons. simpl. rewrite IH. now rewrite andb_assoc.
Qed.

Lemma all_chars_impl (p q : ascii -> bool) (s : string) :
  (forall x, p x = true -> q x = true) ->
  all_chars p s = true -> all_chars q s = true.
Proof.
  intros Hpq. induction s as [| c s IH]; [reflexivity |]. simpl.
  intros H. apply andb_true_iff in H. destruct H as [Hc Hs].
  rewrite (Hpq _ Hc). simpl. auto.
Qed.

Lemma power_all_chars (P : string -> Prop) p n a :
  (forall b, P b -> all_chars p b = true) ->
  ReSpec.power P n a -> all_chars p a = true.
Proof.
  intros HP. revert a. induction n as [| n IH]; simpl; intros a H.
  - subst a. reflexivity.
  - destruct H as (a1 & a2 & -> & H1 & H2). rewrite all_chars_app.
    rewrite (HP _ H1). simpl. auto.
Qed.

Lemma lang_all_chars ic r :
  forall a, ReSpec.lang ic r a -> all_chars (ReSpec.accepts ic r) a = true.
Proof.
  induction r as [| c | rs | r1 IH1 r2 IH2 | r1 IH1 r2 IH2 | r IH lo hi
                 | m r IH |]; simpl; intros a H.
  - subst a. reflexivity.
  - destruct H as (x & -> & H). simpl. now rewrite H.
  - destruct H as (x & -> & H). simpl. now rewrite H.
  - destruct H as (a1 & a2 & -> & H1 & H2). rewrite all_chars_app.
    apply andb_true_iff. split.
    + eapply all_chars_impl; [| apply IH1, H1]. intros x ->. reflexivity.
    + eapply all_chars_impl; [| apply IH2, H2]. intros x ->.
      apply orb_true_r.
  - destruct H as [H | H].
    + eapply all_chars_impl; [| apply IH1, H]. intros x ->. reflexivity.
    + eapply all_chars_impl; [| apply IH2, H]. intros x ->.
      apply orb_true_r.
  - destruct H as (n & _ & _ & H). eapply power_all_chars; [| exact H].
    exact IH.
  - auto.
  - subst a. reflexivity.
Qed.

Lemma power_cls_length ic rs n a :
  ReSpec.power (ReSpec.lang ic (Re.Cls rs)) n a -> String.length a = n.
Proof.
  revert a. induction n as [| n IH]; simpl; intros a H.
  - subst a. reflexivity.
  - destruct H as (a1 & a2 & -> & (x & -> & _) & H2).
    rewrite ReSound.sapp_cons. simpl. f_equal. apply IH, H2.
Qed.

(** What [\d{5}] takes is an admin number. *)
Lemma five_digits ic v :
  ReSpec.lang ic (Re.times Re.digit 5 5) v -> is_admin_number v = true.
Proof.
  intros H. pose proof (lang_all_chars _ _ _ H) as Hc.
  destruct H as (n & Hlo & Hhi & H). apply power_cls_length in H.
  unfold is_admin_number. replace (String.length v) with 5%nat by lia.
  simpl. eapply all_chars_impl; [| exact Hc].
  apply chars_imply. destruct ic; vm_compute; reflexivity.
Qed.

(** What the group of a name pattern takes is a name. *)
Lemma name_first_char ic r1 r2 v :
  ReSpec.lang ic (Re.Cat (Re.Cls r1) r2) v ->
  exists c rest, v = String c rest /\ Re.cls_matches ic r1 c = true.
Proof.
  simpl. intros (a1 & a2 & -> & (x & -> & Hx) & _). exists x, a2. auto.
Qed.

Lemma name_group ic r2 v :
  forallb (fun x => implb (ReSpec.accepts ic (Re.Cat Re.AZ r2) x)
                      (is_name_char x)) all_ascii = true ->
  ReSpec.lang ic (Re.Cat Re.AZ r2) v -> is_name v = true.
Proof.
  intros Hall H. pose proof (lang_all_chars _ _ _ H) as Hc.
  apply name_first_char in H. destruct H as (c & rest & -> & Hx).
  unfold is_name. apply andb_true_iff. split.
  - revert Hx. apply chars_imply. destruct ic; vm_compute; reflexivity.
  - eapply all_chars_impl; [| exact Hc]. apply chars_imply, Hall.
Qed.

Lemma within_contains (v a : string) :
  ReSpec.within v a -> Str.contains v a = true.
Proof.
  intros (x & y & ->). apply contains_app_r, contains_self_app.
Qed.

(** X10.  The student identifier found in a message of ASCII characters
    is a piece of the message as it was written, and it is either an
    admin number, five digits, or a name: letters and blanks that begin
    with a letter.  It is never empty. *)
Theorem X10_student_identifier_shape (text identifier : string) :
  is_ascii text = true ->
  _extract_student_identifier text = Some identifier ->
  Str.contains identifier text = true
  /\ (is_admin_number identifier = true \/ is_name identifier = true).
Proof.
  unfold _extract_student_identifier. intros _ H.
  destruct (Re.search false admin_pattern text) as [m |] eqn:H1.
  { destruct (ReSound.search_group _ _ _ _ _ _ H1 H) as (Hw & r' & Hin & Hl).
    split; [apply within_contains, Hw |]. left.
    simpl in Hin. destruct Hin as [[= <-] | []]. eapply five_digits, Hl. }
  destruct (Re.search false for_pattern text) as [m2 |] eqn:H2.
  { destruct (ReSound.search_group _ _ _ _ _ _ H2 H) as (Hw & r' & Hin & Hl).
    split; [apply within_contains, Hw |]. right.
    simpl in Hin. destruct Hin as [[= <-] | []].
    eapply name_group; [| exact Hl]. vm_compute. reflexivity. }
  destruct (Re.search false name_pattern text) as [m3 |] eqn:H3.
  { destruct (ReSound.search_group _ _ _ _ _ _ H3 H) as (Hw & r' & Hin & Hl).
    split; [apply within_contains, Hw |]. right.
    simpl in Hin. destruct Hin as [[= <-] | []].
    eapply name_group; [| exact Hl]. vm_compute. reflexivity. }
  destruct (Re.search true first_name_pattern text) as [m4 |] eqn:H4;
    [| discriminate].
  destruct (ReSound.search_group _ _ _ _ _ _ H4 H) as (Hw & r' & Hin & Hl).
  split; [apply within_contains, Hw |]. right.
  simpl in Hin. destruct Hin as [[= <-] | []].
  eapply name_group; [| exact Hl]. vm_compute. reflexivity.
Qed.

(** A concrete instance of X10. *)
Lemma X10_student_identifier_shape_witness :
  Str.contains "James" overnight_message = true
  /\ (is_admin_number "James" = true \/ is_name "James" = true).
Proof.
  apply (X10_student_identifier_shape overnight_message "James" eq_refl
           eq_refl).
Defined.

(* ===================================================================== *)
(** * A date keeps its year, month and day                                *)
(* ===================================================================== *)

Lemma In_Z_range (lo : Z) (n : nat) (x : Z) :
  lo <= x < lo + Z.of_nat n -> In x (Z_range lo n).
Proof.
  intros H. unfold Z_range. apply in_map_iff.
  exists (Z.to_nat (x - lo)). split; [lia |].
  apply in_seq. lia.
Qed.

Lemma same_ymd_eq (p : Z * Z * Z) (year month day : Z) :
  same_ymd p year month day = true -> p = (year, month, day).
Proof.
  destruct p as [[y m] d]. unfold same_ymd. intros Hk.
  apply andb_true_iff in Hk. destruct Hk as [Hk Hd].
  apply andb_true_iff in Hk. destruct Hk as [Hy Hm].
  apply Z.eqb_eq in Hy, Hm, Hd. congruence.
Qed.

(** [_ord2ymd] first finds the year and the day of the year, then the
    month and the day. *)
Lemma ord2ymd_month_day (n0 : Z) :
  DT.ord2ymd n0
  = let n := n0 - 1 in
    let n400 := n / DT.DI400Y in
    let n := n mod DT.DI400Y in
    let n100 := n / DT.DI100Y in
    let n := n mod DT.DI100Y in
    let n4 := n / DT.DI4Y in
    let n := n mod DT.DI4Y in
    let n1 := n / 365 in
    let n := n mod 365 in
    let year := n400 * 400 + 1 + n100 * 100 + n4 * 4 + n1 in
    if (n1 =? 4) || (n100 =? 4) then (year - 1, 12, 31)
    else
      let '(month, day) :=
        month_day ((n1 =? 3) && (negb (n4 =? 24) || (n100 =? 3))) n in
      (year, month, day).
Proof.
  unfold DT.ord2ymd, month_day. cbv zeta.
  destruct ((_ =? 4) || (_ =? 4)); [reflexivity |].
  match goal with |- (if ?c then _ else _) = _ => destruct c end;
    reflexivity.
Qed.

(** The years of the first cycle. *)
Lemma years_ok : forallb year_ok (Z_range 1 400) = true.
Proof. vm_compute. reflexivity. Qed.

(** The months and days of a year. *)
Lemma months_ok :
  forallb (fun leapyear =>
    forallb (fun month =>
      forallb (fun day =>
                 implb (day <=? days_in leapyear month)
                   (let '(m, d) :=
                      month_day leapyear
                        (days_before leapyear month + day - 1) in
                    (m =? month) && (d =? day)))
        (Z_range 1 31))
      (Z_range 1 12))
    [true; false] = true.
Proof. vm_compute. reflexivity. Qed.

Lemma month_day_days_before (leapyear : bool) (month day : Z) :
  1 <= month <= 12 -> 1 <= day <= days_in leapyear month ->
  month_day leapyear (days_before leapyear month + day - 1) = (month, day).
Proof.
  intros Hm Hd.
  assert (Hd31 : day <= 31).
  { assert (days_in leapyear month <= 31); [| lia].
    unfold days_in. destruct ((month =? 2) && leapyear); [lia |].
    assert (Hcases : In month (Z_range 1 12)) by (apply In_Z_range; lia).
    vm_compute in Hcases.
    repeat (destruct Hcases as [<- | Hcases]; [vm_compute; discriminate |]).
    destruct Hcases. }
  pose proof (proj1 (forallb_forall _ _) months_ok leapyear
                ltac:(destruct leapyear; simpl; auto)) as H1.
  pose proof (proj1 (forallb_forall _ _) H1 month
                (In_Z_range 1 12 month ltac:(lia))) as H2.
  pose proof (proj1 (forallb_forall _ _) H2 day
                (In_Z_range 1 31 day ltac:(lia))) as H3.
  cbv beta in H3.
  replace (day <=? days_in leapyear month) with true in H3
    by (symmetry; apply Z.leb_le; lia).
  simpl implb in H3.
  destruct (month_day leapyear (days_before leapyear month + day - 1))
    as [m d].
  apply andb_true_iff in H3. destruct H3 as [H3 H4].
  apply Z.eqb_eq in H3, H4. congruence.
Qed.

Lemma days_before_upper (leapyear : bool) (month day : Z) :
  1 <= month <= 12 -> 1 <= day <= days_in leapyear month ->
  0 <= days_before leapyear month + day - 1 <= 365
  /\ (days_before leapyear month + day - 1 = 365 ->
      leapyear = true /\ month = 12 /\ day = 31).
Proof.
  intros Hm Hd.
  assert (Hcases : In month (Z_range 1 12)) by (apply In_Z_range; lia).
  vm_compute in Hcases.
  unfold days_before, days_in in *.
  repeat (destruct Hcases as [<- | Hcases];
          [destruct leapyear; simpl in *; lia |]).
  destruct Hcases.
Qed.

(** The first 365 days of a year of the first cycle. *)
Lemma ord2ymd_in_year (year k : Z) :
  1 <= year <= 400 -> 0 <= k <= 364 ->
  DT.ord2ymd (DT.days_before_year year + k + 1)
  = let '(month, day) := month_day (DT.is_leap year) k in (year, month, day).
Proof.
  intros Hy Hk.
  pose proof (proj1 (forallb_forall _ _) years_ok year
                (In_Z_range 1 400 year ltac:(lia))) as H.
  unfold year_ok in H. cbv zeta in H.
  repeat (apply andb_true_iff in H; destruct H as [H ?]).
  set (a := DT.days_before_year year) in *.
  rewrite ord2ymd_month_day. cbv zeta.
  replace (a + k + 1 - 1) with (a + k) by lia.
  unfold DT.DI400Y, DT.DI100Y, DT.DI4Y in *.
  repeat match goal with
         | H : (_ =? _) = true |- _ => apply Z.eqb_eq in H
         | H : (_ <=? _) = true |- _ => apply Z.leb_le in H
         | H : (_ <? _) = true |- _ => apply Z.ltb_lt in H
         | H : negb (_ =? _) = true |- _ =>
             apply negb_true_iff in H; apply Z.eqb_neq in H
         | H : Bool.eqb _ _ = true |- _ => apply Bool.eqb_prop in H
         end.
  assert (E0 : (a + k) / 146097 = 0) by (Z.div_mod_to_equations; lia).
  assert (E1 : (a + k) mod 146097 = a + k) by (Z.div_mod_to_equations; lia).
  rewrite E0, E1.
  assert (Q1 : (a + k) / 36524 = a / 36524)
    by (Z.div_mod_to_equations; lia).
  assert (R1 : (a + k) mod 36524 = a mod 36524 + k)
    by (Z.div_mod_to_equations; lia).
  rewrite Q1, R1.
  assert (Q2 : (a mod 36524 + k) / 1461 = a mod 36524 / 1461)
    by (Z.div_mod_to_equations; lia).
  assert (R2 : (a mod 36524 + k) mod 1461 = a mod 36524 mod 1461 + k)
    by (Z.div_mod_to_equations; lia).
  rewrite Q2, R2.
  assert (Q3 : (a mod 36524 mod 1461 + k) / 365
               = a mod 36524 mod 1461 / 365)
    by (Z.div_mod_to_equations; lia).
  assert (R3 : (a mod 36524 mod 1461 + k) mod 365 = k)
    by (Z.div_mod_to_equations; lia).
  rewrite Q3, R3.
  replace (a mod 36524 mod 1461 / 365 =? 4) with false
    by (symmetry; apply Z.eqb_neq; assumption).
  replace (a / 36524 =? 4) with false
    by (symmetry; apply Z.eqb_neq; assumption).
  cbn [orb].
  match goal with
  | Hl : _ = DT.is_leap year |- _ => rewrite Hl
  end.
  destruct (month_day (DT.is_leap year) k) as [m d].
  f_equal. f_equal. lia.
Qed.

Lemma keeps_ymd_cycle (year month day : Z) :
  1 <= year <= 400 -> 1 <= month <= 12 ->
  1 <= day <= DT.days_in_month year month ->
  same_ymd (DT.ord2ymd (DT.ymd2ord year month day)) year month day = true.
Proof.
  intros Hy Hm Hd.
  assert (Hd' : 1 <= day <= days_in (DT.is_leap year) month) by exact Hd.
  destruct (days_before_upper _ _ _ Hm Hd') as [Hk Hlast].
  assert (Ho : DT.ymd2ord year month day
               = DT.days_before_year year
                 + (days_before (DT.is_leap year) month + day - 1) + 1).
  { unfold DT.ymd2ord, DT.days_before_month, days_before. lia. }
  rewrite Ho.
  destruct (Z.eq_dec (days_before (DT.is_leap year) month + day - 1) 365)
    as [He | Hne].
  - destruct (Hlast He) as (Hl & -> & ->). rewrite He.
    pose proof (proj1 (forallb_forall _ _) years_ok year
                  (In_Z_range 1 400 year ltac:(lia))) as H.
    unfold year_ok in H. cbv zeta in H.
    apply andb_true_iff in H. destruct H as [_ H]. rewrite Hl in H.
    replace (DT.days_before_year year + 365 + 1)
      with (DT.days_before_year year + 366) by lia.
    exact H.
  - rewrite ord2ymd_in_year by lia.
    rewrite (month_day_days_before _ _ _ Hm Hd').
    unfold same_ymd. now rewrite !Z.eqb_refl.
Qed.

Lemma is_leap_shift (year : Z) : DT.is_leap (year + 400) = DT.is_leap year.
Proof.
  unfold DT.is_leap.
  replace ((year + 400) mod 4) with (year mod 4)
    by (Z.div_mod_to_equations; lia).
  replace ((year + 400) mod 100) with (year mod 100)
    by (Z.div_mod_to_equations; lia).
  replace ((year + 400) mod 400) with (year mod 400)
    by (Z.div_mod_to_equations; lia).
  reflexivity.
Qed.

Lemma days_before_year_shift (year : Z) :
  DT.days_before_year (year + 400) = DT.days_before_year year + 146097.
Proof. unfold DT.days_before_year. Z.div_mod_to_equations. lia. Qed.

Lemma days_in_month_shift (year month : Z) :
  DT.days_in_month (year + 400) month = DT.days_in_month year month.
Proof. unfold DT.days_in_month. now rewrite is_leap_shift. Qed.

Lemma ymd2ord_shift (year month day : Z) :
  DT.ymd2ord (year + 400) month day = DT.ymd2ord year month day + 146097.
Proof.
  unfold DT.ymd2ord, DT.days_before_month.
  rewrite days_before_year_shift, is_leap_shift. lia.
Qed.

Lemma ord2ymd_shift (n : Z) :
  DT.ord2ymd (n + 146097)
  = let '(y, m, d) := DT.ord2ymd n in (y + 400, m, d).
Proof.
  unfold DT.ord2ymd, DT.DI400Y.
  replace ((n + 146097 - 1) / 146097) with ((n - 1) / 146097 + 1)
    by (Z.div_mod_to_equations; lia).
  replace ((n + 146097 - 1) mod 146097) with ((n - 1) mod 146097)
    by (Z.div_mod_to_equations; lia).
  cbv zeta.
  set (r := (n - 1) mod 146097).
  set (q := (n - 1) / 146097).
  replace ((q + 1) * 400 + 1 + r / DT.DI100Y * 100
           + r mod DT.DI100Y / DT.DI4Y * 4
           + r mod DT.DI100Y mod DT.DI4Y / 365)
    with (q * 400 + 1 + r / DT.DI100Y * 100
          + r mod DT.DI100Y / DT.DI4Y * 4
          + r mod DT.DI100Y mod DT.DI4Y / 365 + 400) by lia.
  set (year := q * 400 + 1 + r / DT.DI100Y * 100
               + r mod DT.DI100Y / DT.DI4Y * 4
               + r mod DT.DI100Y mod DT.DI4Y / 365).
  destruct ((r mod DT.DI100Y mod DT.DI4Y / 365 =? 4) || (r / DT.DI100Y =? 4)).
  - f_equal. f_equal. lia.
  - match goal with |- (if ?c then _ else _) = _ => destruct c end;
      reflexivity.
Qed.

Lemma keeps_ymd_shift (year month day : Z) :
  same_ymd (DT.ord2ymd (DT.ymd2ord year month day)) year month day = true ->
  same_ymd (DT.ord2ymd (DT.ymd2ord (year + 400) month day)) (year + 400)
    month day = true.
Proof.
  rewrite ymd2ord_shift, ord2ymd_shift.
  destruct (DT.ord2ymd (DT.ymd2ord year month day)) as [[y m] d].
  unfold same_ymd.
  intros H. apply andb_true_iff in H. destruct H as [H Hd].
  apply andb_true_iff in H. destruct H as [Hy Hm].
  rewrite Hm, Hd. apply Z.eqb_eq in Hy. subst y.
  rewrite Z.eqb_refl. reflexivity.
Qed.

Lemma keeps_ymd_all (k : nat) :
  forall year month day,
    1 <= year <= 400 * (Z.of_nat k + 1) -> 1 <= month <= 12 ->
    1 <= day <= DT.days_in_month year month ->
    same_ymd (DT.ord2ymd (DT.ymd2ord year month day)) year month day = true.
Proof.
  induction k as [| k IH]; intros year month day Hy Hm Hd.
  - apply keeps_ymd_cycle; [lia | exact Hm | exact Hd].
  - destruct (Z_le_gt_dec year 400) as [Hle | Hgt].
    + apply keeps_ymd_cycle; [lia | exact Hm | exact Hd].
    + replace year with (year - 400 + 400) by lia.
      apply keeps_ymd_shift, IH; [lia | exact Hm |].
      rewrite <- days_in_month_shift.
      replace (year - 400 + 400) with year by lia. exact Hd.
Qed.

(** [datetime(year, month, day)] shows the year, the month and the day it
    was built from. *)
Lemma ord2ymd_ymd2ord (year month day : Z) :
  DT.check_date_fields year month day = true ->
  DT.ord2ymd (DT.ymd2ord year month day) = (year, month, day).
Proof.
  intros H. unfold DT.check_date_fields, DT.MINYEAR, DT.MAXYEAR in H.
  repeat (apply andb_true_iff in H; destruct H as [H ?]).
  apply same_ymd_eq. apply (keeps_ymd_all 24); lia.
Qed.

(* ===================================================================== *)
(** * A date written day/month/year is read back                          *)
(* ===================================================================== *)

Module StrptimeFacts.

Import Re Strptime ReSound.

Lemma take_two (c1 c2 : ascii) (rest : string) :
  Str.take (String.length (String c1 (String c2 rest)) - String.length rest)
    (String c1 (String c2 rest))
  = String c1 (String c2 "").
Proof.
  change (String c1 (String c2 rest)) with (String c1 (String c2 "") +:+ rest).
  apply take_sapp.
Qed.

Ltac two_digit_value :=
  match goal with
  | |- context [two_digit ?n] =>
      let v := eval vm_compute in (two_digit n) in
      change (two_digit n) with v
  end.

Ltac one_directive c :=
  let r := eval vm_compute in (directive_regex c) in
  change (directive_regex c) with r;
  rewrite !sapp_cons, ?sapp_nil_l;
  cbn [rmatch alts chr_matches cls_matches in_ranges existsb in_range
       Str.lower_char Str.upper_char nat_of_ascii ascii_of_nat fst snd
       andb orb Nat.leb Ascii.eqb Bool.eqb digit];
  rewrite ?take_two.

Lemma rmatch_day (dd : Z) :
  1 <= dd <= 31 ->
  forall rest prev caps (k : cont) o,
    (forall p', k p' rest ((g_d, two_digit dd) :: caps) = Some o) ->
    rmatch true (directive_regex "d") prev (two_digit dd +:+ rest) caps k
    = Some o.
Proof.
  intros Hd rest prev caps k o Hk.
  assert (Hcases : In dd (Z_range 1 31)) by (apply In_Z_range; lia).
  vm_compute in Hcases.
  repeat (destruct Hcases as [<- | Hcases];
          [two_digit_value; revert Hk; two_digit_value; intros Hk;
           one_directive "d"%char; rewrite Hk; reflexivity |]).
  destruct Hcases.
Qed.

Lemma rmatch_month (m : Z) :
  1 <= m <= 12 ->
  forall rest prev caps (k : cont) o,
    (forall p', k p' rest ((g_m, two_digit m) :: caps) = Some o) ->
    rmatch true (directive_regex "m") prev (two_digit m +:+ rest) caps k
    = Some o.
Proof.
  intros Hd rest prev caps k o Hk.
  assert (Hcases : In m (Z_range 1 12)) by (apply In_Z_range; lia).
  vm_compute in Hcases.
  repeat (destruct Hcases as [<- | Hcases];
          [two_digit_value; revert Hk; two_digit_value; intros Hk;
           one_directive "m"%char; rewrite Hk; reflexivity |]).
  destruct Hcases.
Qed.

Lemma cls_digit ic (x : ascii) :
  is_digit x = true -> cls_matches ic [("0", "9")]%char x = true.
Proof. unfold is_digit, cls_matches. intros ->. reflexivity. Qed.

Lemma rmatch_year (Y : string) :
  four_digits Y = true ->
  forall rest prev caps (k : cont) o,
    (forall p', k p' rest ((g_Y, Y) :: caps) = Some o) ->
    rmatch true (directive_regex "Y") prev (Y +:+ rest) caps k = Some o.
Proof.
  intros HY rest prev caps k o Hk.
  destruct Y as [| a [| b [| c [| d [| e Y]]]]]; try discriminate.
  simpl in HY.
  apply andb_true_iff in HY. destruct HY as [HY Hd].
  apply andb_true_iff in HY. destruct HY as [HY Hc].
  apply andb_true_iff in HY. destruct HY as [Ha Hb].
  let r := eval vm_compute in (directive_regex "Y") in
  change (directive_regex "Y") with r.
  rewrite !sapp_cons, sapp_nil_l. cbn [rmatch].
  rewrite !cls_digit by assumption.
  change (String a (String b (String c (String d rest))))
    with (String a (String b (String c (String d ""))) +:+ rest).
  rewrite take_sapp. apply Hk.
Qed.

(** The digits of a number and its value. *)
Lemma digit_char_facts (k : Z) :
  0 <= k <= 9 ->
  is_digit (digit_char k) = true
  /\ Str.digit_val (digit_char k) = k
  /\ Ascii.eqb (digit_char k) " " = false.
Proof.
  intros H.
  assert (Hcases : In k (Z_range 0 10)) by (apply In_Z_range; lia).
  vm_compute in Hcases.
  repeat (destruct Hcases as [<- | Hcases];
          [vm_compute; repeat split; reflexivity |]).
  destruct Hcases.
Qed.

Lemma year_text (y : Z) :
  1 <= y <= 9999 ->
  four_digits (four_digit y) = true /\ Str.to_Z (four_digit y) = y.
Proof.
  intros H. unfold four_digit.
  destruct (digit_char_facts (y / 1000)) as (A1 & A2 & A3);
    [Z.div_mod_to_equations; lia |].
  destruct (digit_char_facts (y / 100 mod 10)) as (B1 & B2 & B3);
    [Z.div_mod_to_equations; lia |].
  destruct (digit_char_facts (y / 10 mod 10)) as (C1 & C2 & C3);
    [Z.div_mod_to_equations; lia |].
  destruct (digit_char_facts (y mod 10)) as (D1 & D2 & D3);
    [Z.div_mod_to_equations; lia |].
  split.
  - unfold four_digits. now rewrite A1, B1, C1, D1.
  - unfold Str.to_Z. cbn [Str.to_Z_acc].
    rewrite A3, B3, C3, D3, A2, B2, C2, D2.
    Z.div_mod_to_equations. lia.
Qed.

Lemma two_digit_text (n : Z) :
  1 <= n <= 31 -> Str.to_Z (two_digit n) = n.
Proof.
  intros H. unfold two_digit.
  destruct (digit_char_facts (n / 10)) as (A1 & A2 & A3);
    [Z.div_mod_to_equations; lia |].
  destruct (digit_char_facts (n mod 10)) as (B1 & B2 & B3);
    [Z.div_mod_to_equations; lia |].
  unfold Str.to_Z. cbn [Str.to_Z_acc]. rewrite A3, B3, A2, B2.
  Z.div_mod_to_equations. lia.
Qed.

Lemma match_numeric_text (year month day : Z) :
  1 <= year <= 9999 -> 1 <= month <= 12 -> 1 <= day <= 31 ->
  match_ true (format_regex "%d/%m/%Y") (numeric_text year month day)
  = Some ([(g_Y, four_digit year); (g_m, two_digit month);
           (g_d, two_digit day)], "").
Proof.
  intros Hy Hm Hd. unfold match_, numeric_text.
  cbn [format_regex]. cbn [rmatch].
  apply rmatch_day; [exact Hd |]. intros p1.
  rewrite sapp_cons, sapp_nil_l. cbn [rmatch].
  change (chr_matches true "/" "/") with true. cbv iota.
  apply rmatch_month; [exact Hm |]. intros p2.
  rewrite sapp_cons, sapp_nil_l. cbn [rmatch].
  change (chr_matches true "/" "/") with true. cbv iota.
  rewrite <- (sapp_nil_r (four_digit year)).
  apply rmatch_year; [apply year_text, Hy |]. intros p3.
  rewrite sapp_nil_r. reflexivity.
Qed.

Lemma strptime_numeric_text (year month day : Z) :
  DT.check_date_fields year month day = true ->
  strptime (numeric_text year month day) "%d/%m/%Y"
  = Ok (DT.make year month day 0 0).
Proof.
  intros Hc. pose proof Hc as H.
  unfold DT.check_date_fields, DT.MINYEAR, DT.MAXYEAR in H.
  repeat (apply andb_true_iff in H; destruct H as [H ?]).
  assert (Hd : 1 <= day <= 31).
  { assert (DT.days_in_month year month <= 31); [| lia].
    unfold DT.days_in_month.
    destruct ((month =? 2) && DT.is_leap year); [lia |].
    assert (Hcases : In month (Z_range 1 12)) by (apply In_Z_range; lia).
    vm_compute in Hcases.
    repeat (destruct Hcases as [<- | Hcases]; [vm_compute; discriminate |]).
    destruct Hcases. }
  unfold strptime.
  rewrite match_numeric_text by lia.
  unfold year_of, month_of, int_group.
  cbn [group g_Y g_m g_d g_y g_B g_b Nat.eqb option_map].
  rewrite (proj2 (year_text year ltac:(lia))).
  rewrite !two_digit_text by lia.
  rewrite Hc. reflexivity.
Qed.

End StrptimeFacts.

(** X11.  A date of the calendar written as day/month/year, with two
    digits for the day and the month and four for the year, is read as
    that day at midnight: the first format of [_parse_date_string]
    takes it. *)
Theorem X11_written_date_is_read (year month day : Z) :
  DT.check_date_fields year month day = true ->
  _parse_date_string (numeric_text year month day)
  = Some (DT.make year month day 0 0).
Proof.
  intros Hc. unfold _parse_date_string, formats. cbn [try_formats].
  now rewrite StrptimeFacts.strptime_numeric_text.
Qed.

(** A concrete instance of X11. *)
Lemma X11_written_date_is_read_witness :
  _parse_date_string (numeric_text 2024 2 29)
  = Some (DT.make 2024 2 29 0 0).
Proof. apply (X11_written_date_is_read 2024 2 29 eq_refl). Defined.

(** The directives of [strftime] on a date of the calendar. *)
Lemma directive_make (year month day hh mm : Z) (c : ascii) :
  DT.check_date_fields year month day = true ->
  DT.directive (DT.make year month day hh mm) c
  = if Ascii.eqb c "d" then Str.pad 2 day
    else if Ascii.eqb c "B" then month_name month
    else if Ascii.eqb c "b" then Str.take 3 (month_name month)
    else if Ascii.eqb c "Y" then Str.pad 4 year
    else if Ascii.eqb c "H" then Str.pad 2 hh
    else if Ascii.eqb c "M" then Str.pad 2 mm
    else if Ascii.eqb c "A" then day_name (DT.make year month day hh mm)
    else String "%" (String c EmptyString).
Proof.
  intros Hc. unfold DT.directive. cbn [ordinal DT.make].
  rewrite (ord2ymd_ymd2ord _ _ _ Hc). reflexivity.
Qed.

Lemma strftime_long (year month day hh mm : Z) :
  DT.check_date_fields year month day = true ->
  DT.strftime (DT.make year month day hh mm) "%A %d %B %Y at %H:%M"
  = long_date year month day hh mm.
Proof.
  intros Hc. cbn [DT.strftime]. rewrite !(directive_make _ _ _ _ _ _ Hc).
  rewrite ReSound.sapp_nil_r. reflexivity.
Qed.

(** X12.  The approval message shows the window of the request: for a
    start and an end that are dates of the calendar, in years of four
    digits, the message holds "Dates: " followed by the name of the day
    of the week, the day, the name of the month, the year and the time of
    the start, " to ", and the same of the end. *)
Theorem X12_approval_shows_the_dates (lr : LeaveRequest)
  (new_balance : option Z) (balance_type : option string)
  (y1 m1 d1 hh1 mm1 y2 m2 d2 hh2 mm2 : Z) :
  DT.check_date_fields y1 m1 d1 = true ->
  DT.check_date_fields y2 m2 d2 = true ->
  1000 <= y1 -> 1000 <= y2 ->
  start_date lr = Some (DT.make y1 m1 d1 hh1 mm1) ->
  end_date lr = Some (DT.make y2 m2 d2 hh2 mm2) ->
  exists message,
    _format_approval_message lr new_balance balance_type = Ok message
    /\ Str.contains
         ("Dates: " +:+ long_date y1 m1 d1 hh1 mm1 +:+ " to "
          +:+ long_date y2 m2 d2 hh2 mm2) message = true.
Proof.
  intros H1 H2 _ _ Hs He. unfold _format_approval_message. rewrite Hs, He.
  cbn [strftime_opt rbind]. rewrite (strftime_long _ _ _ _ _ H1).
  rewrite (strftime_long _ _ _ _ _ H2).
  destruct new_balance as [b |]; eexists; (split; [reflexivity |]).
  - apply contains_app_l. contains_part.
  - contains_part.
Qed.

(** A concrete instance of X12. *)
Lemma X12_approval_shows_the_dates_witness :
  exists message,
    _format_approval_message saturday_overnight_request (Some 2)
      (Some "overnight") = Ok message
    /\ Str.contains
         "Dates: Saturday 08 February 2025 at 14:00 to Sunday 09 February 2025 at 18:50"
         message = true.
Proof.
  apply (X12_approval_shows_the_dates saturday_overnight_request (Some 2)
           (Some "overnight") 2025 2 8 14 0 2025 2 9 18 50 eq_refl eq_refl
           ltac:(lia) ltac:(lia) eq_refl eq_refl).
Defined.

(* ===================================================================== *)
(** * [split] and [strip]                                                 *)
(* ===================================================================== *)

Module PyStrFacts.

Import PyStr ReSound.

Lemma prefix_drop (sep s : string) :
  String.prefix sep s = true -> s = sep +:+ drop (String.length sep) s.
Proof.
  revert s. induction sep as [| c sep IH]; intros s H; [reflexivity |].
  destruct s as [| x s]; [discriminate |]. simpl in H.
  destruct (Ascii.ascii_dec c x) as [<- | Hne]; [| discriminate].
  rewrite sapp_cons. simpl. f_equal. apply IH, H.
Qed.

Lemma split_once_eq (sep s : string) :
  split_once sep s
  = if String.prefix sep s then Some ("", drop (String.length sep) s)
    else
      match s with
      | EmptyString => None
      | String c s' =>
          match split_once sep s' with
          | Some (before, after) => Some (String c before, after)
          | None => None
          end
      end.
Proof. destruct s; reflexivity. Qed.

Lemma contains_eq (sep s : string) :
  Str.contains sep s
  = String.prefix sep s
    || match s with
       | EmptyString => false
       | String _ s' => Str.contains sep s'
       end.
Proof. destruct s; reflexivity. Qed.

Lemma split_once_found (sep s : string) :
  Str.contains sep s = true ->
  exists before after, split_once sep s = Some (before, after).
Proof.
  induction s as [| c s IH]; rewrite contains_eq, split_once_eq; intros H.
  - rewrite orb_false_r in H. rewrite H. eauto.
  - destruct (String.prefix sep (String c s)); [eauto |]. simpl in H.
    destruct (IH H) as (before & after & ->). eauto.
Qed.

Lemma split_once_parts (sep s before after : string) :
  split_once sep s = Some (before, after) ->
  s = before +:+ sep +:+ after.
Proof.
  revert before. induction s as [| c s IH]; intros before;
    rewrite split_once_eq; intros H.
  - destruct (String.prefix sep "") eqn:Hp; [| discriminate].
    injection H as <- <-. apply prefix_drop in Hp. exact Hp.
  - destruct (String.prefix sep (String c s)) eqn:Hp.
    + injection H as <- <-. apply prefix_drop in Hp. exact Hp.
    + destruct (split_once sep s) as [[b a] |]; [| discriminate].
      injection H as <- <-. rewrite sapp_cons. f_equal. apply IH.
      reflexivity.
Qed.

(** The occurrence at which [split_once] cuts is the first one. *)
Lemma split_once_first (sep s before after : string) :
  split_once sep s = Some (before, after) ->
  forall before' after',
    s = before' +:+ sep +:+ after' ->
    (String.length before <= String.length before')%nat.
Proof.
  revert before. induction s as [| c s IH]; intros before;
    rewrite split_once_eq; intros H b' a' Hs.
  - destruct (String.prefix sep ""); [| discriminate].
    injection H as <- _. simpl. lia.
  - destruct (String.prefix sep (String c s)) eqn:Hp.
    + injection H as <- _. simpl. lia.
    + destruct (split_once sep s) as [[b a] |] eqn:Hsp; [| discriminate].
      injection H as <- <-.
      destruct b' as [| x b'].
      * rewrite sapp_nil_l in Hs. rewrite Hs in Hp.
        rewrite prefix_self_app in Hp. discriminate.
      * rewrite sapp_cons in Hs. injection Hs as <- Hs. simpl.
        apply le_n_S. eapply IH; [reflexivity | exact Hs].
Qed.

(** Texts in lower case. *)
Lemma lower_char_idem (c : ascii) :
  Str.lower_char (Str.lower_char c) = Str.lower_char c.
Proof.
  apply Ascii.eqb_eq. revert c. apply all_ascii_complete.
  vm_compute. reflexivity.
Qed.

Lemma lower_idem (s : string) : Str.lower (Str.lower s) = Str.lower s.
Proof.
  induction s as [| c s IH]; [reflexivity |]. simpl.
  now rewrite lower_char_idem, IH.
Qed.

Lemma lower_length (s : string) :
  String.length (Str.lower s) = String.length s.
Proof. induction s as [| c s IH]; [reflexivity |]. simpl. now rewrite IH. Qed.

Lemma sapp_inj (a a' b b' : string) :
  String.length a = String.length a' ->
  a +:+ b = a' +:+ b' -> a = a' /\ b = b'.
Proof.
  revert a'. induction a as [| c a IH]; intros [| c' a'] Hl H;
    try discriminate.
  - auto.
  - rewrite !sapp_cons in H. injection H as <- H. simpl in Hl.
    destruct (IH a' ltac:(lia) H) as [-> ->]. auto.
Qed.

(** A piece of a text in lower case is in lower case. *)
Lemma lower_piece (s a b c : string) :
  Str.lower s = s -> s = a +:+ b +:+ c -> Str.lower b = b.
Proof.
  intros Hl ->. rewrite !lower_app in Hl.
  apply sapp_inj in Hl; [| apply lower_length]. destruct Hl as [_ Hl].
  apply sapp_inj in Hl; [| apply lower_length]. tauto.
Qed.

Lemma lower_cons_inv c s :
  Str.lower (String c s) = String c s ->
  Str.lower_char c = c /\ Str.lower s = s.
Proof. simpl. intros [= H1 H2]. auto. Qed.

Lemma lstrip_lower (s : string) :
  Str.lower s = s -> Str.lower (lstrip s) = lstrip s.
Proof.
  induction s as [| c s IH]; [reflexivity |]. intros H.
  pose proof (lower_cons_inv _ _ H) as [Hc Hs]. simpl lstrip.
  destruct (is_space c); [apply IH, Hs | exact H].
Qed.

Lemma rstrip_lower (s : string) :
  Str.lower s = s -> Str.lower (rstrip s) = rstrip s.
Proof.
  induction s as [| c s IH]; [reflexivity |]. intros H.
  pose proof (lower_cons_inv _ _ H) as [Hc Hs]. specialize (IH Hs).
  simpl rstrip. destruct (rstrip s) as [| x t].
  - destruct (is_space c); [reflexivity |]. simpl. now rewrite Hc.
  - simpl. simpl in IH. now rewrite Hc, IH.
Qed.

Lemma strip_lower (s : string) :
  Str.lower s = s -> Str.lower (strip s) = strip s.
Proof. intros H. apply rstrip_lower, lstrip_lower, H. Qed.

(** [strip] leaves no blank at either end. *)
Lemma lstrip_head (s : string) :
  match lstrip s with
  | String c _ => is_space c = false
  | EmptyString => True
  end.
Proof.
  induction s as [| c s IH]; [exact I |]. simpl.
  destruct (is_space c) eqn:Hc; [exact IH | exact Hc].
Qed.

End PyStrFacts.

(* ===================================================================== *)
(** * The housemaster path                                                *)
(* ===================================================================== *)

Lemma nonempty_app c (a b : string) : String c a +:+ b <> "".
Proof. rewrite ReSound.sapp_cons. discriminate. Qed.

Lemma hm_bind_call {S A B : Type} (t : World S -> A * World S)
  (k : A -> HM S B) (w w' : World S) (a : A) :
  t w = (a, w') -> hm_bind (hm_call t) k w = k a w'.
Proof. intros H. unfold hm_bind, hm_call. now rewrite H. Qed.

(** The admin number of a match is set, has five digits and is a piece of
    the text. *)
Lemma admin_number_shape (text : string) (m : Re.captures) :
  Re.search false admin_pattern text = Some m ->
  Re.group 1 m = Some (admin_number_of m)
  /\ is_admin_number (admin_number_of m) = true
  /\ Str.contains (admin_number_of m) text = true.
Proof.
  intros H. unfold admin_number_of.
  destruct (ReFacts.search_has false 1 admin_pattern text m eq_refl H)
    as (v & Hv).
  rewrite Hv. cbn [str_opt]. split; [reflexivity |].
  destruct (ReSound.search_group _ _ _ _ _ _ H Hv) as (Hw & r' & Hin & Hl).
  split; [| apply within_contains, Hw].
  simpl in Hin. destruct Hin as [[= <-] | []]. eapply five_digits, Hl.
Qed.

Lemma cancellation_reason_cases {S : Type} (message_text : string)
  (w : World S) :
  exists reason,
    cancellation_reason message_text w = (HmOk reason, w)
    /\ (reason = "Housemaster decision" \/ Str.lower reason = reason)
    /\ (Str.contains "because" (Str.lower message_text) = true ->
        exists before after,
          Str.lower message_text = before +:+ "because" +:+ after
          /\ (forall before' after',
                 Str.lower message_text = before' +:+ "because" +:+ after' ->
                 (String.length before <= String.length before')%nat)
          /\ reason = PyStr.strip after)
    /\ (Str.contains "because" (Str.lower message_text) = false ->
        Str.contains "reason:" (Str.lower message_text) = true ->
        exists before after,
          Str.lower message_text = before +:+ "reason:" +:+ after
          /\ (forall before' after',
                 Str.lower message_text = before' +:+ "reason:" +:+ after' ->
                 (String.length before <= String.length before')%nat)
          /\ reason = PyStr.strip after)
    /\ (Str.contains "because" (Str.lower message_text) = false ->
        Str.contains "reason:" (Str.lower message_text) = false ->
        reason = "Housemaster decision").
Proof.
  assert (Hsep : forall sep,
             Str.contains sep (Str.lower message_text) = true ->
             exists before after,
               PyStr.split1 sep (Str.lower message_text) = [before; after]
               /\ Str.lower message_text = before +:+ sep +:+ after
               /\ (forall before' after',
                      Str.lower message_text = before' +:+ sep +:+ after' ->
                      (String.length before <= String.length before')%nat)
               /\ Str.lower (PyStr.strip after) = PyStr.strip after).
  { intros sep H.
    destruct (PyStrFacts.split_once_found _ _ H) as (before & after & Hs).
    exists before, after. unfold PyStr.split1. rewrite Hs.
    pose proof (PyStrFacts.split_once_parts _ _ _ _ Hs) as Hp.
    split; [reflexivity |]. split; [exact Hp |].
    split; [apply (PyStrFacts.split_once_first _ _ _ _ Hs) |].
    apply PyStrFacts.strip_lower.
    apply (PyStrFacts.lower_piece (Str.lower message_text)
             (before +:+ sep) after "").
    - apply PyStrFacts.lower_idem.
    - rewrite ReSound.sapp_nil_r, ReSound.sapp_assoc. exact Hp. }
  unfold cancellation_reason.
  destruct (Str.contains "because" (Str.lower message_text)) eqn:Hb.
  - destruct (Hsep _ Hb) as (before & after & Hs & Hp & Hf & Hl).
    rewrite Hs. exists (PyStr.strip after).
    split; [reflexivity |]. split; [auto |].
    split; [eauto 6 |]. split; discriminate.
  - destruct (Str.contains "reason:" (Str.lower message_text)) eqn:Hr.
    + destruct (Hsep _ Hr) as (before & after & Hs & Hp & Hf & Hl).
      rewrite Hs. exists (PyStr.strip after).
      split; [reflexivity |]. split; [auto |].
      split; [discriminate |]. split; [eauto 6 | discriminate].
    + exists "Housemaster decision". split; [reflexivity |].
      split; [auto |]. split; [discriminate |]. split; [discriminate | auto].
Qed.

(** X13.  The reason of a cancellation never fails to be found, and
    for a message of ASCII characters it is taken from the message in
    lower case: it is what follows the first "because" of the message, or
    without a "because" what follows the first "reason:", with the blanks
    at both ends removed, and so it has no capital letter; only without
    the two words is it the text "Housemaster decision". *)
Theorem X13_cancellation_reason {S : Type} (message_text : string)
  (w : World S) :
  is_ascii message_text = true ->
  exists reason,
    cancellation_reason message_text w = (HmOk reason, w)
    /\ (reason = "Housemaster decision" \/ Str.lower reason = reason)
    /\ (Str.contains "because" (Str.lower message_text) = true ->
        exists before after,
          Str.lower message_text = before +:+ "because" +:+ after
          /\ (forall before' after',
                 Str.lower message_text = before' +:+ "because" +:+ after' ->
                 (String.length before <= String.length before')%nat)
          /\ reason = PyStr.strip after)
    /\ (Str.contains "because" (Str.lower message_text) = false ->
        Str.contains "reason:" (Str.lower message_text) = true ->
        exists before after,
          Str.lower message_text = before +:+ "reason:" +:+ after
          /\ (forall before' after',
                 Str.lower message_text = before' +:+ "reason:" +:+ after' ->
                 (String.length before <= String.length before')%nat)
          /\ reason = PyStr.strip after)
    /\ (Str.contains "because" (Str.lower message_text) = false ->
        Str.contains "reason:" (Str.lower message_text) = false ->
        reason = "Housemaster decision").
Proof. intros _. apply cancellation_reason_cases. Qed.

(** A concrete instance of X13. *)
Lemma X13_cancellation_reason_witness :
  cancellation_reason "Cancel 67890 BECAUSE  He is ILL " world0
  = (HmOk "he is ill", world0).
Proof.
  destruct (X13_cancellation_reason "Cancel 67890 BECAUSE  He is ILL " world0
              eq_refl) as (reason & Hr & _).
  rewrite Hr. vm_compute in Hr. injection Hr as <-. reflexivity.
Defined.

(** The handler a request of an authenticated housemaster goes to. *)
Lemma hm_dispatch {S : Type} (tools : Tools S) (hm_tools : HmTools S)
  (now1 now2 : datetime) (message_text sender channel : string)
  (w w1 : World S) (record : HousemasterRecord) :
  tool_hm_auth_house_check hm_tools sender w = (Some record, w1) ->
  process_housemaster_request tools hm_tools now1 now2 message_text sender
    channel w
  = if asks_cancellation message_text then
      _process_hm_cancellation tools now1 now2 message_text
        (housemaster_of record) w1
    else if asks_restriction message_text then
      _process_hm_restriction hm_tools now1 now2 message_text
        (housemaster_of record) w1
    else if asks_balance message_text then
      _process_hm_balance_query hm_tools message_text (housemaster_of record)
        w1
    else if asks_leaves message_text then
      _process_hm_leave_query hm_tools message_text (housemaster_of record) w1
    else
      (HmOk (error_reply
               "I didn't understand your request. You can ask about leave balances, view leave history, cancel approved leaves, or set restrictions."),
       w1).
Proof.
  intros Ha. unfold process_housemaster_request.
  rewrite (hm_bind_call _ _ _ _ _ Ha).
  unfold asks_cancellation, asks_restriction, asks_balance, asks_leaves,
    Str.any_in. cbn [existsb]. rewrite !orb_false_r.
  fold (housemaster_of record).
  assert (Hr : Str.contains "restriction" (Str.lower message_text) = true ->
               Str.contains "restrict" (Str.lower message_text) = true).
  { intros H. apply ReSound.contains_within in H.
    destruct H as (x & y & ->).
    apply contains_app_r.
    change "restriction" with ("restrict" +:+ "ion").
    rewrite ReSound.sapp_assoc. apply contains_self_app. }
  assert (Hrest :
            (if Str.contains "balance" (Str.lower message_text)
                || Str.contains "how many" (Str.lower message_text)
             then _process_hm_balance_query hm_tools message_text
                    (housemaster_of record)
             else if Str.contains "leave" (Str.lower message_text)
                     || Str.contains "exeat" (Str.lower message_text)
                  then _process_hm_leave_query hm_tools message_text
                         (housemaster_of record)
                  else hm_ret
                         (error_reply
                            "I didn't understand your request. You can ask about leave balances, view leave history, cancel approved leaves, or set restrictions."))
              w1
            = if Str.contains "balance" (Str.lower message_text)
                 || Str.contains "how many" (Str.lower message_text)
              then _process_hm_balance_query hm_tools message_text
                     (housemaster_of record) w1
              else if Str.contains "leave" (Str.lower message_text)
                      || Str.contains "exeat" (Str.lower message_text)
                   then _process_hm_leave_query hm_tools message_text
                          (housemaster_of record) w1
                   else (HmOk
                           (error_reply
                              "I didn't understand your request. You can ask about leave balances, view leave history, cancel approved leaves, or set restrictions."),
                         w1)).
  { destruct (_ || _); [reflexivity |]. destruct (_ || _); reflexivity. }
  destruct (Str.contains "cancel" (Str.lower message_text)
            || Str.contains "revoke" (Str.lower message_text));
    [reflexivity |].
  destruct (Str.contains "restrict" (Str.lower message_text)) eqn:H1.
  - reflexivity.
  - destruct (Str.contains "restriction" (Str.lower message_text)) eqn:H2.
    + specialize (Hr eq_refl). discriminate.
    + cbn [orb]. destruct (Str.contains "block" (Str.lower message_text));
        [reflexivity | exact Hrest].
Qed.

Lemma history_lines_joined (message : string) (leaves : list LeaveEntry) :
  history_lines message leaves = message +:+ joined (map leave_line leaves).
Proof.
  revert message. induction leaves as [| leave rest IH]; intros message.
  - simpl. now rewrite ReSound.sapp_nil_r.
  - simpl. rewrite IH. unfold leave_line.
    now rewrite <- !ReSound.sapp_assoc.
Qed.

Lemma hm_terminal_reply {S : Type} (status : string) c (a : string)
  (w : World S) :
  In status ["success"; "error"] ->
  hm_terminal (HmOk (mk_HmReply status (String c a)), w).
Proof. intros H. eexists _, _. split; [reflexivity |]. split; [exact H |]. discriminate. Qed.

Ltac hm_done :=
  first [ apply hm_terminal_reply; simpl; auto
        | eexists _, _; split; [reflexivity |];
          split; [simpl; auto | apply nonempty_app] ].

Lemma cancellation_terminal {S : Type} (tools : Tools S)
  (now1 now2 : datetime) (message_text : string)
  (housemaster : HousemasterInfo) (w : World S) :
  hm_terminal (_process_hm_cancellation tools now1 now2 message_text
                 housemaster w).
Proof.
  unfold _process_hm_cancellation.
  destruct (Re.search false admin_pattern message_text) as [m |];
    [| hm_done].
  destruct (cancellation_reason_cases message_text w) as (reason & Hr & _).
  unfold hm_bind at 1. rewrite Hr.
  unfold hm_bind, hm_call.
  destruct (tool_leave_update tools _ _ _ _ _ _ _ _ _ _ _ w)
    as [[|] w2]; hm_done.
Qed.

Lemma restriction_terminal {S : Type} (hm_tools : HmTools S)
  (now1 now2 : datetime) (message_text : string)
  (housemaster : HousemasterInfo) (w : World S) :
  1 <= ordinal now2 + 14 <= DT.MAXORDINAL ->
  hm_terminal (_process_hm_restriction hm_tools now1 now2 message_text
                 housemaster w).
Proof.
  intros Hc. unfold _process_hm_restriction.
  destruct (Re.search false admin_pattern message_text) as [m |];
    [| hm_done].
  rewrite (add_days_ok _ _ Hc). unfold hm_bind, hm_lift, hm_call.
  destruct (tool_restriction_update hm_tools _ _ _ _ _ w) as [[|] w2];
    hm_done.
Qed.

Lemma balance_query_terminal {S : Type} (hm_tools : HmTools S)
  (message_text : string) (housemaster : HousemasterInfo) (w : World S) :
  hm_terminal (_process_hm_balance_query hm_tools message_text housemaster w).
Proof.
  unfold _process_hm_balance_query.
  destruct (Re.search false admin_pattern message_text) as [m |];
    [| hm_done].
  unfold hm_bind, hm_call.
  destruct (tool_leave_query_hm hm_tools _ _ _ w) as [result w2]. hm_done.
Qed.

Lemma leave_query_terminal {S : Type} (hm_tools : HmTools S)
  (message_text : string) (housemaster : HousemasterInfo) (w : World S) :
  hm_terminal (_process_hm_leave_query hm_tools message_text housemaster w).
Proof.
  unfold _process_hm_leave_query.
  destruct (Re.search false admin_pattern message_text) as [m |];
    [| hm_done].
  unfold hm_bind, hm_call.
  destruct (tool_leave_query_hm hm_tools _ _ _ w) as [result w2].
  destruct (default [] (q_leaves result)) as [| leave rest]; [hm_done |].
  rewrite history_lines_joined. unfold hm_ret.
  eexists _, _. split; [reflexivity |]. split; [simpl; auto |].
  cbn [h_message success_reply]. rewrite ReSound.sapp_assoc.
  apply nonempty_app.
Qed.

(** X14.  A request of a housemaster ends in a reply: when the second
    reading of the clock is a day at least 14 days before 9999-12-31, no
    exception reaches the caller, [IndexError] included, the status is
    "success" or "error" and the message is not empty, whatever the tools
    return. *)
Theorem X14_housemaster_request_terminal {S : Type} (tools : Tools S)
  (hm_tools : HmTools S) (now1 now2 : datetime)
  (message_text sender channel : string) (w : World S) :
  1 <= ordinal now2 + 14 <= DT.MAXORDINAL ->
  hm_terminal (process_housemaster_request tools hm_tools now1 now2
                 message_text sender channel w).
Proof.
  intros Hc.
  destruct (tool_hm_auth_house_check hm_tools sender w) as [[record |] w1]
    eqn:Ha.
  - rewrite (hm_dispatch _ _ _ _ _ _ _ _ _ _ Ha).
    destruct (asks_cancellation message_text);
      [apply cancellation_terminal |].
    destruct (asks_restriction message_text);
      [apply restriction_terminal, Hc |].
    destruct (asks_balance message_text); [apply balance_query_terminal |].
    destruct (asks_leaves message_text); [apply leave_query_terminal |].
    hm_done.
  - unfold process_housemaster_request.
    rewrite (hm_bind_call _ _ _ _ _ Ha). hm_done.
Qed.

(** A concrete instance of X14. *)
Lemma X14_housemaster_request_terminal_witness :
  hm_terminal
    (run_housemaster_request monday monday_later balance_question finningley
       "email").
Proof.
  unfold run_housemaster_request.
  apply (X14_housemaster_request_terminal LeaveSystemTools.tools
           HousemasterTools.housemaster_tools monday monday_later balance_question
           finningley "email" world0).
  vm_compute. split; discriminate.
Defined.

Lemma housemaster_error_leaves_world {S : Type} (tools : Tools S)
  (hm_tools : HmTools S) (now1 now2 : datetime)
  (message_text sender channel : string) (w w1 : World S)
  (hm_info : option HousemasterRecord) :
  tool_hm_auth_house_check hm_tools sender w = (hm_info, w1) ->
  hm_info = None
  \/ Re.search false admin_pattern message_text = None ->
  exists message,
    process_housemaster_request tools hm_tools now1 now2 message_text sender
      channel w = (HmOk (mk_HmReply "error" message), w1).
Proof.
  intros Ha H. destruct hm_info as [record |].
  - destruct H as [H | H]; [discriminate |].
    rewrite (hm_dispatch _ _ _ _ _ _ _ _ _ _ Ha).
    unfold _process_hm_cancellation, _process_hm_restriction,
      _process_hm_balance_query, _process_hm_leave_query.
    rewrite H.
    destruct (asks_cancellation message_text); [eexists; reflexivity |].
    destruct (asks_restriction message_text); [eexists; reflexivity |].
    destruct (asks_balance message_text); [eexists; reflexivity |].
    destruct (asks_leaves message_text); eexists; reflexivity.
  - unfold process_housemaster_request.
    rewrite (hm_bind_call _ _ _ _ _ Ha). eexists. reflexivity.
Qed.

(** X15.  A request of a sender that is no housemaster, or a request of
    ASCII characters that names no admin number of five digits, ends in
    an error and calls no tool besides the authentication: the world is
    the one this tool left. *)
Theorem X15_housemaster_error_leaves_world {S : Type} (tools : Tools S)
  (hm_tools : HmTools S) (now1 now2 : datetime)
  (message_text sender channel : string) (w w1 : World S)
  (hm_info : option HousemasterRecord) :
  tool_hm_auth_house_check hm_tools sender w = (hm_info, w1) ->
  hm_info = None
  \/ (is_ascii message_text = true
      /\ Re.search false admin_pattern message_text = None) ->
  exists message,
    process_housemaster_request tools hm_tools now1 now2 message_text sender
      channel w = (HmOk (mk_HmReply "error" message), w1).
Proof.
  intros Ha H. apply (housemaster_error_leaves_world _ _ _ _ _ _ _ _ _ _ Ha).
  destruct H as [H | [_ H]]; auto.
Qed.

(** Two concrete instances of X15: a sender that is no housemaster, and
    a housemaster who names no student. *)
Lemma X15_housemaster_error_leaves_world_witness :
  (exists message,
      run_housemaster_request monday monday_later cancel_text
        "nobody@example.com" "email"
      = (HmOk (mk_HmReply "error" message), world0))
  /\ (exists message,
         run_housemaster_request monday monday_later
           "Please cancel the leave of James" finningley "email"
         = (HmOk (mk_HmReply "error" message), world0)).
Proof.
  split.
  - apply (X15_housemaster_error_leaves_world LeaveSystemTools.tools
             HousemasterTools.housemaster_tools monday monday_later
             cancel_text "nobody@example.com" "email" world0 world0 None
             eq_refl (or_introl eq_refl)).
  - apply (X15_housemaster_error_leaves_world LeaveSystemTools.tools
             HousemasterTools.housemaster_tools monday monday_later
             "Please cancel the leave of James" finningley "email" world0
             world0 (Some (mk_HousemasterRecord "HM_001" "Finningley"))
             eq_refl (or_intror (conj eq_refl eq_refl))).
Defined.

(** X16.  The words "cancel" and "revoke" come first: a message of a
    housemaster, of ASCII characters, that holds one of them and an admin
    number is a cancellation, whatever else it asks.  The admin number is the five
    digits found in the message; the leave update tool is called once,
    with that number, the house and the id of the housemaster, the reason
    of X13 and the two readings of the clock, with no name, category or
    parent; its answer alone decides between success and error. *)
Theorem X16_housemaster_cancellation {S : Type} (tools : Tools S)
  (hm_tools : HmTools S) (now1 now2 : datetime)
  (message_text sender channel : string) (w w1 : World S)
  (record : HousemasterRecord) (m : Re.captures) :
  is_ascii message_text = true ->
  tool_hm_auth_house_check hm_tools sender w = (Some record, w1) ->
  asks_cancellation message_text = true ->
  Re.search false admin_pattern message_text = Some m ->
  exists (student_admin_number reason : string),
    Re.group 1 m = Some student_admin_number
    /\ is_admin_number student_admin_number = true
    /\ Str.contains student_admin_number message_text = true
    /\ cancellation_reason message_text w1 = (HmOk reason, w1)
    /\ forall (success : bool) (w2 : World S),
         tool_leave_update tools student_admin_number "" (Some now1)
           (Some now2) "" "" (hr_assignedHouse record) "" None None
           (Some (mk_Cancellation (Some (hr_hmID record)) (Some reason))) w1
         = (success, w2) ->
         process_housemaster_request tools hm_tools now1 now2 message_text
           sender channel w
         = (HmOk (cancellation_reply student_admin_number success), w2).
Proof.
  intros _ Ha Hc Hm.
  destruct (admin_number_shape _ _ Hm) as (Hg & Hn & Hin).
  destruct (cancellation_reason_cases message_text w1) as (reason & Hr & _).
  exists (admin_number_of m), reason.
  split; [exact Hg |]. split; [exact Hn |]. split; [exact Hin |].
  split; [exact Hr |].
  intros success w2 Hu.
  rewrite (hm_dispatch _ _ _ _ _ _ _ _ _ _ Ha), Hc.
  unfold _process_hm_cancellation. rewrite Hm.
  unfold hm_bind at 1. rewrite Hr.
  cbn [housemaster_of hm_id hm_house].
  rewrite (hm_bind_call _ _ _ _ _ Hu). destruct success; reflexivity.
Qed.

(** A concrete instance of X16. *)
Lemma X16_housemaster_cancellation_witness :
  run_housemaster_request monday monday_later cancel_text finningley "email"
  = (HmOk (cancellation_reply "67890" true),
     mk_World
       ["[TOOL] Leave CANCELLED for  (67890)"; "       By HM: HM_001";
        "       Reason: he is ill"; "       Balance refunded: "] tt).
Proof.
  destruct (X16_housemaster_cancellation LeaveSystemTools.tools
              HousemasterTools.housemaster_tools monday monday_later cancel_text
              finningley "email" world0 world0
              (mk_HousemasterRecord "HM_001" "Finningley")
              [(1%nat, "67890")] eq_refl eq_refl eq_refl eq_refl)
    as (student_admin_number & reason & Hg & _ & _ & Hr & Hrun).
  injection Hg as <-. vm_compute in Hr. injection Hr as <-.
  apply Hrun. reflexivity.
Defined.

(** X17.  A message of a housemaster, of ASCII characters, with
    "restrict" or "block" and without "cancel" and "revoke" places a
    restriction, a question about
    a balance that names a block included.  The restriction starts at the
    first reading of the clock and ends 14 days after the second, so it
    starts before it ends when the clock does not go back; the reason is
    always "Housemaster restriction"; the answer of the tool alone decides
    between success and error.  In the last 14 days of the year 9999 the
    request raises [OverflowError]. *)
Theorem X17_housemaster_restriction {S : Type} (tools : Tools S)
  (hm_tools : HmTools S) (now1 now2 : datetime)
  (message_text sender channel : string) (w w1 : World S)
  (record : HousemasterRecord) (m : Re.captures) :
  is_ascii message_text = true ->
  tool_hm_auth_house_check hm_tools sender w = (Some record, w1) ->
  asks_cancellation message_text = false ->
  asks_restriction message_text = true ->
  Re.search false admin_pattern message_text = Some m ->
  exists student_admin_number : string,
    Re.group 1 m = Some student_admin_number
    /\ is_admin_number student_admin_number = true
    /\ (DT.MAXORDINAL < ordinal now2 + 14 ->
        process_housemaster_request tools hm_tools now1 now2 message_text
          sender channel w = (HmRaise (Builtin OverflowError), w1))
    /\ (1 <= ordinal now2 + 14 <= DT.MAXORDINAL ->
        exists end_date : datetime,
          end_date = mk_datetime (ordinal now2 + 14) (hour now2)
                       (minute now2) (second now2) (microsecond now2)
          /\ (DT.lt now2 now1 = false -> DT.lt now1 end_date = true)
          /\ forall (success : bool) (w2 : World S),
               tool_restriction_update hm_tools (hr_hmID record)
                 student_admin_number now1 end_date "Housemaster restriction"
                 w1 = (success, w2) ->
               process_housemaster_request tools hm_tools now1 now2
                 message_text sender channel w
               = (HmOk (restriction_reply student_admin_number now1 end_date
                          success), w2)).
Proof.
  intros _ Ha Hc Hr Hm.
  destruct (admin_number_shape _ _ Hm) as (Hg & Hn & Hin).
  exists (admin_number_of m).
  split; [exact Hg |]. split; [exact Hn |].
  rewrite (hm_dispatch _ _ _ _ _ _ _ _ _ _ Ha), Hc, Hr.
  unfold _process_hm_restriction. rewrite Hm. split.
  - intros Ho. unfold DT.add_days.
    replace (ordinal now2 + 14 <=? DT.MAXORDINAL) with false
      by (symmetry; apply Z.leb_gt; exact Ho).
    rewrite andb_false_r. reflexivity.
  - intros Hk. rewrite (add_days_ok _ _ Hk).
    eexists. split; [reflexivity |]. split.
    + intros Hle. apply lt_of_ordinal. cbn [ordinal].
      pose proof (lt_of_ordinal now2 now1) as Hlt.
      destruct (Z_lt_le_dec (ordinal now2) (ordinal now1)) as [Hl | Hl];
        [rewrite (Hlt Hl) in Hle; discriminate | lia].
    + intros success w2 Hu. unfold hm_bind at 1. unfold hm_lift.
      cbn [housemaster_of hm_id hm_house].
      rewrite (hm_bind_call _ _ _ _ _ Hu). destruct success; reflexivity.
Qed.

(** A concrete instance of X17. *)
Lemma X17_housemaster_restriction_witness :
  run_housemaster_request monday monday_later balance_question finningley
    "email"
  = (HmOk (mk_HmReply "success"
             "Restriction placed on student 12345 from 10 Feb to 24 Feb."),
     mk_World
       ["[TOOL] Restriction set for student 12345"; "       By HM: HM_001";
        "       Period: 2025-02-10 to 2025-02-24";
        "       Reason: Housemaster restriction"] tt).
Proof.
  destruct (X17_housemaster_restriction LeaveSystemTools.tools
              HousemasterTools.housemaster_tools monday monday_later balance_question
              finningley "email" world0 world0
              (mk_HousemasterRecord "HM_001" "Finningley")
              [(1%nat, "12345")] eq_refl eq_refl eq_refl eq_refl eq_refl)
    as (student_admin_number & Hg & _ & _ & Hrun).
  injection Hg as <-.
  destruct Hrun as (end_date & -> & _ & Hrun);
    [vm_compute; split; discriminate |].
  apply (Hrun true). reflexivity.
Defined.

(** X18.  A question of a housemaster, of ASCII characters, about the
    leaves of a student is answered from the one call of the query tool: without leaves, or
    without the key at all, the reply says that no history was found;
    otherwise the message is the heading followed by one line for each
    leave, in the order of the tool.  The reply is a success in both
    cases. *)
Theorem X18_housemaster_leave_history {S : Type} (tools : Tools S)
  (hm_tools : HmTools S) (now1 now2 : datetime)
  (message_text sender channel : string) (w w1 w2 : World S)
  (record : HousemasterRecord) (m : Re.captures) (result : HmQueryResult) :
  is_ascii message_text = true ->
  tool_hm_auth_house_check hm_tools sender w = (Some record, w1) ->
  asks_cancellation message_text = false ->
  asks_restriction message_text = false ->
  asks_balance message_text = false ->
  asks_leaves message_text = true ->
  Re.search false admin_pattern message_text = Some m ->
  tool_leave_query_hm hm_tools (hr_hmID record) (admin_number_of m) "leaves"
    w1 = (result, w2) ->
  process_housemaster_request tools hm_tools now1 now2 message_text sender
    channel w
  = (HmOk (mk_HmReply "success"
             (match default [] (q_leaves result) with
              | [] => "No leave history found for student "
                      +:+ admin_number_of m +:+ "."
              | leaves =>
                  "Leave History for Student " +:+ admin_number_of m +:+ ":"
                  +:+ nl +:+ nl +:+ joined (map leave_line leaves)
              end)), w2).
Proof.
  intros _ Ha Hc Hr Hb Hl Hm Hq.
  rewrite (hm_dispatch _ _ _ _ _ _ _ _ _ _ Ha), Hc, Hr, Hb, Hl.
  unfold _process_hm_leave_query. rewrite Hm.
  cbn [housemaster_of hm_id hm_house].
  rewrite (hm_bind_call _ _ _ _ _ Hq).
  destruct (default [] (q_leaves result)) as [| leave rest]; [reflexivity |].
  rewrite history_lines_joined. unfold hm_ret, success_reply.
  now rewrite !ReSound.sapp_assoc.
Qed.

(** A concrete instance of X18. *)
Lemma X18_housemaster_leave_history_witness :
  run_housemaster_request monday monday_later history_text finningley "email"
  = (HmOk (mk_HmReply "success"
             ("Leave History for Student 12345:" +:+ nl +:+ nl
              +:+ leave_line placeholder_entry)), world0).
Proof.
  apply (X18_housemaster_leave_history LeaveSystemTools.tools
           HousemasterTools.housemaster_tools monday monday_later history_text finningley
           "email" world0 world0 world0
           (mk_HousemasterRecord "HM_001" "Finningley") [(1%nat, "12345")]
           (mk_HmQueryResult None (Some [placeholder_entry]))
           eq_refl eq_refl eq_refl eq_refl eq_refl eq_refl eq_refl eq_refl).
Defined.

(** X19.  A question of a housemaster, of ASCII characters, about a
    balance is always a success: the reply shows the two balances of the answer of the query
    tool, and 0 for a balance, or for both, that the answer does not
    hold. *)
Theorem X19_housemaster_balance {S : Type} (tools : Tools S)
  (hm_tools : HmTools S) (now1 now2 : datetime)
  (message_text sender channel : string) (w w1 w2 : World S)
  (record : HousemasterRecord) (m : Re.captures) (result : HmQueryResult) :
  is_ascii message_text = true ->
  tool_hm_auth_house_check hm_tools sender w = (Some record, w1) ->
  asks_cancellation message_text = false ->
  asks_restriction message_text = false ->
  asks_balance message_text = true ->
  Re.search false admin_pattern message_text = Some m ->
  tool_leave_query_hm hm_tools (hr_hmID record) (admin_number_of m) "balance"
    w1 = (result, w2) ->
  exists overnight supper : Z,
    process_housemaster_request tools hm_tools now1 now2 message_text sender
      channel w
    = (HmOk (mk_HmReply "success"
               ("Leave Balance for Student " +:+ admin_number_of m +:+ ":"
                +:+ nl +:+ "Overnight Leave: " +:+ Str.of_Z overnight
                +:+ " remaining" +:+ nl +:+ "Friday Supper Leave: "
                +:+ Str.of_Z supper +:+ " remaining")), w2)
    /\ (q_balances result = None -> overnight = 0 /\ supper = 0)
    /\ (forall balances, q_balances result = Some balances ->
          overnight = default 0 (balances !! "overnight")
          /\ supper = default 0 (balances !! "fridaySupper")).
Proof.
  intros _ Ha Hc Hr Hb Hm Hq.
  rewrite (hm_dispatch _ _ _ _ _ _ _ _ _ _ Ha), Hc, Hr, Hb.
  unfold _process_hm_balance_query. rewrite Hm.
  cbn [housemaster_of hm_id hm_house].
  rewrite (hm_bind_call _ _ _ _ _ Hq).
  eexists _, _. split; [reflexivity |].
  destruct (q_balances result) as [balances |]; simpl.
  - split; [discriminate |]. intros b [= <-]. auto.
  - split; [auto | discriminate].
Qed.

(** A concrete instance of X19. *)
Lemma X19_housemaster_balance_witness :
  exists overnight supper : Z,
    run_housemaster_request monday monday_later balance_text "27831112222"
      "whatsapp"
    = (HmOk (mk_HmReply "success"
               ("Leave Balance for Student 12345:" +:+ nl
                +:+ "Overnight Leave: " +:+ Str.of_Z overnight
                +:+ " remaining" +:+ nl +:+ "Friday Supper Leave: "
                +:+ Str.of_Z supper +:+ " remaining")), world0)
    /\ overnight = 2 /\ supper = 3.
Proof.
  destruct (X19_housemaster_balance LeaveSystemTools.tools
              HousemasterTools.housemaster_tools monday monday_later balance_text
              "27831112222" "whatsapp" world0 world0 world0
              (mk_HousemasterRecord "HM_001" "Finningley") [(1%nat, "12345")]
              (mk_HmQueryResult
                 (Some {[ "overnight" := 2; "fridaySupper" := 3 ]}) None)
              eq_refl eq_refl eq_refl eq_refl eq_refl eq_refl eq_refl)
    as (overnight & supper & Hrun & _ & Hb).
  exists overnight, supper. split; [exact Hrun |].
  destruct (Hb _ eq_refl) as [-> ->]. split; reflexivity.
Defined.

(** X20.  With the placeholder tools only the three registered contacts
    are housemasters: a request that ends in a success was sent from one
    of the two email addresses, in any case of the letters, or from the
    one phone number. *)
Theorem X20_placeholder_housemasters (now1 now2 : datetime)
  (message_text sender channel : string) (reply : HmReply)
  (w' : World unit) :
  run_housemaster_request now1 now2 message_text sender channel
  = (HmOk reply, w') ->
  h_status reply = "success" ->
  In (Str.lower sender)
    ["hm.finningley@michaelhouse.org"; "hm.shepstone@michaelhouse.org";
     "27831112222"].
Proof.
  intros H Hs. unfold run_housemaster_request in H.
  destruct (HousemasterTools.tool_hm_auth_house_check sender)
    as [record |] eqn:Ha.
  - clear H. unfold HousemasterTools.tool_hm_auth_house_check,
      HousemasterTools.mock_housemasters in Ha.
    assert (Hk : forall key,
               key = Str.lower sender \/ key = sender ->
               In key
                 ["hm.finningley@michaelhouse.org";
                  "hm.shepstone@michaelhouse.org"; "27831112222"] ->
               In (Str.lower sender)
                 ["hm.finningley@michaelhouse.org";
                  "hm.shepstone@michaelhouse.org"; "27831112222"]).
    { intros key [-> | ->] Hin; [exact Hin |].
      simpl in Hin. destruct Hin as [<- | [<- | [<- | []]]]; simpl; auto. }
    apply (Hk (if Str.contains "@" sender then Str.lower sender
               else sender));
      [destruct (Str.contains "@" sender); auto |].
    apply lookup_insert_Some in Ha. destruct Ha as [[<- _] | [_ Ha]];
      [simpl; auto |].
    apply lookup_insert_Some in Ha. destruct Ha as [[<- _] | [_ Ha]];
      [simpl; auto |].
    apply lookup_singleton_Some in Ha. destruct Ha as [<- _]. simpl. auto.
  - destruct (housemaster_error_leaves_world LeaveSystemTools.tools
                HousemasterTools.housemaster_tools now1 now2 message_text sender channel
                world0 world0 None) as (message & Hm).
    + change (tool_hm_auth_house_check HousemasterTools.housemaster_tools sender world0)
        with (HousemasterTools.tool_hm_auth_house_check sender, world0).
      now rewrite Ha.
    + auto.
    + rewrite Hm in H. injection H as <- _. discriminate.
Qed.

(** A concrete instance of X20. *)
Lemma X20_placeholder_housemasters_witness :
  In (Str.lower finningley)
    ["hm.finningley@michaelhouse.org"; "hm.shepstone@michaelhouse.org";
     "27831112222"].
Proof.
  apply (X20_placeholder_housemasters monday monday_later history_text
           finningley "email" _ _ eq_refl eq_refl).
Defined.

Lemma active_at_In (leaves : list HousemasterTools.ActiveLeave)
  (current_timestamp : datetime) (leave : HousemasterTools.ActiveLeave) :
  In leave (HousemasterTools.active_at leaves current_timestamp)
  <-> In leave leaves
      /\ DT.lt current_timestamp (HousemasterTools.al_startDate leave) = false
      /\ DT.lt (HousemasterTools.al_endDate leave) current_timestamp = false
      /\ HousemasterTools.al_departed leave = false.
Proof.
  induction leaves as [| l rest IH]; simpl; [tauto |].
  unfold HousemasterTools.le.
  destruct (DT.lt current_timestamp (HousemasterTools.al_startDate l))
    eqn:H1; simpl.
  { rewrite IH. split; [tauto |]. intros ([<- | Hin] & H2 & H3 & H4);
      [congruence | tauto]. }
  destruct (DT.lt (HousemasterTools.al_endDate l) current_timestamp)
    eqn:H2; simpl.
  { rewrite IH. split; [tauto |]. intros ([<- | Hin] & H2' & H3 & H4);
      [congruence | tauto]. }
  destruct (HousemasterTools.al_departed l) eqn:H3; simpl.
  { rewrite IH. split; [tauto |]. intros ([<- | Hin] & H2' & H3' & H4);
      [congruence | tauto]. }
  rewrite IH. split.
  - intros [<- | H]; tauto.
  - intros ([<- | Hin] & H'); tauto.
Qed.

(** X21.  The leaves the guard is shown: [tool_leave_lookup] never
    returns an empty list; with the register of the placeholder it
    returns the one leave of student 12345, and only for that student,
    exactly from the start of the leave to its end, both instants
    included. *)
Theorem X21_leave_lookup_active (student_admin_number : string)
  (current_timestamp : datetime) :
  HousemasterTools.tool_leave_lookup student_admin_number current_timestamp
  <> Some []
  /\ (forall active_leaves leave,
         HousemasterTools.tool_leave_lookup student_admin_number
           current_timestamp = Some active_leaves ->
         In leave active_leaves ->
         student_admin_number = "12345" /\ leave = james_active_leave
         /\ DT.lt current_timestamp (DT.make 2025 2 8 14 0) = false
         /\ DT.lt (DT.make 2025 2 9 18 50) current_timestamp = false)
  /\ (DT.lt current_timestamp (DT.make 2025 2 8 14 0) = false ->
      DT.lt (DT.make 2025 2 9 18 50) current_timestamp = false ->
      HousemasterTools.tool_leave_lookup "12345" current_timestamp
      = Some [james_active_leave]).
Proof.
  unfold HousemasterTools.tool_leave_lookup. split; [| split].
  - destruct (HousemasterTools.active_at _ _); discriminate.
  - intros active_leaves leave H Hin.
    assert (Ha : In leave
                   (HousemasterTools.active_at
                      (default []
                         (HousemasterTools.mock_active_leaves
                          !! student_admin_number)) current_timestamp)).
    { destruct (HousemasterTools.active_at _ _); [discriminate |].
      injection H as <-. exact Hin. }
    apply active_at_In in Ha. destruct Ha as (Hl & H1 & H2 & _).
    destruct (HousemasterTools.mock_active_leaves !! student_admin_number)
      as [leaves |] eqn:Hk; [| destruct Hl].
    unfold HousemasterTools.mock_active_leaves in Hk.
    apply lookup_singleton_Some in Hk. destruct Hk as [<- <-].
    simpl in Hl. destruct Hl as [<- | []]. auto.
  - intros H1 H2.
    change (default [] (HousemasterTools.mock_active_leaves !! "12345"))
      with [james_active_leave].
    simpl. unfold HousemasterTools.le.
    cbn [HousemasterTools.al_startDate HousemasterTools.al_endDate
         HousemasterTools.al_departed james_active_leave].
    rewrite H1, H2. reflexivity.
Qed.

(* ===================================================================== *)
(** * A day that the month does not have                                  *)
(* ===================================================================== *)

Module RefusedDates.

Import Re ReSpec ReSound Strptime.

(** A match that takes the whole text is described by the pattern. *)
Lemma match_whole ic r data caps :
  match_ ic r data = Some (caps, "") -> lang ic r data.
Proof.
  unfold match_. intros H. apply rmatch_sound in H.
  destruct H as (a & s' & p' & new & -> & Hl & _ & H).
  unfold finish in H. injection H as _ ->. now rewrite sapp_nil_r.
Qed.

Lemma strptime_no_match data fmt :
  ~ lang true (format_regex fmt) data ->
  strptime data fmt = Raise ValueError.
Proof.
  intros H. unfold strptime.
  destruct (match_ true (format_regex fmt) data) as [[caps rest] |] eqn:Hm;
    [| reflexivity].
  destruct rest; [| reflexivity].
  exfalso. apply H. eapply match_whole, Hm.
Qed.

(** The second of three parts of a text. *)
Lemma lang_middle ic r1 r2 r3 a :
  lang ic (Cat r1 (Cat r2 r3)) a ->
  exists a1 a2 a3, a = a1 +:+ a2 +:+ a3 /\ lang ic r2 a2.
Proof.
  simpl. intros (a1 & a23 & -> & _ & a2 & a3 & -> & H2 & _). eauto.
Qed.

Lemma all_chars_middle p (a1 a2 a3 : string) :
  all_chars p (a1 +:+ a2 +:+ a3) = true -> all_chars p a2 = true.
Proof.
  rewrite !all_chars_app. intros H.
  apply andb_true_iff in H. destruct H as [_ H].
  apply andb_true_iff in H. tauto.
Qed.

Lemma power_max_length (P : string -> Prop) (b n : nat) (a : string) :
  (forall x, P x -> (String.length x <= b)%nat) ->
  power P n a -> (String.length a <= n * b)%nat.
Proof.
  intros HP. revert a. induction n as [| n IH]; simpl; intros a H.
  - subst a. simpl. lia.
  - destruct H as (a1 & a2 & -> & H1 & H2). rewrite length_sapp.
    specialize (HP _ H1). specialize (IH _ H2). lia.
Qed.

Lemma lang_max_length ic r :
  bounded r = true ->
  forall a, lang ic r a -> (String.length a <= max_length r)%nat.
Proof.
  induction r as [| c | rs | r1 IH1 r2 IH2 | r1 IH1 r2 IH2 | r IH lo hi
                 | m r IH |]; simpl; intros Hb a H.
  - subst a. simpl. lia.
  - destruct H as (x & -> & _). simpl. lia.
  - destruct H as (x & -> & _). simpl. lia.
  - apply andb_true_iff in Hb. destruct Hb as [Hb1 Hb2].
    destruct H as (a1 & a2 & -> & H1 & H2). rewrite length_sapp.
    specialize (IH1 Hb1 _ H1). specialize (IH2 Hb2 _ H2). lia.
  - apply andb_true_iff in Hb. destruct Hb as [Hb1 Hb2].
    destruct H as [H | H]; [specialize (IH1 Hb1 _ H) | specialize (IH2 Hb2 _ H)];
      lia.
  - destruct hi as [h |]; [| discriminate].
    destruct H as (n & _ & Hn & H).
    apply (power_max_length _ (max_length r)) in H; [| apply IH, Hb].
    nia.
  - apply IH; assumption.
  - subst a. simpl. lia.
Qed.

(** The text of a date in numbers: ten characters, digits and slashes. *)
Lemma digit_is_digit_or_slash (c : ascii) :
  is_digit c = true -> is_digit_or_slash c = true.
Proof. apply chars_imply. vm_compute. reflexivity. Qed.

Lemma numeric_text_shape (year month day : Z) :
  1 <= year <= 9999 -> 1 <= month <= 12 -> 1 <= day <= 31 ->
  String.length (numeric_text year month day) = 10%nat
  /\ all_chars is_digit_or_slash (numeric_text year month day) = true.
Proof.
  intros Hy Hm Hd. unfold numeric_text, two_digit, four_digit.
  split; [reflexivity |].
  rewrite !sapp_cons, !sapp_nil_l. cbn [all_chars].
  assert (Hdigit : forall k, 0 <= k <= 9 ->
                     is_digit_or_slash (digit_char k) = true).
  { intros k Hk. apply digit_is_digit_or_slash.
    apply (StrptimeFacts.digit_char_facts k Hk). }
  rewrite !Hdigit by (Z.div_mod_to_equations; lia). reflexivity.
Qed.

(** No text of digits and slashes holds a character that a pattern [c]
    or a class [rs] takes, when no digit and no slash is among them. *)
Lemma no_chr (c : ascii) r1 r3 a :
  forallb (fun x => negb (chr_matches true c x && is_digit_or_slash x))
    all_ascii = true ->
  all_chars is_digit_or_slash a = true ->
  ~ lang true (Cat r1 (Cat (Chr c) r3)) a.
Proof.
  intros Hc Ha H. apply lang_middle in H.
  destruct H as (a1 & a2 & a3 & -> & x & -> & Hx).
  apply all_chars_middle in Ha. simpl in Ha. rewrite andb_true_r in Ha.
  apply all_ascii_complete with (x := x) in Hc. cbv beta in Hc.
  rewrite Hx, Ha in Hc. discriminate.
Qed.

Lemma no_blank r1 r3 a :
  all_chars is_digit_or_slash a = true ->
  ~ lang true (Cat r1 (Cat (plus space) r3)) a.
Proof.
  intros Ha H. apply lang_middle in H.
  destruct H as (a1 & a2 & a3 & -> & n & Hn & _ & Hp).
  apply all_chars_middle in Ha.
  destruct n as [| n]; [lia |]. simpl in Hp.
  destruct Hp as (b1 & b2 & -> & (x & -> & Hx) & _).
  rewrite sapp_cons in Ha. simpl in Ha.
  apply andb_true_iff in Ha. destruct Ha as [Ha _].
  assert (Hc : forallb
                 (fun x => negb (cls_matches true
                                   [(" ", " "); ("009", "013");
                                    ("028", "031")]%char x
                                 && is_digit_or_slash x)) all_ascii = true)
    by (vm_compute; reflexivity).
  apply all_ascii_complete with (x := x) in Hc. cbv beta in Hc.
  unfold space in Hx. rewrite Hx, Ha in Hc. discriminate.
Qed.

Lemma refused_by_other_formats (year month day : Z) :
  1 <= year <= 9999 -> 1 <= month <= 12 -> 1 <= day <= 31 ->
  forall fmt,
    In fmt ["%d-%m-%Y"; "%d/%m/%y"; "%d-%m-%y"; "%d %B %Y"; "%d %b %Y"] ->
    strptime (numeric_text year month day) fmt = Raise ValueError.
Proof.
  intros Hy Hm Hd fmt Hin.
  destruct (numeric_text_shape year month day Hy Hm Hd) as [Hlen Hall].
  apply strptime_no_match.
  simpl in Hin.
  destruct Hin as [<- | [<- | [<- | [<- | [<- | []]]]]]; cbn [format_regex].
  - apply no_chr; [vm_compute; reflexivity | exact Hall].
  - intros H. apply lang_max_length in H; [| vm_compute; reflexivity].
    rewrite Hlen in H. vm_compute in H. lia.
  - apply no_chr; [vm_compute; reflexivity | exact Hall].
  - apply no_blank, Hall.
  - apply no_blank, Hall.
Qed.

End RefusedDates.

(** X22.  A day that the month does not have is refused, not carried
    over into the next month: for a year, a month and a day from 1 to 31
    beyond the last day of that month, [_parse_date_string] returns
    [None] on the date written day/month/year. *)
Theorem X22_day_outside_month_is_refused (year month day : Z) :
  1 <= year <= 9999 -> 1 <= month <= 12 ->
  DT.days_in_month year month < day <= 31 ->
  _parse_date_string (numeric_text year month day) = None.
Proof.
  intros Hy Hm Hd.
  assert (Hdim : 28 <= DT.days_in_month year month).
  { unfold DT.days_in_month.
    destruct ((month =? 2) && DT.is_leap year); [lia |].
    assert (Hcases : In month (Z_range 1 12)) by (apply In_Z_range; lia).
    vm_compute in Hcases.
    repeat (destruct Hcases as [<- | Hcases]; [vm_compute; discriminate |]).
    destruct Hcases. }
  assert (Hfirst : Strptime.strptime (numeric_text year month day) "%d/%m/%Y"
                   = Raise ValueError).
  { unfold Strptime.strptime.
    rewrite StrptimeFacts.match_numeric_text by lia.
    unfold Strptime.year_of, Strptime.month_of, Strptime.int_group.
    cbn [Re.group Strptime.g_Y Strptime.g_m Strptime.g_d Strptime.g_y
         Strptime.g_B Strptime.g_b Nat.eqb option_map].
    rewrite (proj2 (StrptimeFacts.year_text year Hy)).
    rewrite !StrptimeFacts.two_digit_text by lia.
    unfold DT.check_date_fields.
    replace (day <=? DT.days_in_month year month) with false
      by (symmetry; apply Z.leb_gt; lia).
    rewrite andb_false_r. reflexivity. }
  unfold _parse_date_string, formats. cbn [try_formats].
  rewrite Hfirst.
  rewrite !(RefusedDates.refused_by_other_formats year month day Hy Hm
              ltac:(lia)) by (simpl; auto 10).
  reflexivity.
Qed.

(** A concrete instance of X22: 29 February 2025. *)
Lemma X22_day_outside_month_is_refused_witness :
  _parse_date_string (numeric_text 2025 2 29) = None.
Proof.
  apply (X22_day_outside_month_is_refused 2025 2 29);
    [lia | lia | vm_compute; split; [reflexivity | discriminate]].
Defined.

(* ===================================================================== *)
(** * Texts that carry no date                                            *)
(* ===================================================================== *)

Module NoDates.

Import Re ReSpec ReSound.

Lemma within_trans (u v a : string) : within u v -> within v a -> within u a.
Proof.
  intros (x & y & ->) (x' & y' & ->). exists (x' +:+ x), (y +:+ y').
  now rewrite !sapp_assoc.
Qed.

Lemma lower_within (v a : string) :
  within v a -> within (Str.lower v) (Str.lower a).
Proof. intros (x & y & ->). rewrite !lower_app. eexists _, _. reflexivity. Qed.

(** A word that is not in a text is not in a piece of it. *)
Lemma not_in_piece (w v a : string) :
  within v a -> Str.contains w (Str.lower a) = false ->
  Str.contains w (Str.lower v) = false.
Proof.
  intros Hv Ha. destruct (Str.contains w (Str.lower v)) eqn:H; [| reflexivity].
  apply contains_within in H. apply lower_within in Hv.
  rewrite (within_contains _ _ (within_trans _ _ _ H Hv)) in Ha.
  discriminate.
Qed.

Lemma lit_cons c c' (w : string) :
  lit (String c (String c' w)) = Cat (Chr c) (lit (String c' w)).
Proof. reflexivity. Qed.

(** What a literal takes, whatever the case of the letters. *)
Lemma lang_lit (w a : string) :
  lang true (lit w) a -> Str.lower a = Str.lower w.
Proof.
  revert a. induction w as [| c w IH]; intros a H.
  - simpl in H. now subst a.
  - destruct w as [| c' w].
    + simpl in H. destruct H as (x & -> & Hx). simpl.
      unfold chr_matches in Hx. apply Ascii.eqb_eq in Hx. now rewrite Hx.
    + rewrite lit_cons in H. simpl lang in H.
      destruct H as (a1 & a2 & -> & (x & -> & Hx) & H2).
      rewrite sapp_cons, sapp_nil_l.
      unfold chr_matches in Hx. apply Ascii.eqb_eq in Hx.
      change (Str.lower (String x a2))
        with (String (Str.lower_char x) (Str.lower a2)).
      change (Str.lower (String c (String c' w)))
        with (String (Str.lower_char c) (Str.lower (String c' w))).
      now rewrite Hx, (IH _ H2).
Qed.

Lemma power_min_length (P : string -> Prop) (b n : nat) (a : string) :
  (forall x, P x -> (b <= String.length x)%nat) ->
  power P n a -> (n * b <= String.length a)%nat.
Proof.
  intros HP. revert a. induction n as [| n IH]; simpl; intros a H.
  - lia.
  - destruct H as (a1 & a2 & -> & H1 & H2). rewrite length_sapp.
    specialize (HP _ H1). specialize (IH _ H2). lia.
Qed.

Lemma lang_min_length ic r :
  forall a, lang ic r a -> (min_length r <= String.length a)%nat.
Proof.
  induction r as [| c | rs | r1 IH1 r2 IH2 | r1 IH1 r2 IH2 | r IH lo hi
                 | m r IH |]; simpl; intros a H.
  - lia.
  - destruct H as (x & -> & _). simpl. lia.
  - destruct H as (x & -> & _). simpl. lia.
  - destruct H as (a1 & a2 & -> & H1 & H2). rewrite length_sapp.
    specialize (IH1 _ H1). specialize (IH2 _ H2). lia.
  - destruct H as [H | H]; [specialize (IH1 _ H) | specialize (IH2 _ H)]; lia.
  - destruct H as (n & Hn & _ & H).
    apply (power_min_length _ (min_length r)) in H; [| exact IH]. nia.
  - apply IH; assumption.
  - lia.
Qed.

Lemma power_first (P : string -> Prop) (p : ascii -> bool) (n : nat) :
  (forall c rest, P (String c rest) -> p c = true) ->
  forall c rest, power P n (String c rest) -> p c = true.
Proof.
  intros HP. induction n as [| n IH]; simpl; intros c rest H.
  - discriminate.
  - destruct H as (a1 & a2 & Ha & H1 & H2).
    destruct a1 as [| x a1].
    + rewrite sapp_nil_l in Ha. subst a2. eapply IH, H2.
    + rewrite sapp_cons in Ha. injection Ha as <- _. eapply HP, H1.
Qed.

(** The first character of what a pattern takes. *)
Lemma lang_first ic r :
  forall c rest, lang ic r (String c rest) -> first_accepts ic r c = true.
Proof.
  induction r as [| x | rs | r1 IH1 r2 IH2 | r1 IH1 r2 IH2 | r IH lo hi
                 | m r IH |]; simpl; intros c rest H.
  - discriminate.
  - destruct H as (y & [= -> _] & Hy). exact Hy.
  - destruct H as (y & [= -> _] & Hy). exact Hy.
  - destruct H as (a1 & a2 & Ha & H1 & H2).
    destruct a1 as [| y a1].
    + pose proof (lang_min_length _ _ _ H1) as Hl. simpl in Hl.
      destruct (min_length r1); [| lia].
      rewrite sapp_nil_l in Ha. subst a2.
      rewrite (IH2 _ _ H2). apply orb_true_r.
    + rewrite sapp_cons in Ha. injection Ha as <- _.
      rewrite (IH1 _ _ H1). destruct (min_length r1); reflexivity.
  - destruct H as [H | H]; [rewrite (IH1 _ _ H) | rewrite (IH2 _ _ H)];
      [reflexivity | apply orb_true_r].
  - destruct H as (n & _ & _ & H).
    eapply (power_first (lang ic r)); [exact IH | exact H].
  - eauto.
  - discriminate.
Qed.

(** A match of a pattern that takes at least one character begins with a
    character of the text. *)
Lemma search_first ic r text caps (p : ascii -> bool) :
  search ic r text = Some caps -> (1 <= min_length r)%nat ->
  all_chars p text = true ->
  exists c, first_accepts ic r c = true /\ p c = true.
Proof.
  intros H Hm Ht. unfold search in H.
  destruct (search_from ic r None text) as [o |] eqn:Ho; [| discriminate].
  apply search_from_sound in Ho. destruct Ho as (pre & a & Hs & Hl & _).
  pose proof (lang_min_length _ _ _ Hl) as Hlen.
  destruct a as [| c rest]; [simpl in Hlen; lia |].
  exists c. split; [eapply lang_first, Hl |].
  rewrite Hs in Ht. rewrite !all_chars_app in Ht.
  apply andb_true_iff in Ht. destruct Ht as [_ Ht].
  apply andb_true_iff in Ht. destruct Ht as [Ht _].
  simpl in Ht. apply andb_true_iff in Ht. tauto.
Qed.

(** A pattern that begins with a digit finds nothing in a text without
    digits. *)
Lemma search_needs_digit ic r text :
  (1 <= min_length r)%nat ->
  forallb (fun x => implb (first_accepts ic r x) (is_digit x)) all_ascii
  = true ->
  all_chars is_not_digit text = true ->
  search ic r text = None.
Proof.
  intros Hm Hd Ht. destruct (search ic r text) as [caps |] eqn:H;
    [| reflexivity].
  exfalso. destruct (search_first _ _ _ _ _ H Hm Ht) as (c & Hc & Hn).
  apply (chars_imply _ _ Hd) in Hc. unfold is_not_digit in Hn.
  rewrite Hc in Hn. discriminate.
Qed.

Lemma lang_cat ic r1 r2 a :
  lang ic (Cat r1 r2) a ->
  exists a1 a2, a = a1 +:+ a2 /\ lang ic r1 a1 /\ lang ic r2 a2.
Proof. intros H. exact H. Qed.

Lemma all_chars_within p (v a : string) :
  within v a -> all_chars p a = true -> all_chars p v = true.
Proof.
  intros (x & y & ->). rewrite !all_chars_app. intros H.
  apply andb_true_iff in H. destruct H as [_ H].
  apply andb_true_iff in H. tauto.
Qed.

Lemma all_chars_lower p (s : string) :
  (forall c, p c = true -> p (Str.lower_char c) = true) ->
  all_chars p s = true -> all_chars p (Str.lower s) = true.
Proof.
  intros Hp. induction s as [| c s IH]; [reflexivity |]. simpl.
  intros H. apply andb_true_iff in H. destruct H as [Hc Hs].
  rewrite (Hp _ Hc). simpl. auto.
Qed.

(** A word with a character that a text does not have is not in it. *)
Lemma word_not_in p (w a : string) :
  all_chars p a = true -> all_chars p w = false -> Str.contains w a = false.
Proof.
  intros Ha Hw. destruct (Str.contains w a) eqn:H; [| reflexivity].
  apply contains_within in H.
  rewrite (all_chars_within _ _ _ H Ha) in Hw. discriminate.
Qed.

(** A literal the pattern begins with is in the text, in lower case. *)
Lemma literal_in_text (w : string) r text caps v :
  search true (Grp 1 (Cat (lit w) r)) text = Some caps ->
  group 1 caps = Some v ->
  groups_of r = [] ->
  Str.contains (Str.lower w) (Str.lower text) = true.
Proof.
  intros H Hg Hr.
  destruct (search_group _ _ _ _ _ _ H Hg) as (Hw & r' & Hin & Hl).
  simpl in Hin. rewrite Hr in Hin.
  assert (Hgl : groups_of (lit w) = []).
  { clear. induction w as [| c [| c' w] IH]; try reflexivity.
    rewrite lit_cons. simpl. exact IH. }
  rewrite Hgl in Hin. simpl in Hin. destruct Hin as [[= <-] | []].
  apply lang_cat in Hl. destruct Hl as (a1 & a2 & -> & H1 & _).
  apply lang_lit in H1. rewrite <- H1.
  apply within_contains, lower_within.
  apply (within_trans _ (a1 +:+ a2)); [| exact Hw].
  exists "", a2. reflexivity.
Qed.

Lemma literal_only_in_text (w : string) text caps v :
  search true (Grp 1 (lit w)) text = Some caps ->
  group 1 caps = Some v ->
  Str.contains (Str.lower w) (Str.lower text) = true.
Proof.
  intros H Hg.
  destruct (search_group _ _ _ _ _ _ H Hg) as (Hw & r' & Hin & Hl).
  assert (Hgl : groups_of (lit w) = []).
  { clear. induction w as [| c [| c' w] IH]; try reflexivity.
    rewrite lit_cons. simpl. exact IH. }
  simpl in Hin. rewrite Hgl in Hin. destruct Hin as [[= <-] | []].
  apply lang_lit in Hl. rewrite <- Hl.
  apply within_contains, lower_within, Hw.
Qed.

End NoDates.

Import NoDates.

(** A pattern whose matches give no date is passed by. *)
Lemma single_date_loop_skip (now : datetime) (pattern : Re.regex)
  (rest : list Re.regex) (text : string) (leave_type : LeaveType) :
  (forall m, Re.search true pattern text = Some m ->
             exists date_str,
               Re.group 1 m = Some date_str
               /\ _parse_relative_date now date_str = Ok None) ->
  single_date_loop now (pattern :: rest) text leave_type
  = single_date_loop now rest text leave_type.
Proof.
  intros H. cbn [single_date_loop].
  destruct (Re.search true pattern text) as [m |] eqn:Hs; [| reflexivity].
  destruct (H m eq_refl) as (date_str & Hg & Hp). rewrite Hg, Hp.
  reflexivity.
Qed.

(** "this weekend" and "next weekend" are no dates. *)
Lemma weekend_is_no_date (now : datetime) (w a1 a2 a3 : string) :
  w = "this" \/ w = "next" ->
  ReSpec.lang true (Re.lit w) a1 ->
  ReSpec.lang true (Re.plus Re.space) a2 ->
  ReSpec.lang true (Re.lit "weekend") a3 ->
  _parse_relative_date now (a1 +:+ a2 +:+ a3) = Ok None.
Proof.
  intros Hw H1 H2 H3.
  assert (Hchars : all_chars is_weekend_char (a1 +:+ a2 +:+ a3) = true).
  { rewrite !all_chars_app.
    apply lang_all_chars in H1, H2, H3.
    assert (E1 : forall x, ReSpec.accepts true (Re.lit w) x = true ->
                           is_weekend_char x = true).
    { apply chars_imply. destruct Hw as [-> | ->]; vm_compute; reflexivity. }
    assert (E2 : forall x, ReSpec.accepts true (Re.plus Re.space) x = true ->
                           is_weekend_char x = true).
    { apply chars_imply. vm_compute. reflexivity. }
    assert (E3 : forall x, ReSpec.accepts true (Re.lit "weekend") x = true ->
                           is_weekend_char x = true).
    { apply chars_imply. vm_compute. reflexivity. }
    rewrite (all_chars_impl _ _ _ E1 H1), (all_chars_impl _ _ _ E2 H2),
      (all_chars_impl _ _ _ E3 H3).
    reflexivity. }
  assert (Hlow : all_chars is_weekend_char (Str.lower (a1 +:+ a2 +:+ a3))
                 = true).
  { apply all_chars_lower; [| exact Hchars].
    apply (chars_imply is_weekend_char
             (fun c => is_weekend_char (Str.lower_char c))).
    vm_compute. reflexivity. }
  assert (Hno : forall word,
             all_chars is_weekend_char word = false ->
             Str.contains word (Str.lower (a1 +:+ a2 +:+ a3)) = false).
  { intros word Hword. apply (word_not_in _ _ _ Hlow Hword). }
  assert (Hfirst : exists c rest,
             a1 +:+ a2 +:+ a3 = String c rest
             /\ ReSpec.first_accepts true (Re.lit w) c = true).
  { pose proof (lang_min_length _ _ _ H1) as Hl.
    destruct a1 as [| c a1].
    - destruct Hw as [-> | ->]; simpl in Hl; lia.
    - exists c, (a1 +:+ a2 +:+ a3). split; [reflexivity |].
      eapply lang_first, H1. }
  destruct Hfirst as (c & rest & Hs & Hc).
  assert (Hfmt : forall fmt,
             In fmt formats ->
             Strptime.strptime (a1 +:+ a2 +:+ a3) fmt = Raise ValueError).
  { intros fmt Hin. apply RefusedDates.strptime_no_match. rewrite Hs.
    intros Hl. apply lang_first in Hl.
    assert (Hx : forallb
                   (fun x => negb (ReSpec.first_accepts true (Re.lit w) x
                                   && ReSpec.first_accepts true
                                        (Strptime.format_regex fmt) x))
                   all_ascii = true).
    { unfold formats in Hin. simpl in Hin.
      destruct Hin as [<- | [<- | [<- | [<- | [<- | [<- | []]]]]]];
        destruct Hw as [-> | ->]; vm_compute; reflexivity. }
    apply all_ascii_complete with (x := c) in Hx. cbv beta in Hx.
    rewrite Hc, Hl in Hx. discriminate. }
  unfold _parse_relative_date.
  rewrite (Hno "today" eq_refl), (Hno "tomorrow" eq_refl).
  cbn [weekday_loop weekdays].
  rewrite (Hno "monday" eq_refl), (Hno "tuesday" eq_refl),
    (Hno "wednesday" eq_refl), (Hno "thursday" eq_refl),
    (Hno "friday" eq_refl), (Hno "saturday" eq_refl),
    (Hno "sunday" eq_refl).
  unfold _parse_date_string, formats. cbn [try_formats].
  rewrite !Hfmt by (unfold formats; simpl; auto 10). reflexivity.
Qed.

(** The pattern of "this" or "next" followed by a day gives no date when
    the word or the three days are missing from the text. *)
Lemma qualified_day_gives_no_date (now : datetime) (w text : string)
  (m : Re.captures) :
  w = "this" \/ w = "next" ->
  Str.contains w (Str.lower text) = false
  \/ (Str.contains "saturday" (Str.lower text) = false
      /\ Str.contains "sunday" (Str.lower text) = false
      /\ Str.contains "friday" (Str.lower text) = false) ->
  Re.search true
    (Re.Grp 1 (Re.seq [Re.lit w; Re.plus Re.space;
                       Re.alts (map Re.lit ["saturday"; "sunday"; "weekend";
                                            "friday"])])) text = Some m ->
  exists date_str,
    Re.group 1 m = Some date_str
    /\ _parse_relative_date now date_str = Ok None.
Proof.
  intros Hw Hno Hs.
  assert (Hh : exists v, Re.group 1 m = Some v)
    by (eapply ReFacts.search_has; [| exact Hs]; reflexivity).
  destruct Hh as (date_str & Hg).
  exists date_str. split; [exact Hg |].
  destruct Hno as [Hno | (Hsat & Hsun & Hfri)].
  - exfalso.
    assert (Hl : Str.lower w = w) by (destruct Hw as [-> | ->]; reflexivity).
    rewrite <- Hl in Hno.
    rewrite (literal_in_text w _ text m date_str Hs Hg eq_refl) in Hno.
    discriminate.
  - destruct (ReSound.search_group _ _ _ _ _ _ Hs Hg)
      as (Hin & r' & Hr & Hl).
    assert (Hgl : ReSpec.groups_of (Re.lit w) = [])
      by (destruct Hw as [-> | ->]; reflexivity).
    simpl in Hr. rewrite Hgl in Hr. simpl in Hr.
    destruct Hr as [[= <-] | []].
    apply lang_cat in Hl. destruct Hl as (a1 & a23 & -> & H1 & Hl).
    apply lang_cat in Hl. destruct Hl as (a2 & a3 & -> & H2 & H3).
    assert (Hword : forall word,
               ReSpec.lang true (Re.lit word) a3 ->
               Str.lower word = word ->
               Str.contains word (Str.lower text) = false -> False).
    { intros word Hlw Hlow Hnot. apply lang_lit in Hlw.
      rewrite Hlow in Hlw.
      assert (Hc : Str.contains word (Str.lower text) = true).
      { rewrite <- Hlw. apply within_contains, lower_within.
        apply (within_trans _ (a1 +:+ a2 +:+ a3)); [| exact Hin].
        exists (a1 +:+ a2), "".
        now rewrite ReSound.sapp_nil_r, !ReSound.sapp_assoc. }
      rewrite Hc in Hnot. discriminate. }
    destruct H3 as [H3 | [H3 | [H3 | H3]]].
    + exfalso. apply (Hword "saturday" H3 eq_refl Hsat).
    + exfalso. apply (Hword "sunday" H3 eq_refl Hsun).
    + apply (weekend_is_no_date now w a1 a2 a3 Hw H1 H2 H3).
    + exfalso. apply (Hword "friday" H3 eq_refl Hfri).
Qed.

Lemma word_gives_no_date (now : datetime) (w text : string)
  (m : Re.captures) :
  Str.lower w = w ->
  Str.contains w (Str.lower text) = false ->
  Re.search true (Re.Grp 1 (Re.lit w)) text = Some m ->
  exists date_str,
    Re.group 1 m = Some date_str
    /\ _parse_relative_date now date_str = Ok None.
Proof.
  intros Hl Hno Hs. exfalso.
  assert (Hh : exists v, Re.group 1 m = Some v)
    by (eapply ReFacts.search_has; [| exact Hs]; reflexivity).
  destruct Hh as (date_str & Hg).
  rewrite <- Hl in Hno.
  rewrite (literal_only_in_text w text m date_str Hs Hg) in Hno.
  discriminate.
Qed.

Lemma extract_dates_none (now : datetime) (text : string)
  (leave_type : LeaveType) :
  all_chars is_not_digit text = true ->
  Str.contains "today" (Str.lower text) = false ->
  Str.contains "tomorrow" (Str.lower text) = false ->
  (Str.contains "this" (Str.lower text) = false
   /\ Str.contains "next" (Str.lower text) = false)
  \/ (Str.contains "saturday" (Str.lower text) = false
      /\ Str.contains "sunday" (Str.lower text) = false
      /\ Str.contains "friday" (Str.lower text) = false) ->
  _extract_dates now text leave_type = Ok (None, None).
Proof.
  intros Hd Htoday Htomorrow Hq. unfold _extract_dates.
  rewrite (search_needs_digit false date_range_pattern text
             ltac:(vm_compute; lia) ltac:(vm_compute; reflexivity) Hd).
  unfold DATE_PATTERNS.
  rewrite single_date_loop_skip.
  2:{ intros m Hs.
      rewrite search_needs_digit in Hs;
        [discriminate | vm_compute; lia | vm_compute; reflexivity
        | exact Hd]. }
  rewrite single_date_loop_skip.
  2:{ intros m Hs.
      rewrite search_needs_digit in Hs;
        [discriminate | vm_compute; lia | vm_compute; reflexivity
        | exact Hd]. }
  rewrite single_date_loop_skip.
  2:{ intros m. apply (qualified_day_gives_no_date now "this"); [auto |].
      destruct Hq as [[H _] | H]; auto. }
  rewrite single_date_loop_skip.
  2:{ intros m. apply (qualified_day_gives_no_date now "next"); [auto |].
      destruct Hq as [[_ H] | H]; auto. }
  rewrite single_date_loop_skip.
  2:{ intros m. apply (word_gives_no_date now "tomorrow"); auto. }
  rewrite single_date_loop_skip.
  2:{ intros m. apply (word_gives_no_date now "today"); auto. }
  reflexivity.
Qed.

(** X23.  A message of ASCII characters that holds no digit, neither
    "today" nor "tomorrow", and either none of the words "this" and
    "next" or none of the days "saturday", "sunday" and "friday" carries
    no date: [parse_request] returns it with both dates [None].  So "this weekend" or the name of
    a day alone gives no date, although the patterns list them.  The
    engine then never approves the request: it returns a decision, which
    is the failure of the authentication, of the parsing or of the
    linkage, or the error "missing_dates". *)
Theorem X23_message_without_a_date {S : Type} (tools : Tools S)
  (now : datetime) (message sender channel : string) (w : World S) :
  is_ascii message = true ->
  all_chars is_not_digit message = true ->
  Str.contains "today" (Str.lower message) = false ->
  Str.contains "tomorrow" (Str.lower message) = false ->
  (Str.contains "this" (Str.lower message) = false
   /\ Str.contains "next" (Str.lower message) = false)
  \/ (Str.contains "saturday" (Str.lower message) = false
      /\ Str.contains "sunday" (Str.lower message) = false
      /\ Str.contains "friday" (Str.lower message) = false) ->
  parse_request now message
  = Ok (mk_ParsedData (_extract_student_identifier message)
          (_determine_leave_type (Str.lower message)) None None message)
  /\ exists (d : Decision) (w' : World S),
       process_parent_request tools now message sender channel w = (Ok d, w')
       /\ (d_reason d = Some "authentication_failed"
           \/ d_reason d = Some "parse_failed"
           \/ d_reason d = Some "student_linkage_failed"
           \/ d = missing_dates_decision).
Proof.
  intros _ Hd Htoday Htomorrow Hq.
  assert (Hp : parse_request now message
               = Ok (mk_ParsedData (_extract_student_identifier message)
                       (_determine_leave_type (Str.lower message)) None None
                       message)).
  { unfold parse_request. cbv zeta.
    rewrite extract_dates_none; [reflexivity | | | |];
      rewrite ?PyStrFacts.lower_idem; try assumption.
    apply all_chars_lower; [| exact Hd].
    apply (chars_imply is_not_digit
             (fun c => is_not_digit (Str.lower_char c))).
    vm_compute. reflexivity. }
  split; [exact Hp |].
  unfold process_parent_request. unfold bind at 1.
  destruct (authenticate_ok tools sender channel w) as (r & w1 & -> & _).
  destruct r as [text | parent_info]; [unfold ret; eauto 6 |].
  unfold bind at 1. unfold lift at 1. rewrite Hp.
  cbn [pd_student_identifier pd_leave_type pd_start_date pd_end_date].
  destruct (negb (truthy (_extract_student_identifier message)));
    [unfold ret; eauto 6 |].
  unfold bind at 1. unfold call at 1.
  destruct (tool_student_parent_linkage tools _ _ w1) as [[record |] w2];
    [| unfold ret; eauto 7].
  unfold _process_leave_eligibility. cbn [start_date]. unfold ret.
  eauto 7.
Qed.

(** A concrete instance of X23: a request for "this weekend". *)
Lemma X23_message_without_a_date_witness :
  parse_request thursday "James Smith would like to come home this weekend"
  = Ok (mk_ParsedData (Some "James Smith") DAY_LEAVE None None
          "James Smith would like to come home this weekend").
Proof.
  apply (proj1 (X23_message_without_a_date LeaveSystemTools.tools thursday
                  "James Smith would like to come home this weekend"
                  "27831112222" "whatsapp" world0
                  eq_refl eq_refl eq_refl eq_refl
                  (or_intror (conj eq_refl (conj eq_refl eq_refl))))).
Defined.
